(** * route53-transfer-ng: the reconciliation core of [route53_transfer/app.py]

    A shallow embedding of [skip_apex_soa_ns], [compute_changes],
    [assign_change_priority] and [changes_to_r53_updates], and the
    properties of the diff engine, the priority assigner and the batch
    planner.

    Python values are modelled as follows.
    - [str] is [string]; [==] is decidable equality, [<] is the
      lexicographic order on character codes ([String.ltb]).
    - [int] is [Z].
    - a [frozenset] of records is a duplicate-free list of its elements;
      the order in which Python iterates over it is not fixed by the
      source and is a parameter, [set_iter].
    - [defaultdict(int)] is a [gmap string Z] whose reads insert the
      default.
    - a change is the dict [{"zone", "operation", "record"}], to which
      [assign_change_priority] adds the key ["prio"]: the field [prio]
      is an [option], [None] while the key is absent.
    - [sorted(..., key=...)] is a stable sort. *)

From stdpp Require Import base option list sorting strings gmap pretty.
From Stdlib Require Import ZArith Ascii.

Set Warnings "-clear-no-such-hyp".

Local Open Scope string_scope.
Local Open Scope list_scope.
Local Open Scope Z_scope.

(** ** Record model *)

Inductive ContinentCodeEnum : Type :=
  | Africa | Antarctica | Asia | Europe | Oceania | NorthAmerica | SouthAmerica.

(** Modelled from the spec: [GeoLocationModel] of [route53_transfer/models.py],
    which is not part of the sources; the fields are those of section 3. *)
Record GeoLocationModel : Type := {
  ContinentCode : option ContinentCodeEnum;
  CountryCode : option string;
  SubdivisionCode : option string
}.

(** Modelled from the spec: [ResourceRecord] of [route53_transfer/models.py],
    one value string. *)
Record ResourceRecord : Type := { Value : string }.

(** Modelled from the spec: the alias target of a record, with the fields
    [DNSName], [HostedZoneId] and [EvaluateTargetHealth] of section 3. *)
Record AliasTargetModel : Type := {
  DNSName : string;
  HostedZoneId : string;
  EvaluateTargetHealth : bool
}.

(** Modelled from the spec: [R53Record] of [route53_transfer/models.py].
    [Type_] is the field [Type]. Equality and hashing are structural. *)
Record R53Record : Type := {
  Name : string;
  Type_ : string;
  TTL : option Z;
  ResourceRecords : list ResourceRecord;
  AliasTarget : option AliasTargetModel;
  GeoLocation : option GeoLocationModel;
  SetIdentifier : option string;
  Weight : option Z;
  Failover : option string;
  Region : option string;
  MultiValueAnswer : option bool;
  HealthCheckId : option string
}.

#[global] Instance ContinentCodeEnum_eq_dec : EqDecision ContinentCodeEnum.
Proof. solve_decision. Defined.
#[global] Instance GeoLocationModel_eq_dec : EqDecision GeoLocationModel.
Proof. solve_decision. Defined.
#[global] Instance ResourceRecord_eq_dec : EqDecision ResourceRecord.
Proof. solve_decision. Defined.
#[global] Instance AliasTargetModel_eq_dec : EqDecision AliasTargetModel.
Proof. solve_decision. Defined.
#[global] Instance R53Record_eq_dec : EqDecision R53Record.
Proof. solve_decision. Defined.

(** Modelled from the spec: [R53Record.is_alias] of the missing
    [route53_transfer/models.py]; a record is an alias iff [AliasTarget]
    is present. *)
Definition R53Record_is_alias (r : R53Record) : bool :=
  match AliasTarget r with Some _ => true | None => false end.

(** A zone is the dict [{"id": ..., "name": ...}] built by [get_zone]. *)
Record Zone : Type := { zone_id : string; zone_name : string }.

#[global] Instance Zone_eq_dec : EqDecision Zone.
Proof. solve_decision. Defined.

Inductive Operation : Type := CREATE | DELETE | UPSERT.

#[global] Instance Operation_eq_dec : EqDecision Operation.
Proof. solve_decision. Defined.

(** The dict of one change. *)
Record Change : Type := {
  zone : Zone;
  operation : Operation;
  record : R53Record;
  prio : option Z
}.

#[global] Instance Change_eq_dec : EqDecision Change.
Proof. solve_decision. Defined.

(** Modelled from the spec: [ChangeBatch] of the missing
    [route53_transfer/change_batch.py], an ordered list [changes] to which
    [add_change] appends. *)
Record ChangeBatch : Type := { changes : list Change }.

Definition new_ChangeBatch : ChangeBatch := {| changes := [] |}.

Definition add_change (b : ChangeBatch) (c : Change) : ChangeBatch :=
  {| changes := changes b ++ [c] |}.

#[global] Instance ChangeBatch_eq_dec : EqDecision ChangeBatch.
Proof. solve_decision. Defined.

(** ** [sorted]: Python's stable sort

    [before y x] says that the key of [y] is strictly before the key of
    [x] in the requested order. An element is placed after the elements
    that are strictly before it and ahead of every other one, so elements
    with equal keys keep the order of the input. *)

Section stable_sort.
Context {A : Type} (before : A → A → bool).

Fixpoint insert_sorted (x : A) (l : list A) : list A :=
    match l with
    | [] => [x]
    | y :: l' => if before y x then y :: insert_sorted x l' else x :: y :: l'
    end.

Definition sorted (l : list A) : list A := foldr insert_sorted [] l.
End stable_sort.

(** The truth value of a list: a list is true iff it is not empty. *)
Definition truthy {A : Type} (l : list A) : bool :=
  match l with [] => false | _ :: _ => true end.

(** ** Frozen sets *)

Definition frozenset (l : list R53Record) : list R53Record := remove_dups l.

Definition difference (s t : list R53Record) : list R53Record :=
  list_difference s t.

(** ** [skip_apex_soa_ns] *)

Definition is_apex_soa_ns (z : Zone) (r : R53Record) : bool :=
  bool_decide (Name r = zone_name z)
  && (bool_decide (Type_ r = "SOA") || bool_decide (Type_ r = "NS")).

Fixpoint skip_apex_soa_ns (z : Zone) (records : list R53Record) : list R53Record :=
  match records with
  | [] => []
  | r :: records' =>
      if is_apex_soa_ns z r then skip_apex_soa_ns z records'
      else r :: skip_apex_soa_ns z records'
  end.

(** ** [compute_changes] *)

Section diff_engine.
  (** The order in which Python iterates over a frozen set. *)
Variable set_iter : list R53Record → list R53Record.

Fixpoint is_in_list (r : R53Record) (s : list R53Record) : bool :=
    match s with
    | [] => false
    | entry :: s' => if decide (Name entry = Name r) then true else is_in_list r s'
    end.

Definition is_in_set (r : R53Record) (s : list R53Record) : bool :=
    is_in_list r (set_iter s).

Definition sort_by_name (s : list R53Record) : list R53Record :=
    sorted (λ y x, String.ltb (Name y) (Name x)) (set_iter s).

Definition mk_change (z : Zone) (op : Operation) (r : R53Record) : Change :=
    {| zone := z; operation := op; record := r; prio := None |}.

Definition compute_changes (z : Zone) (existing_records desired_records : list R53Record)
      (use_upsert : bool) : list Change :=
    let existing_records := frozenset (skip_apex_soa_ns z existing_records) in
    let desired_records := frozenset (skip_apex_soa_ns z desired_records) in
    let to_delete := difference existing_records desired_records in
    let to_add := difference desired_records existing_records in
    let changes : list Change := [] in
    if truthy to_add || truthy to_delete then
      let changes :=
        foldl (λ changes r,
                 let op_type :=
                   if use_upsert && is_in_set r to_delete then UPSERT else CREATE in
                 changes ++ [mk_change z op_type r])
              changes (sort_by_name to_add) in
      foldl (λ changes r,
               if negb (use_upsert && is_in_set r to_add)
               then mk_change z DELETE r :: changes
               else changes)
            changes (sort_by_name to_delete)
    else changes.
End diff_engine.

(** ** [defaultdict(int)]

    Reading a missing key stores the default [0] under it and returns it. *)

Definition dd_getitem (d : gmap string Z) (k : string) : Z * gmap string Z :=
  match d !! k with
  | Some v => (v, d)
  | None => (0, <[k:=0]> d)
  end.

Definition dd_setitem (d : gmap string Z) (k : string) (v : Z) : gmap string Z :=
  <[k:=v]> d.

(** ** [assign_change_priority] *)

Definition set_prio (change : Change) (p : Z) : Change :=
  {| zone := zone change; operation := operation change;
     record := record change; prio := Some p |}.

Section priority_assigner.
Variable z : Zone.

Definition is_same_zone (change : Change) : bool :=
    bool_decide (zone_id (zone change) = zone_id z).

Definition is_alias (change : Change) : bool :=
    R53Record_is_alias (record change) && is_same_zone change.

Definition is_new_alias (change : Change) : bool :=
    is_alias change
    && match operation change with CREATE | UPSERT => true | DELETE => false end.

  (** [rr_prio[record.AliasTarget.DNSName] += 1] for every new alias. The
      branch [None] is not reachable: [is_new_alias] implies that the alias
      target is present. *)
Definition first_pass (rr_prio : gmap string Z) (change_operations : list Change)
      : gmap string Z :=
    foldl (λ rr_prio change,
             if is_new_alias change then
               match AliasTarget (record change) with
               | Some target =>
                   let '(v, rr_prio) := dd_getitem rr_prio (DNSName target) in
                   dd_setitem rr_prio (DNSName target) (v + 1)
               | None => rr_prio
               end
             else rr_prio)
          rr_prio change_operations.

  (** [rr_prio[record.AliasTarget.DNSName] += rr_prio[record.Name]] for
      every new alias: the left item is read first, then the right one, then
      the sum is stored. *)
Definition second_pass (rr_prio : gmap string Z) (change_operations : list Change)
      : gmap string Z :=
    foldl (λ rr_prio change,
             if is_new_alias change then
               match AliasTarget (record change) with
               | Some target =>
                   let '(v, rr_prio) := dd_getitem rr_prio (DNSName target) in
                   let '(w, rr_prio) := dd_getitem rr_prio (Name (record change)) in
                   dd_setitem rr_prio (DNSName target) (v + w)
               | None => rr_prio
               end
             else rr_prio)
          rr_prio change_operations.

  (** [change["prio"] = rr_prio[record.Name]] for every change; the changes
      are updated in place, so the list keeps its elements in their order. *)
Definition final_pass (rr_prio : gmap string Z) (change_operations : list Change)
      : gmap string Z * list Change :=
    foldl (λ '(rr_prio, done) change,
             let '(v, rr_prio) := dd_getitem rr_prio (Name (record change)) in
             (rr_prio, done ++ [set_prio change v]))
          (rr_prio, []) change_operations.

  (** The list of changes as it is after the call. *)
Definition assign_change_priority (change_operations : list Change) : list Change :=
    let rr_prio : gmap string Z := ∅ in
    let rr_prio := first_pass rr_prio change_operations in
    let rr_prio := second_pass rr_prio change_operations in
    (final_pass rr_prio change_operations).2.
End priority_assigner.

(** ** [changes_to_r53_updates] *)

(** [change["prio"]]: fails when the key is absent. *)
Definition getitem_prio (change : Change) : option Z := prio change.

(** [sorted(change_operations, key=lambda c: c["prio"], reverse=True)]:
    the keys are computed first, then the changes are sorted on them, the
    larger key first, equal keys in the order of the input. *)
Definition sorted_by_prio_reverse (change_operations : list Change) : option (list Change) :=
  keys ← mapM getitem_prio change_operations;
  Some ((sorted (λ y x, Z.ltb x.1 y.1) (zip keys change_operations)).*2).

Definition batch_state : Type := list ChangeBatch * ChangeBatch * option Z.

(** The body of the loop over the sorted changes. *)
Definition batch_step (st : batch_state) (change : Change) : option batch_state :=
  let '(r53_update_batches, current_batch, current_prio) := st in
  order ← getitem_prio change;
  let current_prio := match current_prio with None => order | Some p => p end in
  let '(r53_update_batches, current_batch) :=
    if bool_decide (order ≠ current_prio) then
      ((if truthy (changes current_batch)
        then r53_update_batches ++ [current_batch]
        else r53_update_batches),
       new_ChangeBatch)
    else (r53_update_batches, current_batch) in
  Some (r53_update_batches, add_change current_batch change, Some order).

Fixpoint batch_loop (st : batch_state) (l : list Change) : option batch_state :=
  match l with
  | [] => Some st
  | change :: l' => st' ← batch_step st change; batch_loop st' l'
  end.

Definition changes_to_r53_updates (z : Zone) (change_operations : list Change)
    : option (list ChangeBatch) :=
  let change_operations := assign_change_priority z change_operations in
  l ← sorted_by_prio_reverse change_operations;
  '(r53_update_batches, current_batch, _) ← batch_loop ([], new_ChangeBatch, None) l;
  Some (if truthy (changes current_batch)
        then r53_update_batches ++ [current_batch]
        else r53_update_batches).

(** ** The Priority Assigner as the specification words it

    Section 4.3: a mapping [targetWeight] from names to integers, default
    0; a first pass that adds 1 at the alias target of every same-zone,
    newly created or upserted alias; a second pass that, for every such
    alias again, adds the weight at the record's own name to the weight at
    its alias target; a final pass that gives every change the weight at
    its record's name. *)

Module Spec.
  (** The alias target of a change that is a same-zone CREATE or UPSERT of
      an alias record, [None] for every other change. *)
Definition new_alias_target (z : Zone) (change : Change) : option string :=
    match AliasTarget (record change), operation change with
    | Some target, (CREATE | UPSERT) =>
        if decide (zone_id (zone change) = zone_id z)
        then Some (DNSName target) else None
    | _, _ => None
    end.

Definition add_weight (w : string → Z) (k : string) (n : Z) : string → Z :=
    λ k', if decide (k' = k) then w k' + n else w k'.

Definition pass1 (z : Zone) (changes : list Change) : string → Z :=
    foldl (λ w change,
             match new_alias_target z change with
             | Some t => add_weight w t 1
             | None => w
             end)
          (λ _, 0) changes.

Definition pass2 (z : Zone) (w : string → Z) (changes : list Change) : string → Z :=
    foldl (λ w change,
             match new_alias_target z change with
             | Some t => add_weight w t (w (Name (record change)))
             | None => w
             end)
          w changes.

Definition targetWeight (z : Zone) (changes : list Change) : string → Z :=
    pass2 z (pass1 z changes) changes.

Definition assignPriority (z : Zone) (changes : list Change) : list Change :=
    (λ change, set_prio change (targetWeight z changes (Name (record change))))
      <$> changes.
End Spec.

(** ** Names used in the statements *)

(** The two differences [compute_changes] works on. *)
Definition to_delete (z : Zone) (existing_records desired_records : list R53Record)
    : list R53Record :=
  difference (frozenset (skip_apex_soa_ns z existing_records))
             (frozenset (skip_apex_soa_ns z desired_records)).

Definition to_add (z : Zone) (existing_records desired_records : list R53Record)
    : list R53Record :=
  difference (frozenset (skip_apex_soa_ns z desired_records))
             (frozenset (skip_apex_soa_ns z existing_records)).

(** An admissible iteration order lists the elements of a set, each once. *)
Definition iterates_sets (set_iter : list R53Record → list R53Record) : Prop :=
  ∀ s, NoDup s → set_iter s ≡ₚ s.

(** The value that reading key [k] of the [defaultdict] returns. *)
Definition dd_val (d : gmap string Z) (k : string) : Z := default 0 (d !! k).

(** The [defaultdict] [d] holds the weights [w]. *)
Definition represents (d : gmap string Z) (w : string → Z) : Prop :=
  ∀ k, dd_val d k = w k.

(** The key of the batch planner's sort, for a change that has one. *)
Definition prio_key (change : Change) : Z := default 0 (prio change).

(** The comparison of the batch planner's sort: the larger key first. *)
Definition prio_before (y x : Change) : bool := Z.ltb (prio_key x) (prio_key y).

(** A batch of priority [p]: not empty, and all its changes have priority [p]. *)
Definition batch_of_prio (p : Z) (b : ChangeBatch) : Prop :=
  changes b ≠ [] ∧ Forall (λ c, prio c = Some p) (changes b).

(** The comparison of [sort_by_name]. *)
Definition name_before (y x : R53Record) : bool := String.ltb (Name y) (Name x).

(** The records of the changes of one operation, in the order of the list. *)
Definition records_of (op : Operation) (l : list Change) : list R53Record :=
  record <$> filter (λ c, operation c = op) l.

(** ** Concrete records and zones for the examples *)

Definition example_zone : Zone :=
  {| zone_id := "Z0123456789"; zone_name := "example.com." |}.

Definition plain_record (n ty : string) (ttl : Z) (v : string) : R53Record :=
  {| Name := n; Type_ := ty; TTL := Some ttl;
     ResourceRecords := [ {| Value := v |} ];
     AliasTarget := None; GeoLocation := None; SetIdentifier := None;
     Weight := None; Failover := None; Region := None;
     MultiValueAnswer := None; HealthCheckId := None |}.

Definition alias_record (n ty target : string) : R53Record :=
  {| Name := n; Type_ := ty; TTL := None; ResourceRecords := [];
     AliasTarget := Some {| DNSName := target; HostedZoneId := "Z0123456789";
                            EvaluateTargetHealth := false |};
     GeoLocation := None; SetIdentifier := None;
     Weight := None; Failover := None; Region := None;
     MultiValueAnswer := None; HealthCheckId := None |}.

(** * Properties *)

(** ** The stable sort *)

Section stable_sort_facts.
Context {A : Type} (before : A → A → bool).

Lemma insert_sorted_perm x l : insert_sorted before x l ≡ₚ x :: l.
  Proof.
    induction l as [|y l IH]; simpl; [done|].
    destruct (before y x); [|done].
    rewrite IH. apply Permutation_swap.
  Qed.

Lemma sorted_perm l : sorted before l ≡ₚ l.
  Proof.
    induction l as [|x l IH]; simpl; [done|].
    by rewrite insert_sorted_perm, IH.
  Qed.

  (** Stability: the elements of one class of keys, none of which is
      before another, come out in the order in which they came in. *)
Lemma filter_insert_sorted (P : A → Prop) `{!∀ x, Decision (P x)} x l :
    (∀ y, P x → P y → before y x = false) →
    filter P (insert_sorted before x l) = filter P (x :: l).
  Proof.
    intros Hcls. induction l as [|y l IH]; simpl; [done|].
    destruct (before y x) eqn:Hyx; [|done].
    rewrite !filter_cons in *.
    destruct (decide (P y)) as [Hy|Hy], (decide (P x)) as [Hx|Hx];
      rewrite ?IH; try done.
    specialize (Hcls y Hx Hy). congruence.
  Qed.

Lemma filter_sorted (P : A → Prop) `{!∀ x, Decision (P x)} l :
    (∀ x y, P x → P y → before y x = false) →
    filter P (sorted before l) = filter P l.
  Proof.
    intros Hcls. induction l as [|x l IH]; simpl; [done|].
    rewrite filter_insert_sorted by eauto.
    by rewrite !filter_cons, IH.
  Qed.

Lemma Sorted_insert_sorted x l :
    (∀ a b, before a b = true → before b a = false) →
    Sorted (λ a b, before b a = false) l →
    Sorted (λ a b, before b a = false) (insert_sorted before x l).
  Proof.
    intros Hasym. induction 1 as [|y l Hl IH Hhd]; simpl.
    { repeat constructor. }
    destruct (before y x) eqn:Hyx.
    - constructor; [done|].
      destruct Hhd as [|y' l' Hy']; simpl.
      + constructor. by apply Hasym.
      + destruct (before y' x); constructor; [done|by apply Hasym].
    - constructor; [by constructor|by constructor].
  Qed.

Lemma Sorted_sorted l :
    (∀ a b, before a b = true → before b a = false) →
    Sorted (λ a b, before b a = false) (sorted before l).
  Proof.
    intros Hasym. induction l as [|x l IH]; simpl; [constructor|].
    by apply Sorted_insert_sorted.
  Qed.
End stable_sort_facts.

Lemma insert_sorted_fmap {A B : Type} (f : A → B) (bA : A → A → bool)
    (bB : B → B → bool) x l :
  (∀ a b, bB (f a) (f b) = bA a b) →
  insert_sorted bB (f x) (f <$> l) = f <$> insert_sorted bA x l.
Proof.
  intros Hb. induction l as [|y l IH]; csimpl; [done|].
  rewrite Hb. destruct (bA y x); csimpl; [by rewrite IH|done].
Qed.

Lemma sorted_fmap {A B : Type} (f : A → B) (bA : A → A → bool)
    (bB : B → B → bool) l :
  (∀ a b, bB (f a) (f b) = bA a b) →
  sorted bB (f <$> l) = f <$> sorted bA l.
Proof.
  intros Hb. induction l as [|x l IH]; csimpl; [done|].
  rewrite IH. by apply insert_sorted_fmap.
Qed.

(** ** The order on names *)

Lemma ltb_false_le (a b : string) : String.ltb b a = false ↔ (a ≤ b)%string.
Proof.
  unfold String.le, String.leb, String.ltb.
  rewrite (String.compare_antisym a b).
  destruct (String.compare b a); simpl; split; intros H; try done; try exact I.
Qed.

Lemma ltb_asym (a b : string) : String.ltb a b = true → String.ltb b a = false.
Proof.
  unfold String.ltb. rewrite (String.compare_antisym a b).
  by destruct (String.compare b a).
Qed.

#[local] Instance name_order_trans :
  Transitive (λ a b : R53Record, name_before b a = false).
Proof.
  intros a b c. unfold name_before. rewrite !ltb_false_le. apply transitivity.
Qed.

#[local] Instance name_order_flip_trans :
  Transitive (flip (λ a b : R53Record, name_before b a = false)).
Proof. intros a b c ??. by trans b. Qed.

(** ** Frozen sets and the apex filter *)

Lemma difference_self (s : list R53Record) : difference s s = [].
Proof.
  unfold difference. destruct (list_difference s s) as [|x l] eqn:E; [done|].
  assert (x ∈ list_difference s s) as Hx by (rewrite E; left).
  apply list_elem_of_difference in Hx. by destruct Hx.
Qed.

Lemma difference_disjoint (s t : list R53Record) :
  (∀ x, x ∈ s → x ∉ t) → difference s t = s.
Proof.
  unfold difference. induction s as [|x s IH]; intros Hd; simpl; [done|].
  destruct (decide_rel _ x t) as [Hin|Hin].
  - destruct (Hd x); [left|done].
  - rewrite IH; [done|]. intros y ?. apply Hd. by right.
Qed.

Lemma difference_subseteq (s t : list R53Record) :
  (∀ x, x ∈ s → x ∈ t) → difference s t = [].
Proof.
  unfold difference. induction s as [|x s IH]; intros Hd; simpl; [done|].
  destruct (decide_rel _ x t) as [Hin|Hin].
  - apply IH. intros y ?. apply Hd. by right.
  - destruct Hin. apply Hd. left.
Qed.

Lemma elem_of_skip_apex_soa_ns z r l :
  r ∈ skip_apex_soa_ns z l ↔ r ∈ l ∧ is_apex_soa_ns z r = false.
Proof.
  induction l as [|x l IH]; simpl.
  - rewrite elem_of_nil. naive_solver.
  - destruct (is_apex_soa_ns z x) eqn:E; rewrite ?elem_of_cons, IH;
      naive_solver congruence.
Qed.

Lemma skip_apex_soa_ns_idemp z l :
  skip_apex_soa_ns z (skip_apex_soa_ns z l) = skip_apex_soa_ns z l.
Proof.
  induction l as [|x l IH]; simpl; [done|].
  destruct (is_apex_soa_ns z x) eqn:E; simpl; rewrite ?E, ?IH; done.
Qed.

Lemma is_apex_soa_ns_false z r :
  is_apex_soa_ns z r = false ↔
  ¬ (Name r = zone_name z ∧ (Type_ r = "SOA" ∨ Type_ r = "NS")).
Proof.
  unfold is_apex_soa_ns.
  rewrite andb_false_iff, orb_false_iff, !bool_decide_eq_false.
  destruct (decide (Name r = zone_name z)), (decide (Type_ r = "SOA")),
    (decide (Type_ r = "NS")); naive_solver.
Qed.

Lemma elem_of_to_add z e d r :
  r ∈ to_add z e d ↔
  r ∈ d ∧ is_apex_soa_ns z r = false ∧ ¬ (r ∈ e ∧ is_apex_soa_ns z r = false).
Proof.
  unfold to_add, difference, frozenset.
  rewrite list_elem_of_difference, !elem_of_remove_dups, !elem_of_skip_apex_soa_ns.
  naive_solver.
Qed.

Lemma elem_of_to_delete z e d r :
  r ∈ to_delete z e d ↔
  r ∈ e ∧ is_apex_soa_ns z r = false ∧ ¬ (r ∈ d ∧ is_apex_soa_ns z r = false).
Proof. apply elem_of_to_add. Qed.

Lemma NoDup_to_add z e d : NoDup (to_add z e d).
Proof. apply NoDup_list_difference, NoDup_remove_dups. Qed.

Lemma NoDup_to_delete z e d : NoDup (to_delete z e d).
Proof. apply NoDup_list_difference, NoDup_remove_dups. Qed.

(** ** The two loops of [compute_changes] *)

Lemma foldl_append {A B : Type} (f : B → A) (l : list B) (acc : list A) :
  foldl (λ acc r, acc ++ [f r]) acc l = acc ++ (f <$> l).
Proof.
  revert acc. induction l as [|x l IH]; intros acc; csimpl.
  - by rewrite app_nil_r.
  - by rewrite IH, <-app_assoc.
Qed.

Lemma foldl_insert_0 {A B : Type} (keep : B → bool) (f : B → A) (l : list B)
    (acc : list A) :
  foldl (λ acc r, if keep r then f r :: acc else acc) acc l
  = (f <$> reverse (filter (λ r, keep r) l)) ++ acc.
Proof.
  revert acc. induction l as [|x l IH]; intros acc; csimpl; [done|].
  rewrite IH, filter_cons. destruct (keep x) eqn:E.
  - rewrite decide_True by done.
    by rewrite reverse_cons, fmap_app, <-app_assoc.
  - rewrite decide_False; [done|]. by intros ?.
Qed.

Section diff_engine_facts.
Context (set_iter : list R53Record → list R53Record).
Hypothesis set_iter_perm : iterates_sets set_iter.

Lemma is_in_list_true r s :
    is_in_list r s = true ↔ ∃ entry, entry ∈ s ∧ Name entry = Name r.
  Proof.
    induction s as [|x s IH]; simpl.
    - split; [done|]. intros (? & []%elem_of_nil & _).
    - destruct (decide (Name x = Name r)) as [Hx|Hx].
      + split; [|done]. intros _. exists x. split; [left|done].
      + rewrite IH. setoid_rewrite elem_of_cons. naive_solver.
  Qed.

Lemma is_in_set_true r s :
    NoDup s →
    is_in_set set_iter r s = true ↔ ∃ entry, entry ∈ s ∧ Name entry = Name r.
  Proof.
    intros Hs. unfold is_in_set. rewrite is_in_list_true.
    pose proof (set_iter_perm s Hs) as Hp. by setoid_rewrite Hp.
  Qed.

Lemma set_iter_nil : set_iter [] = [].
  Proof. apply Permutation_nil_r, set_iter_perm, NoDup_nil_2. Qed.

Lemma set_iter_singleton r : set_iter [r] = [r].
  Proof. apply Permutation_singleton_r, set_iter_perm, NoDup_singleton. Qed.

Lemma sort_by_name_perm s : NoDup s → sort_by_name set_iter s ≡ₚ s.
  Proof.
    intros Hs. unfold sort_by_name. rewrite sorted_perm. by apply set_iter_perm.
  Qed.

Lemma sort_by_name_nil : sort_by_name set_iter [] = [].
  Proof. unfold sort_by_name. by rewrite set_iter_nil. Qed.

Lemma sort_by_name_sorted s :
    StronglySorted (λ a b, name_before b a = false) (sort_by_name set_iter s).
  Proof.
    apply Sorted_StronglySorted; [apply _|].
    apply (Sorted_sorted name_before). intros a b. apply ltb_asym.
  Qed.

  (** The value of [compute_changes]: the deletions that are kept, last
      inserted first, followed by the additions in the order of their
      names. *)
Lemma compute_changes_unfold z e d u :
    compute_changes set_iter z e d u
    = (mk_change z DELETE
         <$> reverse (filter (λ r, negb (u && is_in_set set_iter r (to_add z e d)))
                             (sort_by_name set_iter (to_delete z e d))))
      ++ ((λ r, mk_change z
                  (if u && is_in_set set_iter r (to_delete z e d)
                   then UPSERT else CREATE) r)
            <$> sort_by_name set_iter (to_add z e d)).
  Proof.
    unfold compute_changes. fold (to_add z e d) (to_delete z e d).
    destruct (truthy (to_add z e d) || truthy (to_delete z e d)) eqn:E.
    - by rewrite foldl_insert_0, foldl_append.
    - apply orb_false_iff in E as [Ha Hd].
      destruct (to_add z e d); [|done]. destruct (to_delete z e d); [|done].
      by rewrite sort_by_name_nil.
  Qed.
End diff_engine_facts.

Lemma filter_all {A : Type} (P : A → Prop) `{!∀ x, Decision (P x)} (l : list A) :
  Forall P l → filter P l = l.
Proof.
  induction 1 as [|x l Hx _ IH]; [done|].
  by rewrite filter_cons, decide_True, IH.
Qed.

Lemma filter_none {A : Type} (P : A → Prop) `{!∀ x, Decision (P x)} (l : list A) :
  Forall (λ x, ¬ P x) l → filter P l = [].
Proof.
  induction 1 as [|x l Hx _ IH]; [done|].
  by rewrite filter_cons, decide_False, IH.
Qed.

Lemma records_of_app op l1 l2 :
  records_of op (l1 ++ l2) = records_of op l1 ++ records_of op l2.
Proof. unfold records_of. by rewrite filter_app, fmap_app. Qed.

Lemma records_of_fmap op z (f : R53Record → Operation) (l : list R53Record) :
  records_of op ((λ r, mk_change z (f r) r) <$> l) = filter (λ r, f r = op) l.
Proof.
  unfold records_of. induction l as [|x l IH]; csimpl; [done|].
  rewrite !filter_cons. simpl.
  destruct (decide (f x = op)); csimpl; by rewrite IH.
Qed.

Lemma records_of_mk_change op z op' (l : list R53Record) :
  records_of op (mk_change z op' <$> l) = if decide (op' = op) then l else [].
Proof.
  rewrite (records_of_fmap op z (λ _, op')).
  destruct (decide (op' = op)).
  - apply filter_all, Forall_forall. by intros.
  - apply filter_none, Forall_forall. by intros.
Qed.

Lemma record_mk_change z op (l : list R53Record) :
  record <$> (mk_change z op <$> l) = l.
Proof. induction l as [|x l IH]; csimpl; by rewrite ?IH. Qed.

(** ** The Diff Engine *)

(** C1. Idempotence: for every zone, every record collection [X] and either
    value of [use_upsert], [compute_changes] of [X] against [X] is the
    empty list of changes. It holds for every iteration order of the sets. *)
Theorem compute_changes_idempotence set_iter z X use_upsert :
  compute_changes set_iter z X X use_upsert = [].
Proof. unfold compute_changes. by rewrite difference_self. Qed.

(** C7. Apex exclusion: no change returned by [compute_changes] carries a
    record whose name is the zone's name and whose type is SOA or NS; and
    the apex records are filtered from both collections before anything is
    compared, so the result is that of the filtered collections. *)
Theorem compute_changes_apex_exclusion set_iter z existing desired use_upsert :
  iterates_sets set_iter →
  Forall (λ c, ¬ (Name (record c) = zone_name z
                  ∧ (Type_ (record c) = "SOA" ∨ Type_ (record c) = "NS")))
         (compute_changes set_iter z existing desired use_upsert)
  ∧ compute_changes set_iter z existing desired use_upsert
    = compute_changes set_iter z (skip_apex_soa_ns z existing)
        (skip_apex_soa_ns z desired) use_upsert.
Proof.
  intros Hit. split.
  - rewrite compute_changes_unfold by done.
    apply Forall_app. split; apply Forall_fmap, Forall_forall; intros r Hr; simpl;
      apply is_apex_soa_ns_false.
    + apply elem_of_reverse, list_elem_of_filter in Hr as [_ Hr].
      rewrite (sort_by_name_perm _ Hit) in Hr by apply NoDup_to_delete.
      apply elem_of_to_delete in Hr. tauto.
    + rewrite (sort_by_name_perm _ Hit) in Hr by apply NoDup_to_add.
      apply elem_of_to_add in Hr. tauto.
  - unfold compute_changes. by rewrite !skip_apex_soa_ns_idemp.
Qed.

Lemma compute_changes_apex_exclusion_witness :
  Forall (λ c, ¬ (Name (record c) = zone_name example_zone
                  ∧ (Type_ (record c) = "SOA" ∨ Type_ (record c) = "NS")))
         (compute_changes id example_zone
            [plain_record "example.com." "NS" 172800 "ns-550.awsdns-04.net.";
             plain_record "www.example.com." "A" 300 "127.0.0.1"]
            [plain_record "example.com." "SOA" 900 "ns-1.example.net. admin 1";
             plain_record "example.com." "A" 300 "127.0.0.2"] true)
  ∧ compute_changes id example_zone
      [plain_record "example.com." "NS" 172800 "ns-550.awsdns-04.net.";
       plain_record "www.example.com." "A" 300 "127.0.0.1"]
      [plain_record "example.com." "SOA" 900 "ns-1.example.net. admin 1";
       plain_record "example.com." "A" 300 "127.0.0.2"] true
    = compute_changes id example_zone
        (skip_apex_soa_ns example_zone
           [plain_record "example.com." "NS" 172800 "ns-550.awsdns-04.net.";
            plain_record "www.example.com." "A" 300 "127.0.0.1"])
        (skip_apex_soa_ns example_zone
           [plain_record "example.com." "SOA" 900 "ns-1.example.net. admin 1";
            plain_record "example.com." "A" 300 "127.0.0.2"]) true.
Proof.
  apply (compute_changes_apex_exclusion id). intros s _. reflexivity.
Defined.

(** C8, as stated, fails: the deletions are inserted at the head of the
    list one after the other, so they come out in the reverse of the order
    in which they were visited. Deleting [a.example.com.] and
    [b.example.com.] returns the DELETE of [b.example.com.] first. *)
Lemma compute_changes_deletes_not_ascending :
  Name <$> records_of DELETE
      (compute_changes id example_zone
         [plain_record "a.example.com." "A" 300 "127.0.0.1";
          plain_record "b.example.com." "A" 300 "127.0.0.2"] [] false)
  = ["b.example.com."; "a.example.com."]
  ∧ String.ltb "a.example.com." "b.example.com." = true.
Proof. split; reflexivity. Qed.

(** The same two deletions come out in that order whatever the order in
    which the set [to_delete] is iterated. *)
Lemma deletes_descending_any_order set_iter :
  iterates_sets set_iter →
  compute_changes set_iter example_zone
    [plain_record "a.example.com." "A" 300 "127.0.0.1";
     plain_record "b.example.com." "A" 300 "127.0.0.2"] [] false
  = [mk_change example_zone DELETE (plain_record "b.example.com." "A" 300 "127.0.0.2");
     mk_change example_zone DELETE (plain_record "a.example.com." "A" 300 "127.0.0.1")].
Proof.
  intros Hit. unfold compute_changes.
  set (a := plain_record "a.example.com." "A" 300 "127.0.0.1").
  set (b := plain_record "b.example.com." "A" 300 "127.0.0.2").
  change (difference (frozenset (skip_apex_soa_ns example_zone [a; b]))
            (frozenset (skip_apex_soa_ns example_zone []))) with [a; b].
  change (difference (frozenset (skip_apex_soa_ns example_zone []))
            (frozenset (skip_apex_soa_ns example_zone [a; b]))) with (@nil R53Record).
  simpl truthy. simpl orb. cbv iota.
  rewrite (sort_by_name_nil _ Hit). simpl foldl at 2.
  unfold sort_by_name.
  assert (set_iter [a; b] = [a; b] ∨ set_iter [a; b] = [b; a]) as [-> | ->].
  { assert (NoDup [a; b]) as Hnd by (apply (bool_decide_unpack _); by vm_compute).
    pose proof (Hit _ Hnd) as Hp. symmetry in Hp.
    apply Permutation_length_2_inv in Hp. done. }
  - reflexivity.
  - reflexivity.
Qed.

(** C8 (amended). The list returned by [compute_changes] is the DELETE
    changes followed by the CREATE and UPSERT changes; a record is deleted
    iff it is in [to_delete] and not ([use_upsert] and some record of
    [to_add] has its name), each such record once; and the DELETE changes
    appear in descending order of the names of their records. *)
Theorem compute_changes_deletes_first set_iter z existing desired use_upsert :
  iterates_sets set_iter →
  ∃ deleted added,
    compute_changes set_iter z existing desired use_upsert
    = (mk_change z DELETE <$> deleted) ++ added
    ∧ Forall (λ c, operation c = CREATE ∨ operation c = UPSERT) added
    ∧ (∀ r, r ∈ deleted ↔
            r ∈ to_delete z existing desired
            ∧ ¬ (use_upsert = true
                 ∧ ∃ a, a ∈ to_add z existing desired ∧ Name a = Name r))
    ∧ NoDup deleted
    ∧ StronglySorted (λ r1 r2, (Name r2 ≤ Name r1)%string) deleted.
Proof.
  intros Hit. eexists _, _. split; [by apply compute_changes_unfold|].
  split; [|split; [|split]].
  - apply Forall_fmap, Forall_forall. intros r _. simpl.
    destruct (use_upsert && _); auto.
  - intros r. rewrite elem_of_reverse, list_elem_of_filter.
    rewrite (sort_by_name_perm _ Hit) by apply NoDup_to_delete.
    rewrite <-(is_in_set_true _ Hit) by apply NoDup_to_add.
    destruct use_upsert, (is_in_set set_iter r _); simpl; naive_solver.
  - rewrite reverse_Permutation. apply NoDup_filter.
    rewrite (sort_by_name_perm _ Hit) by apply NoDup_to_delete.
    apply NoDup_to_delete.
  - rewrite <-(list_fmap_id (reverse _)).
    eapply (StronglySorted_fmap id (flip (λ a b, name_before b a = false))).
    { intros x y. unfold flip, name_before. by rewrite ltb_false_le. }
    apply Sorted_StronglySorted; [apply _|]. apply Sorted_reverse.
    apply StronglySorted_Sorted.
    pose proof (sort_by_name_sorted set_iter (to_delete z existing desired)) as Hs.
    induction Hs as [|x l Hl IH Hx]; [constructor|].
    rewrite filter_cons. destruct (decide _); [|done].
    constructor; [done|]. apply Forall_forall. intros y Hy.
    apply list_elem_of_filter in Hy as [_ Hy].
    by eapply Forall_forall in Hx.
Qed.

Lemma compute_changes_deletes_first_witness :
  ∃ deleted added,
    compute_changes id example_zone
      [plain_record "a.example.com." "A" 300 "127.0.0.1";
       plain_record "b.example.com." "A" 300 "127.0.0.2";
       plain_record "c.example.com." "A" 300 "127.0.0.3"]
      [plain_record "c.example.com." "A" 60 "127.0.0.3"] true
    = (mk_change example_zone DELETE <$> deleted) ++ added
    ∧ Forall (λ c, operation c = CREATE ∨ operation c = UPSERT) added
    ∧ (∀ r, r ∈ deleted ↔
            r ∈ to_delete example_zone
                  [plain_record "a.example.com." "A" 300 "127.0.0.1";
                   plain_record "b.example.com." "A" 300 "127.0.0.2";
                   plain_record "c.example.com." "A" 300 "127.0.0.3"]
                  [plain_record "c.example.com." "A" 60 "127.0.0.3"]
            ∧ ¬ (true = true
                 ∧ ∃ a, a ∈ to_add example_zone
                              [plain_record "a.example.com." "A" 300 "127.0.0.1";
                               plain_record "b.example.com." "A" 300 "127.0.0.2";
                               plain_record "c.example.com." "A" 300 "127.0.0.3"]
                              [plain_record "c.example.com." "A" 60 "127.0.0.3"]
                        ∧ Name a = Name r))
    ∧ NoDup deleted
    ∧ StronglySorted (λ r1 r2, (Name r2 ≤ Name r1)%string) deleted.
Proof.
  apply (compute_changes_deletes_first id). intros s _. reflexivity.
Defined.

(** C5, as stated, fails when the existing record is an apex SOA or NS
    record of the zone: it is filtered out before the comparison, nothing
    is left to merge with, and the desired record is created. *)
Lemma compute_changes_upsert_apex :
  compute_changes id example_zone
    [plain_record "example.com." "NS" 172800 "ns-550.awsdns-04.net."]
    [plain_record "example.com." "A" 300 "127.0.0.1"] true
  = [mk_change example_zone CREATE (plain_record "example.com." "A" 300 "127.0.0.1")].
Proof. reflexivity. Qed.

(** C5 (amended). Upsert merge: when the only existing record [A] and the
    only desired record [A'] have the same name, differ, and neither is an
    apex SOA or NS record of the zone, [compute_changes] with [use_upsert]
    returns exactly one change, the UPSERT of [A']. *)
Theorem compute_changes_upsert_merge set_iter z A A' :
  iterates_sets set_iter →
  Name A = Name A' →
  A ≠ A' →
  is_apex_soa_ns z A = false →
  is_apex_soa_ns z A' = false →
  compute_changes set_iter z [A] [A'] true = [mk_change z UPSERT A'].
Proof.
  intros Hit Hname Hne HA HA'.
  rewrite (compute_changes_unfold _ Hit).
  assert (to_add z [A] [A'] = [A']) as ->.
  { unfold to_add. simpl. rewrite HA, HA'. simpl.
    destruct (decide_rel _ _ _) as [Hin|]; [|done].
    apply list_elem_of_singleton in Hin. congruence. }
  assert (to_delete z [A] [A'] = [A]) as ->.
  { unfold to_delete. simpl. rewrite HA, HA'. simpl.
    destruct (decide_rel _ _ _) as [Hin|]; [|done].
    apply list_elem_of_singleton in Hin. congruence. }
  unfold sort_by_name, is_in_set. rewrite !(set_iter_singleton _ Hit). simpl.
  rewrite (decide_True (P := Name A = Name A')) by done.
  rewrite filter_cons, filter_nil.
  rewrite (decide_True (P := Name A' = Name A)) by done.
  done.
Qed.

Lemma compute_changes_upsert_merge_witness :
  compute_changes id example_zone
    [plain_record "www.example.com." "A" 300 "127.0.0.1"]
    [plain_record "www.example.com." "CNAME" 300 "example.net."] true
  = [mk_change example_zone UPSERT
       (plain_record "www.example.com." "CNAME" 300 "example.net.")].
Proof.
  apply (compute_changes_upsert_merge id);
    [by intros s _ | reflexivity | discriminate | reflexivity | reflexivity].
Defined.

(** C6, as stated, fails with [use_upsert]: two collections that share no
    record but share a name yield an UPSERT, and neither a CREATE nor a
    DELETE. *)
Lemma compute_changes_disjoint_upsert :
  compute_changes id example_zone
    [plain_record "www.example.com." "A" 60 "127.0.0.1"]
    [plain_record "www.example.com." "A" 300 "127.0.0.1"] true
  = [mk_change example_zone UPSERT (plain_record "www.example.com." "A" 300 "127.0.0.1")]
  ∧ plain_record "www.example.com." "A" 60 "127.0.0.1"
    ∉ [plain_record "www.example.com." "A" 300 "127.0.0.1"].
Proof.
  split; [reflexivity|]. intros [=]%list_elem_of_singleton.
Qed.

(** C6 (amended). Completeness under disjointness: when the two
    collections share no record, and [use_upsert] is false or no existing
    record that is not an apex SOA or NS record has the name of such a
    desired record, the records created are exactly the distinct desired
    records that are not apex SOA or NS records, each once; the records
    deleted are exactly such existing records, each once; and there is no
    UPSERT. *)
Theorem compute_changes_disjoint set_iter z existing desired use_upsert :
  iterates_sets set_iter →
  (∀ r, r ∈ existing → r ∉ desired) →
  (use_upsert = false
   ∨ ∀ a b, a ∈ skip_apex_soa_ns z existing → b ∈ skip_apex_soa_ns z desired →
            Name a ≠ Name b) →
  records_of CREATE (compute_changes set_iter z existing desired use_upsert)
    ≡ₚ frozenset (skip_apex_soa_ns z desired)
  ∧ records_of DELETE (compute_changes set_iter z existing desired use_upsert)
    ≡ₚ frozenset (skip_apex_soa_ns z existing)
  ∧ records_of UPSERT (compute_changes set_iter z existing desired use_upsert) = [].
Proof.
  intros Hit Hdisj Hup.
  assert (to_add z existing desired = frozenset (skip_apex_soa_ns z desired)) as Hadd.
  { apply difference_disjoint. intros x.
    unfold frozenset. rewrite !elem_of_remove_dups, !elem_of_skip_apex_soa_ns.
    intros [Hd _] [He _]. by apply (Hdisj x). }
  assert (to_delete z existing desired = frozenset (skip_apex_soa_ns z existing)) as Hdel.
  { apply difference_disjoint. intros x.
    unfold frozenset. rewrite !elem_of_remove_dups, !elem_of_skip_apex_soa_ns.
    intros [He _] [Hd _]. by apply (Hdisj x). }
  assert (∀ r, r ∈ to_add z existing desired →
               use_upsert && is_in_set set_iter r (to_delete z existing desired) = false)
    as Hnoadd.
  { intros r Hr. destruct Hup as [-> | Hnames]; [done|].
    apply andb_false_iff. right. apply not_true_is_false.
    rewrite (is_in_set_true _ Hit) by apply NoDup_to_delete.
    intros (a & Ha & Han). rewrite Hadd in Hr. rewrite Hdel in Ha.
    unfold frozenset in Hr, Ha. rewrite elem_of_remove_dups in Hr, Ha.
    by apply (Hnames a r). }
  assert (∀ r, r ∈ to_delete z existing desired →
               use_upsert && is_in_set set_iter r (to_add z existing desired) = false)
    as Hnodel.
  { intros r Hr. destruct Hup as [-> | Hnames]; [done|].
    apply andb_false_iff. right. apply not_true_is_false.
    rewrite (is_in_set_true _ Hit) by apply NoDup_to_add.
    intros (b & Hb & Hbn). rewrite Hdel in Hr. rewrite Hadd in Hb.
    unfold frozenset in Hr, Hb. rewrite elem_of_remove_dups in Hr, Hb.
    by apply (Hnames r b). }
  rewrite (compute_changes_unfold _ Hit).
  rewrite (filter_all (λ r, negb _)).
  2:{ apply Forall_forall. intros r Hr. rewrite Hnodel; [done|].
      by rewrite (sort_by_name_perm _ Hit) in Hr by apply NoDup_to_delete. }
  rewrite (Forall_fmap_ext_1
             (λ r, mk_change z
                     (if use_upsert
                         && is_in_set set_iter r (to_delete z existing desired)
                      then UPSERT else CREATE) r)
             (mk_change z CREATE)).
  2:{ apply Forall_forall. intros r Hr. rewrite Hnoadd; [done|].
      by rewrite (sort_by_name_perm _ Hit) in Hr by apply NoDup_to_add. }
  rewrite !records_of_app, !records_of_mk_change. simpl.
  rewrite !app_nil_r, reverse_Permutation.
  rewrite !(sort_by_name_perm _ Hit) by (apply NoDup_to_add || apply NoDup_to_delete).
  by rewrite Hadd, Hdel.
Qed.

Lemma compute_changes_disjoint_witness :
  records_of CREATE
    (compute_changes id example_zone
       [plain_record "example.com." "NS" 172800 "ns-550.awsdns-04.net.";
        plain_record "old.example.com." "A" 300 "127.0.0.1"]
       [plain_record "www.example.com." "A" 300 "127.0.0.2";
        plain_record "www.example.com." "A" 300 "127.0.0.2";
        plain_record "mail.example.com." "MX" 300 "10 mx.example.net."] true)
    ≡ₚ frozenset (skip_apex_soa_ns example_zone
         [plain_record "www.example.com." "A" 300 "127.0.0.2";
          plain_record "www.example.com." "A" 300 "127.0.0.2";
          plain_record "mail.example.com." "MX" 300 "10 mx.example.net."])
  ∧ records_of DELETE
      (compute_changes id example_zone
         [plain_record "example.com." "NS" 172800 "ns-550.awsdns-04.net.";
          plain_record "old.example.com." "A" 300 "127.0.0.1"]
         [plain_record "www.example.com." "A" 300 "127.0.0.2";
          plain_record "www.example.com." "A" 300 "127.0.0.2";
          plain_record "mail.example.com." "MX" 300 "10 mx.example.net."] true)
    ≡ₚ frozenset (skip_apex_soa_ns example_zone
         [plain_record "example.com." "NS" 172800 "ns-550.awsdns-04.net.";
          plain_record "old.example.com." "A" 300 "127.0.0.1"])
  ∧ records_of UPSERT
      (compute_changes id example_zone
         [plain_record "example.com." "NS" 172800 "ns-550.awsdns-04.net.";
          plain_record "old.example.com." "A" 300 "127.0.0.1"]
         [plain_record "www.example.com." "A" 300 "127.0.0.2";
          plain_record "www.example.com." "A" 300 "127.0.0.2";
          plain_record "mail.example.com." "MX" 300 "10 mx.example.net."] true) = [].
Proof.
  apply (compute_changes_disjoint id).
  - by intros s _.
  - apply Forall_forall. apply (bool_decide_unpack _). by vm_compute.
  - right. intros a b Ha. revert b. apply Forall_forall.
    revert a Ha. apply Forall_forall.
    apply (bool_decide_unpack _). by vm_compute.
Defined.

(** ** The Priority Assigner *)

Lemma dd_getitem_val d k : (dd_getitem d k).1 = dd_val d k.
Proof. unfold dd_getitem, dd_val. by destruct (d !! k). Qed.

Lemma dd_getitem_frame d k k' : dd_val (dd_getitem d k).2 k' = dd_val d k'.
Proof.
  unfold dd_getitem, dd_val. destruct (d !! k) eqn:E; simpl; [done|].
  destruct (decide (k = k')) as [->|].
  - by rewrite lookup_insert_eq, E.
  - by rewrite lookup_insert_ne.
Qed.

Lemma dd_setitem_val d k v k' :
  dd_val (dd_setitem d k v) k' = if decide (k' = k) then v else dd_val d k'.
Proof.
  unfold dd_setitem, dd_val. destruct (decide (k' = k)) as [->|].
  - by rewrite lookup_insert_eq.
  - by rewrite lookup_insert_ne.
Qed.

Lemma represents_empty : represents ∅ (λ _, 0).
Proof. intros k. unfold dd_val. by rewrite lookup_empty. Qed.

(** [is_new_alias] and the presence of the alias target, in terms of the
    specification's [new_alias_target]. *)
Lemma is_new_alias_Some z change t :
  Spec.new_alias_target z change = Some t →
  is_new_alias z change = true
  ∧ ∃ target, AliasTarget (record change) = Some target ∧ DNSName target = t.
Proof.
  unfold Spec.new_alias_target, is_new_alias, is_alias, R53Record_is_alias,
    is_same_zone.
  destruct (AliasTarget (record change)) as [target|]; [|done].
  destruct (operation change); try done;
    (destruct (decide (zone_id (zone change) = zone_id z)); [|done]);
    intros [= <-]; rewrite bool_decide_eq_true_2 by done; eauto.
Qed.

Lemma is_new_alias_None z change :
  Spec.new_alias_target z change = None → is_new_alias z change = false.
Proof.
  unfold Spec.new_alias_target, is_new_alias, is_alias, R53Record_is_alias,
    is_same_zone.
  destruct (AliasTarget (record change)) as [target|]; [|done].
  destruct (operation change); simpl; rewrite ?andb_false_r; try done;
    (destruct (decide (zone_id (zone change) = zone_id z)); [done|]);
    by rewrite bool_decide_eq_false_2.
Qed.

(** A new alias has an alias target: the branch [None] of the two passes is
    never taken. *)
Lemma is_new_alias_has_target z change :
  is_new_alias z change = true → is_Some (AliasTarget (record change)).
Proof.
  unfold is_new_alias, is_alias, R53Record_is_alias.
  destruct (AliasTarget (record change)); [eauto|done].
Qed.

Lemma first_pass_represents z changes d w :
  represents d w →
  represents (first_pass z d changes)
    (foldl (λ w change,
              match Spec.new_alias_target z change with
              | Some t => Spec.add_weight w t 1
              | None => w
              end) w changes).
Proof.
  unfold first_pass. revert d w.
  induction changes as [|c changes IH]; intros d w Hd; simpl; [done|].
  apply IH. destruct (Spec.new_alias_target z c) as [t|] eqn:E.
  - apply is_new_alias_Some in E as (-> & target & -> & <-).
    pose proof (dd_getitem_val d (DNSName target)) as Hv.
    pose proof (dd_getitem_frame d (DNSName target)) as Hf.
    destruct (dd_getitem d (DNSName target)) as [v d']; simpl in *.
    intros k. rewrite dd_setitem_val. unfold Spec.add_weight.
    destruct (decide (k = DNSName target)) as [->|]; [|by rewrite Hf].
    by rewrite Hv, Hd.
  - by rewrite (is_new_alias_None _ _ E).
Qed.

Lemma second_pass_represents z changes d w :
  represents d w →
  represents (second_pass z d changes) (Spec.pass2 z w changes).
Proof.
  unfold second_pass, Spec.pass2. revert d w.
  induction changes as [|c changes IH]; intros d w Hd; simpl; [done|].
  apply IH. destruct (Spec.new_alias_target z c) as [t|] eqn:E.
  - apply is_new_alias_Some in E as (-> & target & -> & <-).
    pose proof (dd_getitem_val d (DNSName target)) as Hv.
    pose proof (dd_getitem_frame d (DNSName target)) as Hf.
    destruct (dd_getitem d (DNSName target)) as [v d']; simpl in *.
    pose proof (dd_getitem_val d' (Name (record c))) as Hv'.
    pose proof (dd_getitem_frame d' (Name (record c))) as Hf'.
    destruct (dd_getitem d' (Name (record c))) as [v' d'']; simpl in *.
    intros k. rewrite dd_setitem_val. unfold Spec.add_weight.
    destruct (decide (k = DNSName target)) as [->|].
    + by rewrite Hv, Hv', Hf, !Hd.
    + by rewrite Hf', Hf.
  - by rewrite (is_new_alias_None _ _ E).
Qed.

Lemma final_pass_represents changes d w :
  represents d w →
  (final_pass d changes).2
  = (λ change, set_prio change (w (Name (record change)))) <$> changes.
Proof.
  unfold final_pass. intros Hd.
  enough (∀ acc,
    (foldl (λ '(rr_prio, acc) change,
              let '(v, rr_prio) := dd_getitem rr_prio (Name (record change)) in
              (rr_prio, acc ++ [set_prio change v]))
           (d, acc) changes).2
    = acc ++ ((λ change, set_prio change (w (Name (record change)))) <$> changes))
    as H by apply (H []).
  revert d Hd. induction changes as [|c changes IH]; intros d Hd acc; csimpl.
  { by rewrite app_nil_r. }
  pose proof (dd_getitem_val d (Name (record c))) as Hv.
  pose proof (dd_getitem_frame d (Name (record c))) as Hf.
  destruct (dd_getitem d (Name (record c))) as [v d']; simpl in *.
  rewrite IH by (intros k; by rewrite Hf).
  by rewrite <-app_assoc, Hv, Hd.
Qed.

(** The code computes the priorities of the specification. *)
Lemma assign_change_priority_spec z changes :
  assign_change_priority z changes = Spec.assignPriority z changes.
Proof.
  unfold assign_change_priority, Spec.assignPriority, Spec.targetWeight, Spec.pass1.
  apply final_pass_represents, second_pass_represents, first_pass_represents,
    represents_empty.
Qed.

Lemma add_weight_other w t n k : k ≠ t → Spec.add_weight w t n k = w k.
Proof. intros. unfold Spec.add_weight. by rewrite decide_False. Qed.

Lemma foldl_add_weight_zero z k (f : (string → Z) → Change → Z) l (w : string → Z) :
  w k = 0 →
  (∀ change, change ∈ l → Spec.new_alias_target z change ≠ Some k) →
  foldl (λ w change,
           match Spec.new_alias_target z change with
           | Some t => Spec.add_weight w t (f w change)
           | None => w
           end) w l k = 0.
Proof.
  revert w. induction l as [|c l IH]; intros w Hw Hl; simpl; [done|].
  apply IH; [|intros ? ?; apply Hl; by right].
  destruct (Spec.new_alias_target z c) as [t|] eqn:E; [|done].
  rewrite add_weight_other; [done|]. intros ->. by apply (Hl c); [left|].
Qed.

(** A name that is the alias target of no new alias keeps the weight 0. *)
Lemma targetWeight_not_target z changes k :
  (∀ change, change ∈ changes → Spec.new_alias_target z change ≠ Some k) →
  Spec.targetWeight z changes k = 0.
Proof.
  intros Hk. unfold Spec.targetWeight, Spec.pass2, Spec.pass1.
  apply (foldl_add_weight_zero z k (λ w change, w (Name (record change))));
    [|done].
  by apply (foldl_add_weight_zero z k (λ _ _, 1)).
Qed.

(** C3. [assign_change_priority] computes the priorities as the
    specification words it: a weight map that defaults to 0, a first pass
    adding 1 at the alias target of every same-zone CREATE or UPSERT of an
    alias record, a second pass adding, for every such change again, the
    weight at the record's name to the weight at its alias target, and then
    every change, whatever its operation, gets the weight at its record's
    name; that weight is 0 when the name is the alias target of no new
    alias. *)
Theorem assign_change_priority_algorithm z change_operations :
  assign_change_priority z change_operations
  = Spec.assignPriority z change_operations
  ∧ Forall2 (λ change change',
               prio change'
               = Some (Spec.targetWeight z change_operations (Name (record change))))
            change_operations (assign_change_priority z change_operations)
  ∧ ∀ k, (∀ change, change ∈ change_operations →
                    Spec.new_alias_target z change ≠ Some k) →
         Spec.targetWeight z change_operations k = 0.
Proof.
  split; [apply assign_change_priority_spec|]. split.
  - rewrite assign_change_priority_spec. unfold Spec.assignPriority.
    apply Forall2_fmap_r, Forall_Forall2_diag, Forall_forall. by intros.
  - apply targetWeight_not_target.
Qed.

(** C9. [assign_change_priority] writes the priority and nothing else: the
    list has the same length and order after the call, and every change
    has the zone, the operation and the record it had; only its priority
    is set. *)
Theorem assign_change_priority_frame z change_operations :
  length (assign_change_priority z change_operations) = length change_operations
  ∧ Forall2 (λ change change',
               zone change' = zone change
               ∧ operation change' = operation change
               ∧ record change' = record change
               ∧ ∃ p, change' = set_prio change p)
            change_operations (assign_change_priority z change_operations).
Proof.
  rewrite assign_change_priority_spec. unfold Spec.assignPriority. split.
  - by rewrite length_fmap.
  - apply Forall2_fmap_r, Forall_Forall2_diag, Forall_forall.
    intros c _. simpl. eauto.
Qed.

(** ** The Batch Planner *)

Lemma assign_change_priority_has_prio z changes :
  Forall (λ c, is_Some (prio c)) (assign_change_priority z changes).
Proof.
  rewrite assign_change_priority_spec. unfold Spec.assignPriority.
  apply Forall_fmap, Forall_forall. intros c _. simpl. eauto.
Qed.

Lemma mapM_getitem_prio l :
  Forall (λ c, is_Some (prio c)) l →
  mapM getitem_prio l = Some (prio_key <$> l).
Proof.
  intros Hl. apply mapM_Some_2, Forall2_fmap_r, Forall_Forall2_diag.
  eapply Forall_impl; [done|]. intros c [p Hp].
  unfold getitem_prio, prio_key, compose. by rewrite Hp.
Qed.

Lemma zip_fmap_diag {A B : Type} (f : A → B) (l : list A) :
  zip (f <$> l) l = (λ x, (f x, x)) <$> l.
Proof. induction l as [|x l IH]; csimpl; by rewrite ?IH. Qed.

(** The sort of the batch planner succeeds on changes that have a priority,
    and is the stable sort on the priorities, the larger first. *)
Lemma sorted_by_prio_reverse_Some l :
  Forall (λ c, is_Some (prio c)) l →
  sorted_by_prio_reverse l = Some (sorted prio_before l).
Proof.
  intros Hl. unfold sorted_by_prio_reverse.
  rewrite (mapM_getitem_prio _ Hl). simpl. f_equal.
  rewrite zip_fmap_diag.
  rewrite (sorted_fmap (λ c, (prio_key c, c)) prio_before
             (λ y x : Z * Change, Z.ltb x.1 y.1)) by (intros; reflexivity).
  rewrite <-list_fmap_compose. apply list_fmap_id.
Qed.

#[local] Instance prio_order_trans :
  Transitive (λ a b : Change, prio_before b a = false).
Proof.
  intros a b c. unfold prio_before. rewrite !Z.ltb_ge. lia.
Qed.

Lemma sorted_prio_before_sorted l :
  StronglySorted (λ a b, prio_key b ≤ prio_key a) (sorted prio_before l).
Proof.
  rewrite <-(list_fmap_id (sorted _ _)).
  eapply (StronglySorted_fmap id (λ a b, prio_before b a = false)).
  { intros x y. unfold prio_before. by rewrite Z.ltb_ge. }
  apply Sorted_StronglySorted; [apply _|].
  apply (Sorted_sorted prio_before). intros a b. unfold prio_before.
  rewrite Z.ltb_lt, Z.ltb_ge. lia.
Qed.

Lemma batch_loop_cons st c l :
  batch_loop st (c :: l) = batch_step st c ≫= λ st', batch_loop st' l.
Proof. done. Qed.

Lemma batch_step_first c q :
  prio c = Some q →
  batch_step ([], new_ChangeBatch, None) c
  = Some ([], add_change new_ChangeBatch c, Some q).
Proof.
  intros Hq. unfold batch_step, getitem_prio. rewrite Hq. simpl.
  by rewrite bool_decide_eq_false_2 by (by intros []).
Qed.

Lemma batch_step_same bs cur p c :
  prio c = Some p →
  batch_step (bs, cur, Some p) c = Some (bs, add_change cur c, Some p).
Proof.
  intros Hq. unfold batch_step, getitem_prio. rewrite Hq. simpl.
  by rewrite bool_decide_eq_false_2 by (by intros []).
Qed.

Lemma batch_step_new bs cur p q c :
  prio c = Some q → q ≠ p → changes cur ≠ [] →
  batch_step (bs, cur, Some p) c
  = Some (bs ++ [cur], add_change new_ChangeBatch c, Some q).
Proof.
  intros Hq Hne Hcur. unfold batch_step, getitem_prio. rewrite Hq. simpl.
  rewrite bool_decide_eq_true_2 by done.
  by destruct (changes cur).
Qed.

(** The loop of the batch planner, from a state in which a batch is
    open. The closed batches and the open one have priorities that
    decrease strictly; the loop keeps that, and loses no change. *)
Lemma batch_loop_spec l : ∀ bs cur p ps,
  Forall (λ c, is_Some (prio c)) l →
  StronglySorted (λ a b, prio_key b ≤ prio_key a) l →
  Forall (λ c, prio_key c ≤ p) l →
  Forall2 (λ b q, batch_of_prio q b) bs ps →
  batch_of_prio p cur →
  StronglySorted Z.gt (ps ++ [p]) →
  ∃ bs' cur' p' ps',
    batch_loop (bs, cur, Some p) l = Some (bs', cur', Some p')
    ∧ Forall2 (λ b q, batch_of_prio q b) bs' ps'
    ∧ batch_of_prio p' cur'
    ∧ StronglySorted Z.gt (ps' ++ [p'])
    ∧ concat (changes <$> bs') ++ changes cur'
      = concat (changes <$> bs) ++ changes cur ++ l.
Proof.
  induction l as [|c l IH]; intros bs cur p ps Hsome Hsort Hle Hbs Hcur Hps.
  { exists bs, cur, p, ps. by rewrite app_nil_r. }
  apply Forall_cons in Hsome as [[q Hq] Hsome].
  apply StronglySorted_cons in Hsort as [Hc Hsort].
  apply Forall_cons in Hle as [Hqp Hle].
  assert (prio_key c = q) as Hkey by (unfold prio_key; by rewrite Hq).
  rewrite Hkey in Hqp, Hc.
  rewrite batch_loop_cons.
  destruct Hcur as [Hne Hall].
  destruct (decide (q = p)) as [->|Hneq].
  - rewrite (batch_step_same _ _ _ _ Hq).
    destruct (IH bs (add_change cur c) p ps)
      as (bs' & cur' & p' & ps' & Heq & ? & ? & ? & Hcat); try done.
    { split; simpl; [by destruct (changes cur)|].
      apply Forall_app. split; [done|]. by constructor. }
    exists bs', cur', p', ps'.
    split; [exact Heq|]. do 3 (split; [done|]).
    rewrite Hcat. simpl. by rewrite <-!app_assoc.
  - rewrite (batch_step_new _ _ _ _ _ Hq Hneq Hne).
    destruct (IH (bs ++ [cur]) (add_change new_ChangeBatch c) q (ps ++ [p]))
      as (bs' & cur' & p' & ps' & Heq & ? & ? & ? & Hcat); try done.
    { apply Forall2_app; [done|]. by repeat constructor. }
    { split; simpl; [done|]. by repeat constructor. }
    { apply StronglySorted_app_2; [|done|by repeat constructor].
      intros x1 x2 Hx1 ->%list_elem_of_singleton.
      apply elem_of_app in Hx1 as [Hx1| ->%list_elem_of_singleton]; [|lia].
      assert (x1 > p); [|lia].
      eapply StronglySorted_app_1_elem_of; [done..|]. left. }
    exists bs', cur', p', ps'.
    split; [exact Heq|]. do 3 (split; [done|]).
    rewrite Hcat. rewrite fmap_app, concat_app. simpl.
    by rewrite app_nil_r, <-!app_assoc.
Qed.

(** The value of [changes_to_r53_updates]: it returns, and the batches are
    the sorted changes cut where the priority changes. *)
Lemma changes_to_r53_updates_spec z change_operations :
  ∃ bs ps,
    changes_to_r53_updates z change_operations = Some bs
    ∧ Forall2 (λ b q, batch_of_prio q b) bs ps
    ∧ StronglySorted Z.gt ps
    ∧ concat (changes <$> bs)
      = sorted prio_before (assign_change_priority z change_operations).
Proof.
  unfold changes_to_r53_updates.
  pose proof (assign_change_priority_has_prio z change_operations) as Hsome.
  rewrite (sorted_by_prio_reverse_Some _ Hsome).
  pose proof (sorted_prio_before_sorted (assign_change_priority z change_operations))
    as Hsort.
  assert (Forall (λ c, is_Some (prio c))
            (sorted prio_before (assign_change_priority z change_operations)))
    as Hsome'.
  { by rewrite sorted_perm. }
  destruct (sorted prio_before (assign_change_priority z change_operations))
    as [|c l].
  { exists [], []. split; [done|]. split; [constructor|]. split; [constructor|reflexivity]. }
  apply Forall_cons in Hsome' as [[q Hq] Hsome'].
  apply StronglySorted_cons in Hsort as [Hc Hsort].
  assert (prio_key c = q) as Hkey by (unfold prio_key; by rewrite Hq).
  rewrite Hkey in Hc.
  destruct (batch_loop_spec l [] (add_change new_ChangeBatch c) q [])
    as (bs' & cur' & p' & ps' & Heq & Hbs & Hcur & Hps & Hcat); try done.
  { split; simpl; [done|]. by repeat constructor. }
  { repeat constructor. }
  exists (bs' ++ [cur']), (ps' ++ [p']). split; [|split; [|split; [done|]]].
  - cbn [mbind option_bind].
    rewrite batch_loop_cons, (batch_step_first _ _ Hq). cbn [mbind option_bind].
    rewrite Heq. cbn [mbind option_bind].
    destruct Hcur as [Hne _]. by destruct (changes cur').
  - apply Forall2_app; [done|]. constructor; [exact Hcur|constructor].
  - rewrite fmap_app, concat_app. simpl. by rewrite app_nil_r, Hcat.
Qed.

Lemma batches_prios bs ps c :
  Forall2 (λ b q, batch_of_prio q b) bs ps →
  c ∈ concat (changes <$> bs) → ∃ q, q ∈ ps ∧ prio c = Some q.
Proof.
  induction 1 as [|b q bs ps [_ Hb] _ IH]; csimpl.
  { by intros ?%elem_of_nil. }
  rewrite elem_of_app. intros [Hc|Hc].
  - exists q. split; [left|]. by eapply Forall_forall in Hb.
  - destruct (IH Hc) as (q' & ? & ?). exists q'. split; [by right|done].
Qed.

(** Batches of strictly decreasing priorities are the classes of their
    concatenation. *)
Lemma filter_concat_batches bs ps :
  Forall2 (λ b q, batch_of_prio q b) bs ps →
  StronglySorted Z.gt ps →
  Forall2 (λ b q, changes b = filter (λ c, prio c = Some q) (concat (changes <$> bs)))
          bs ps.
Proof.
  induction 1 as [|b q bs ps [Hne Hb] Hbs IH]; intros Hps; csimpl; [constructor|].
  apply StronglySorted_cons in Hps as [Hq Hps].
  constructor.
  - rewrite filter_app, filter_all by done.
    rewrite filter_none; [by rewrite app_nil_r|].
    apply Forall_forall. intros c Hc Hcq.
    destruct (batches_prios _ _ _ Hbs Hc) as (q' & Hq' & Hcq').
    eapply Forall_forall in Hq; [|done]. simplify_eq. lia.
  - specialize (IH Hps).
    apply Forall2_same_length_lookup in IH as [Hlen IH].
    apply Forall2_same_length_lookup. split; [done|].
    intros i b' q' Hb' Hq'. rewrite filter_app, <-(IH i b' q' Hb' Hq').
    rewrite filter_none; [done|].
    apply Forall_forall. intros c Hc Hcq.
    eapply Forall_forall in Hb; [|done].
    eapply Forall_forall in Hq; [|by eapply list_elem_of_lookup_2].
    simplify_eq. lia.
Qed.

(** C4. For every list of changes, [changes_to_r53_updates] returns
    batches none of which is empty; the changes of one batch have one
    priority; the priorities of the batches decrease strictly along the
    list; and a batch holds the changes of its priority in the order they
    have in the input list (the list as [assign_change_priority] leaves
    it): the sort is stable. *)
Theorem changes_to_r53_updates_batches z change_operations :
  ∃ bs ps,
    changes_to_r53_updates z change_operations = Some bs
    ∧ Forall2 (λ b p,
                 changes b ≠ []
                 ∧ Forall (λ c, prio c = Some p) (changes b)
                 ∧ changes b
                   = filter (λ c, prio c = Some p)
                            (assign_change_priority z change_operations))
              bs ps
    ∧ StronglySorted Z.gt ps.
Proof.
  destruct (changes_to_r53_updates_spec z change_operations)
    as (bs & ps & Heq & Hbs & Hps & Hcat).
  exists bs, ps. split; [done|]. split; [|done].
  pose proof (filter_concat_batches _ _ Hbs Hps) as Hfil.
  apply Forall2_same_length_lookup in Hfil as [Hlen Hfil].
  apply Forall2_same_length_lookup in Hbs as [_ Hbs].
  apply Forall2_same_length_lookup. split; [done|].
  intros i b p Hb Hp. destruct (Hbs i b p Hb Hp) as [Hne Hall].
  do 2 (split; [done|]).
  rewrite (Hfil i b p Hb Hp), Hcat.
  apply filter_sorted. intros x y Hx Hy.
  unfold prio_before, prio_key. rewrite Hx, Hy. simpl. apply Z.ltb_irrefl.
Qed.

(** C10. The batches returned by [changes_to_r53_updates] hold exactly the
    changes of the input list, each in one batch: their concatenation is a
    permutation of the list as [assign_change_priority] leaves it, and,
    leaving the priorities aside, of the list that was passed. *)
Theorem changes_to_r53_updates_permutation z change_operations :
  ∃ bs,
    changes_to_r53_updates z change_operations = Some bs
    ∧ concat (changes <$> bs) ≡ₚ assign_change_priority z change_operations
    ∧ (λ c, (zone c, operation c, record c)) <$> concat (changes <$> bs)
      ≡ₚ (λ c, (zone c, operation c, record c)) <$> change_operations.
Proof.
  destruct (changes_to_r53_updates_spec z change_operations)
    as (bs & ps & Heq & Hbs & Hps & Hcat).
  exists bs. split; [done|]. rewrite Hcat, sorted_perm. split; [done|].
  rewrite assign_change_priority_spec. unfold Spec.assignPriority.
  by rewrite <-list_fmap_compose.
Qed.

(** ** The priority ordering scenario *)

Lemma sort_by_name_pair set_iter (a b : R53Record) s :
  iterates_sets set_iter →
  NoDup s → (∀ r, r ∈ s ↔ r = b ∨ r = a) →
  String.ltb (Name a) (Name b) = true →
  sort_by_name set_iter s = [a; b].
Proof.
  intros Hit Hs Hin Hab.
  assert (a ≠ b) as Hne.
  { intros ->. pose proof (ltb_asym _ _ Hab). congruence. }
  assert (set_iter s ≡ₚ [a; b]) as Hp.
  { rewrite (Hit s Hs). apply NoDup_Permutation; [done|..].
    - apply NoDup_cons. split; [by intros ?%list_elem_of_singleton|].
      apply NoDup_singleton.
    - intros r. rewrite Hin, elem_of_cons, list_elem_of_singleton. tauto. }
  symmetry in Hp. apply Permutation_length_2_inv in Hp.
  unfold sort_by_name. destruct Hp as [-> | ->]; simpl.
  - by rewrite (ltb_asym _ _ Hab).
  - by rewrite Hab.
Qed.

(** C2. The priority ordering scenario: the desired state adds the record
    [target.example.com.] of type A, which is not an alias, and the alias
    [alias.example.com.] whose target is [target.example.com.]; neither is
    among the existing records, and nothing else differs. Then
    [changes_to_r53_updates], on the changes that [compute_changes]
    returns, returns two batches: first the CREATE of
    [target.example.com.] alone, with priority 1, then the CREATE of
    [alias.example.com.] alone, with priority 0. It holds in every zone of
    which the alias is not an apex SOA or NS record. *)
Theorem priority_ordering_scenario set_iter z existing desired use_upsert
    target alias alias_target :
  iterates_sets set_iter →
  Name target = "target.example.com." →
  Type_ target = "A" →
  AliasTarget target = None →
  Name alias = "alias.example.com." →
  AliasTarget alias = Some alias_target →
  DNSName alias_target = "target.example.com." →
  is_apex_soa_ns z alias = false →
  target ∉ existing →
  alias ∉ existing →
  (∀ r, r ∈ desired ↔ r ∈ existing ∨ r = target ∨ r = alias) →
  changes_to_r53_updates z
    (compute_changes set_iter z existing desired use_upsert)
  = Some [ {| changes := [set_prio (mk_change z CREATE target) 1] |};
           {| changes := [set_prio (mk_change z CREATE alias) 0] |} ].
Proof.
  intros Hit Htn Htt Hta Han Haa Hat Hapex Htex Haex Hdes.
  assert (is_apex_soa_ns z target = false) as Hapex'.
  { unfold is_apex_soa_ns. rewrite Htt. simpl. apply andb_false_r. }
  assert (to_delete z existing desired = []) as Hdel.
  { apply difference_subseteq. intros x. unfold frozenset.
    rewrite !elem_of_remove_dups, !elem_of_skip_apex_soa_ns, Hdes. tauto. }
  assert (sort_by_name set_iter (to_add z existing desired) = [alias; target])
    as Hadd.
  { apply sort_by_name_pair; [done|apply NoDup_to_add|..].
    - intros r. rewrite elem_of_to_add, Hdes. split.
      + intros ([He|[->| ->]] & Hr & Hn); tauto.
      + intros [-> | ->]; tauto.
    - by rewrite Htn, Han. }
  rewrite (compute_changes_unfold _ Hit), Hdel, Hadd.
  rewrite (sort_by_name_nil _ Hit). unfold is_in_set.
  rewrite (set_iter_nil _ Hit). simpl. rewrite !andb_false_r.
  unfold changes_to_r53_updates.
  assert (assign_change_priority z
            [mk_change z CREATE alias; mk_change z CREATE target]
          = [set_prio (mk_change z CREATE alias) 0;
             set_prio (mk_change z CREATE target) 1]) as ->.
  { rewrite assign_change_priority_spec.
    unfold Spec.assignPriority, Spec.targetWeight, Spec.pass2, Spec.pass1.
    simpl. unfold Spec.new_alias_target. simpl.
    rewrite Haa, Hta, Hat, Han, Htn. rewrite decide_True by done.
    reflexivity. }
  reflexivity.
Qed.

Lemma priority_ordering_scenario_witness :
  changes_to_r53_updates example_zone
    (compute_changes id example_zone
       [plain_record "www.example.com." "A" 300 "127.0.0.9"]
       [plain_record "www.example.com." "A" 300 "127.0.0.9";
        plain_record "target.example.com." "A" 300 "127.0.0.1";
        alias_record "alias.example.com." "A" "target.example.com."] false)
  = Some [ {| changes :=
                [set_prio (mk_change example_zone CREATE
                             (plain_record "target.example.com." "A" 300 "127.0.0.1"))
                          1] |};
           {| changes :=
                [set_prio (mk_change example_zone CREATE
                             (alias_record "alias.example.com." "A" "target.example.com."))
                          0] |} ].
Proof.
  apply (priority_ordering_scenario id example_zone _ _ false _ _
           {| DNSName := "target.example.com."; HostedZoneId := "Z0123456789";
              EvaluateTargetHealth := false |});
    try reflexivity.
  - by intros s _.
  - by intros [=]%list_elem_of_singleton.
  - by intros [=]%list_elem_of_singleton.
  - intros r. rewrite !elem_of_cons, elem_of_nil. tauto.
Defined.

(** * Further properties of the reconciliation core *)

(** Some record of the set [s] has the name of [r]: what [is_in_set]
    decides. *)
Definition shares_name (r : R53Record) (s : list R53Record) : Prop :=
  ∃ entry, entry ∈ s ∧ Name entry = Name r.

(** ** More on [compute_changes] *)

Section diff_engine_more.
Context (set_iter : list R53Record → list R53Record).
Hypothesis set_iter_perm : iterates_sets set_iter.

Lemma is_in_set_shares_name r s :
  NoDup s → is_in_set set_iter r s = true ↔ shares_name r s.
Proof. intros Hs. by apply is_in_set_true. Qed.

(** The changes of [compute_changes], one by one. *)
Lemma compute_changes_elem_of z e d u c :
  c ∈ compute_changes set_iter z e d u ↔
  zone c = z ∧ prio c = None
  ∧ ((operation c = DELETE ∧ record c ∈ to_delete z e d
      ∧ ¬ (u = true ∧ shares_name (record c) (to_add z e d)))
     ∨ (operation c = CREATE ∧ record c ∈ to_add z e d
        ∧ ¬ (u = true ∧ shares_name (record c) (to_delete z e d)))
     ∨ (operation c = UPSERT ∧ record c ∈ to_add z e d
        ∧ u = true ∧ shares_name (record c) (to_delete z e d))).
Proof.
  rewrite (compute_changes_unfold _ set_iter_perm), elem_of_app, !list_elem_of_fmap.
  setoid_rewrite elem_of_reverse. setoid_rewrite list_elem_of_filter.
  setoid_rewrite (sort_by_name_perm _ set_iter_perm _ (NoDup_to_delete z e d)).
  setoid_rewrite (sort_by_name_perm _ set_iter_perm _ (NoDup_to_add z e d)).
  pose proof (λ r, is_in_set_shares_name r _ (NoDup_to_add z e d)) as Ha.
  pose proof (λ r, is_in_set_shares_name r _ (NoDup_to_delete z e d)) as Hd.
  split.
  - intros [(r & -> & Hk & Hr)|(r & -> & Hr)]; simpl; (split; [done|]); (split; [done|]).
    + left. split; [done|]. split; [done|]. intros [-> Hs].
      apply Ha in Hs. rewrite Hs in Hk. done.
    + destruct u; simpl.
      * destruct (is_in_set set_iter r (to_delete z e d)) eqn:E.
        -- right; right. rewrite <-Hd. done.
        -- right; left. split; [done|]. split; [done|]. intros [_ Hs].
           apply Hd in Hs. congruence.
      * right; left. split; [done|]. split; [done|]. by intros [? _].
  - destruct c as [cz cop cr cp]; simpl.
    intros (-> & -> & [(-> & Hr & Hn)|[(-> & Hr & Hn)|(-> & Hr & -> & Hs)]]).
    + left. exists cr. split; [done|]. split; [|done].
      destruct u; simpl; [|done].
      destruct (is_in_set set_iter cr (to_add z e d)) eqn:E; [|done].
      destruct Hn. split; [done|]. by apply Ha.
    + right. exists cr. split; [|done].
      destruct u; simpl; [|done].
      destruct (is_in_set set_iter cr (to_delete z e d)) eqn:E; [|done].
      destruct Hn. split; [done|]. by apply Hd.
    + right. exists cr. split; [|done]. simpl.
      apply Hd in Hs. by rewrite Hs.
Qed.

Lemma compute_changes_NoDup z e d u :
  NoDup (compute_changes set_iter z e d u).
Proof.
  rewrite (compute_changes_unfold _ set_iter_perm). apply NoDup_app. split; [|split].
  - apply NoDup_fmap_2_strong.
    + intros x y _ _ [=]. done.
    + rewrite reverse_Permutation. apply NoDup_filter.
      rewrite (sort_by_name_perm _ set_iter_perm) by apply NoDup_to_delete.
      apply NoDup_to_delete.
  - intros c (r & -> & _)%list_elem_of_fmap (r' & Hc & _)%list_elem_of_fmap.
    injection Hc as Hop _. by destruct (u && _).
  - apply NoDup_fmap_2_strong.
    + intros x y _ _ [=]. done.
    + rewrite (sort_by_name_perm _ set_iter_perm) by apply NoDup_to_add.
      apply NoDup_to_add.
Qed.

Lemma records_of_elem_of op l r :
  r ∈ records_of op l ↔ ∃ c, c ∈ l ∧ operation c = op ∧ record c = r.
Proof.
  unfold records_of. rewrite list_elem_of_fmap.
  setoid_rewrite list_elem_of_filter. naive_solver.
Qed.
End diff_engine_more.

(** Two collections for the examples: the live zone has its apex NS
    record, [old] and [www]; the file keeps [www] with another TTL and adds
    [mail]. *)
Definition example_existing : list R53Record :=
  [plain_record "example.com." "NS" 172800 "ns-550.awsdns-04.net.";
   plain_record "old.example.com." "A" 300 "127.0.0.1";
   plain_record "www.example.com." "A" 300 "127.0.0.2"].

Definition example_desired : list R53Record :=
  [plain_record "www.example.com." "A" 60 "127.0.0.2";
   plain_record "mail.example.com." "MX" 300 "10 mx.example.net.";
   plain_record "mail.example.com." "MX" 300 "10 mx.example.net."].

Lemma id_iterates_sets : iterates_sets id.
Proof. by intros s _. Qed.

(** X1. The changes [compute_changes] returns are exactly these, each
    once: a DELETE of every record of [to_delete], unless [use_upsert] and a
    record of [to_add] has its name; for every record of [to_add], an UPSERT
    if [use_upsert] and a record of [to_delete] has its name, a CREATE
    otherwise. Every change carries the zone that was passed and no
    priority. *)
Theorem compute_changes_exactly set_iter z existing desired use_upsert :
  iterates_sets set_iter →
  NoDup (compute_changes set_iter z existing desired use_upsert)
  ∧ ∀ c, c ∈ compute_changes set_iter z existing desired use_upsert ↔
      zone c = z ∧ prio c = None
      ∧ ((operation c = DELETE ∧ record c ∈ to_delete z existing desired
          ∧ ¬ (use_upsert = true
               ∧ shares_name (record c) (to_add z existing desired)))
         ∨ (operation c = CREATE ∧ record c ∈ to_add z existing desired
            ∧ ¬ (use_upsert = true
                 ∧ shares_name (record c) (to_delete z existing desired)))
         ∨ (operation c = UPSERT ∧ record c ∈ to_add z existing desired
            ∧ use_upsert = true
            ∧ shares_name (record c) (to_delete z existing desired))).
Proof.
  intros Hit. split.
  - by apply compute_changes_NoDup.
  - intros c. by apply compute_changes_elem_of.
Qed.

Lemma compute_changes_exactly_witness :
  NoDup (compute_changes id example_zone example_existing example_desired true)
  ∧ ∀ c, c ∈ compute_changes id example_zone example_existing example_desired true ↔
      zone c = example_zone ∧ prio c = None
      ∧ ((operation c = DELETE
          ∧ record c ∈ to_delete example_zone example_existing example_desired
          ∧ ¬ (true = true
               ∧ shares_name (record c)
                   (to_add example_zone example_existing example_desired)))
         ∨ (operation c = CREATE
            ∧ record c ∈ to_add example_zone example_existing example_desired
            ∧ ¬ (true = true
                 ∧ shares_name (record c)
                     (to_delete example_zone example_existing example_desired)))
         ∨ (operation c = UPSERT
            ∧ record c ∈ to_add example_zone example_existing example_desired
            ∧ true = true
            ∧ shares_name (record c)
                (to_delete example_zone example_existing example_desired))).
Proof. apply (compute_changes_exactly id), id_iterates_sets. Defined.

(** X2. [compute_changes] returns no change exactly when the two
    collections hold the same records, apex SOA and NS records aside. *)
Theorem compute_changes_nil_iff set_iter z existing desired use_upsert :
  iterates_sets set_iter →
  compute_changes set_iter z existing desired use_upsert = [] ↔
  ∀ r, is_apex_soa_ns z r = false → (r ∈ existing ↔ r ∈ desired).
Proof.
  intros Hit. split.
  - intros Hnil r Hr.
    assert (∀ c, ¬ c ∈ compute_changes set_iter z existing desired use_upsert) as Hno.
    { intros c. rewrite Hnil. apply not_elem_of_nil. }
    assert (to_add z existing desired = []) as Hadd.
    { destruct (to_add z existing desired) as [|a l] eqn:E; [done|].
      assert (a ∈ to_add z existing desired) as Ha by (rewrite E; left).
      destruct (use_upsert
                && is_in_set set_iter a (to_delete z existing desired)) eqn:Eu.
      - destruct (Hno (mk_change z UPSERT a)).
        apply (compute_changes_elem_of _ Hit). do 2 (split; [done|]).
        right; right. apply andb_true_iff in Eu as [-> Eu].
        do 3 (split; [done|]).
        apply (is_in_set_true _ Hit) in Eu; [done|apply NoDup_to_delete].
      - destruct (Hno (mk_change z CREATE a)).
        apply (compute_changes_elem_of _ Hit). do 2 (split; [done|]).
        right; left. do 2 (split; [done|]). intros [-> Hs]. simpl in *.
        apply (is_in_set_true _ Hit) in Hs; [congruence|apply NoDup_to_delete]. }
    assert (to_delete z existing desired = []) as Hdel.
    { destruct (to_delete z existing desired) as [|a l] eqn:E; [done|].
      destruct (Hno (mk_change z DELETE a)).
      apply (compute_changes_elem_of _ Hit). do 2 (split; [done|]).
      left. split; [done|]. split; [rewrite E; left|].
      intros [_ (x & Hx & _)]. rewrite Hadd in Hx. by apply elem_of_nil in Hx. }
    split; intros Hin.
    + destruct (decide (r ∈ desired)) as [|Hnd]; [done|].
      assert (r ∈ to_delete z existing desired) as Hbad
        by (apply elem_of_to_delete; tauto).
      rewrite Hdel in Hbad. by apply elem_of_nil in Hbad.
    + destruct (decide (r ∈ existing)) as [|Hne]; [done|].
      assert (r ∈ to_add z existing desired) as Hbad
        by (apply elem_of_to_add; tauto).
      rewrite Hadd in Hbad. by apply elem_of_nil in Hbad.
  - intros Hsame. unfold compute_changes.
    rewrite !difference_subseteq; [done|..]; intros x; unfold frozenset;
      rewrite !elem_of_remove_dups, !elem_of_skip_apex_soa_ns;
      intros [Hx Ha]; (split; [|done]); by apply (Hsame x Ha).
Qed.

Lemma compute_changes_nil_iff_witness :
  compute_changes id example_zone
    [plain_record "example.com." "NS" 172800 "ns-550.awsdns-04.net.";
     plain_record "www.example.com." "A" 300 "127.0.0.2";
     plain_record "www.example.com." "A" 300 "127.0.0.2"]
    [plain_record "www.example.com." "A" 300 "127.0.0.2";
     plain_record "example.com." "SOA" 900 "ns-550.awsdns-04.net. admin 1"] false
  = [] ↔
  ∀ r, is_apex_soa_ns example_zone r = false →
       (r ∈ [plain_record "example.com." "NS" 172800 "ns-550.awsdns-04.net.";
             plain_record "www.example.com." "A" 300 "127.0.0.2";
             plain_record "www.example.com." "A" 300 "127.0.0.2"]
        ↔ r ∈ [plain_record "www.example.com." "A" 300 "127.0.0.2";
               plain_record "example.com." "SOA" 900 "ns-550.awsdns-04.net. admin 1"]).
Proof. apply (compute_changes_nil_iff id), id_iterates_sets. Defined.

Lemma records_of_compute_changes_no_upsert set_iter z e d :
  iterates_sets set_iter →
  records_of CREATE (compute_changes set_iter z e d false)
  = sort_by_name set_iter (to_add z e d)
  ∧ records_of DELETE (compute_changes set_iter z e d false)
    = reverse (sort_by_name set_iter (to_delete z e d))
  ∧ records_of UPSERT (compute_changes set_iter z e d false) = [].
Proof.
  intros Hit. rewrite (compute_changes_unfold _ Hit). simpl.
  rewrite !records_of_app, !records_of_mk_change. simpl.
  rewrite filter_all by (apply Forall_forall; by intros).
  by rewrite !app_nil_r.
Qed.

(** X3. Without [use_upsert], the diff taken in the other direction undoes
    this one: the records it deletes are the records this one creates, in
    the reverse order, and the records it creates are the records this one
    deletes, in the reverse order. *)
Theorem compute_changes_reverse_diff set_iter z existing desired :
  iterates_sets set_iter →
  records_of DELETE (compute_changes set_iter z desired existing false)
  = reverse (records_of CREATE (compute_changes set_iter z existing desired false))
  ∧ records_of CREATE (compute_changes set_iter z desired existing false)
    = reverse (records_of DELETE (compute_changes set_iter z existing desired false)).
Proof.
  intros Hit.
  destruct (records_of_compute_changes_no_upsert _ z existing desired Hit)
    as (-> & -> & _).
  destruct (records_of_compute_changes_no_upsert _ z desired existing Hit)
    as (-> & -> & _).
  by rewrite reverse_involutive.
Qed.

Lemma compute_changes_reverse_diff_witness :
  records_of DELETE (compute_changes id example_zone example_desired example_existing false)
  = reverse (records_of CREATE
               (compute_changes id example_zone example_existing example_desired false))
  ∧ records_of CREATE
      (compute_changes id example_zone example_desired example_existing false)
    = reverse (records_of DELETE
                 (compute_changes id example_zone example_existing example_desired false)).
Proof. apply (compute_changes_reverse_diff id), id_iterates_sets. Defined.

(** X4. The result depends on the two collections as sets only: listing
    the records in another order, or some of them twice, and iterating the
    sets in another order, gives the same changes up to their order. *)
Theorem compute_changes_collections_as_sets set_iter set_iter' z
    existing existing' desired desired' use_upsert :
  iterates_sets set_iter →
  iterates_sets set_iter' →
  (∀ r, r ∈ existing ↔ r ∈ existing') →
  (∀ r, r ∈ desired ↔ r ∈ desired') →
  compute_changes set_iter z existing desired use_upsert
  ≡ₚ compute_changes set_iter' z existing' desired' use_upsert.
Proof.
  intros Hit Hit' He Hd.
  assert (∀ r, r ∈ to_add z existing desired ↔ r ∈ to_add z existing' desired') as Ha.
  { intros r. by rewrite !elem_of_to_add, He, Hd. }
  assert (∀ r, r ∈ to_delete z existing desired ↔ r ∈ to_delete z existing' desired')
    as Hdel.
  { intros r. by rewrite !elem_of_to_delete, He, Hd. }
  apply NoDup_Permutation; [by apply compute_changes_NoDup..|].
  intros c. rewrite !compute_changes_elem_of by done.
  unfold shares_name. rewrite Ha, Hdel.
  by repeat (setoid_rewrite Ha || setoid_rewrite Hdel).
Qed.

Lemma compute_changes_collections_as_sets_witness :
  compute_changes id example_zone example_existing example_desired true
  ≡ₚ compute_changes reverse example_zone
       (reverse example_existing ++ example_existing) (reverse example_desired) true.
Proof.
  apply (compute_changes_collections_as_sets id reverse).
  - apply id_iterates_sets.
  - intros s _. apply reverse_Permutation.
  - intros r. rewrite elem_of_app, elem_of_reverse. tauto.
  - intros r. by rewrite elem_of_reverse.
Defined.

(** X5. Without [use_upsert] the changes lead from the existing records to
    the desired ones: the existing records that are not deleted, together
    with the created ones, are exactly the desired records (apex SOA and NS
    records aside). With [use_upsert], every desired record is still kept,
    created or upserted. *)
Theorem compute_changes_reaches_desired set_iter z existing desired use_upsert :
  iterates_sets set_iter →
  (∀ r, r ∈ skip_apex_soa_ns z desired →
        (r ∈ skip_apex_soa_ns z existing
         ∧ r ∉ records_of DELETE
                 (compute_changes set_iter z existing desired use_upsert))
        ∨ r ∈ records_of CREATE
                (compute_changes set_iter z existing desired use_upsert)
        ∨ r ∈ records_of UPSERT
                (compute_changes set_iter z existing desired use_upsert))
  ∧ (use_upsert = false →
     ∀ r, r ∈ skip_apex_soa_ns z desired ↔
          (r ∈ skip_apex_soa_ns z existing
           ∧ r ∉ records_of DELETE
                   (compute_changes set_iter z existing desired use_upsert))
          ∨ r ∈ records_of CREATE
                  (compute_changes set_iter z existing desired use_upsert)).
Proof.
  intros Hit.
  assert (∀ op r,
    r ∈ records_of op (compute_changes set_iter z existing desired use_upsert) ↔
    (op = DELETE ∧ r ∈ to_delete z existing desired
     ∧ ¬ (use_upsert = true ∧ shares_name r (to_add z existing desired)))
    ∨ (op = CREATE ∧ r ∈ to_add z existing desired
       ∧ ¬ (use_upsert = true ∧ shares_name r (to_delete z existing desired)))
    ∨ (op = UPSERT ∧ r ∈ to_add z existing desired
       ∧ use_upsert = true ∧ shares_name r (to_delete z existing desired))) as Hrec.
  { intros op r. rewrite records_of_elem_of. split.
    - intros (c & Hc & <- & <-).
      apply (compute_changes_elem_of _ Hit) in Hc. tauto.
    - intros H. exists (mk_change z op r). split; [|done].
      apply (compute_changes_elem_of _ Hit). simpl. tauto. }
  split.
  - intros r Hr. apply elem_of_skip_apex_soa_ns in Hr as [Hr Ha].
    rewrite !Hrec, !elem_of_skip_apex_soa_ns, !elem_of_to_add, !elem_of_to_delete.
    destruct (decide (r ∈ existing)) as [He|He].
    + left. split; [tauto|].
      intros [(_ & (_ & _ & Hn) & _)|[(? & _)|(? & _)]]; [tauto|done|done].
    + destruct use_upsert.
      2:{ right; left; right; left. split; [done|]. split; [tauto|]. by intros [? _]. }
      destruct (is_in_set set_iter r (to_delete z existing desired)) eqn:E.
      * apply (is_in_set_true _ Hit) in E; [|apply NoDup_to_delete].
        right; right. right; right. split; [done|]. split; [tauto|]. done.
      * right; left. right; left. split; [done|]. split; [tauto|]. intros [_ Hs].
        apply (is_in_set_true _ Hit) in Hs; [congruence|apply NoDup_to_delete].
  - intros -> r.
    rewrite !Hrec, !elem_of_skip_apex_soa_ns, !elem_of_to_add, !elem_of_to_delete.
    destruct (decide (r ∈ existing)), (decide (r ∈ desired)),
      (is_apex_soa_ns z r); naive_solver.
Qed.

Lemma compute_changes_reaches_desired_witness :
  (∀ r, r ∈ skip_apex_soa_ns example_zone example_desired →
        (r ∈ skip_apex_soa_ns example_zone example_existing
         ∧ r ∉ records_of DELETE
                 (compute_changes id example_zone example_existing example_desired false))
        ∨ r ∈ records_of CREATE
                (compute_changes id example_zone example_existing example_desired false)
        ∨ r ∈ records_of UPSERT
                (compute_changes id example_zone example_existing example_desired false))
  ∧ (false = false →
     ∀ r, r ∈ skip_apex_soa_ns example_zone example_desired ↔
          (r ∈ skip_apex_soa_ns example_zone example_existing
           ∧ r ∉ records_of DELETE
                   (compute_changes id example_zone example_existing example_desired false))
          ∨ r ∈ records_of CREATE
                  (compute_changes id example_zone example_existing example_desired false)).
Proof. apply (compute_changes_reaches_desired id), id_iterates_sets. Defined.

(** ** More on [assign_change_priority] *)

(** The change [c] is a same-zone CREATE or UPSERT of an alias whose
    target is the name [k]: it makes the first and the second pass write to
    [rr_prio[k]]. *)
Definition new_alias_to (z : Zone) (c : Change) (k : string) : Prop :=
  is_new_alias z c = true
  ∧ ∃ target, AliasTarget (record c) = Some target ∧ DNSName target = k.

Lemma new_alias_to_spec z c k :
  new_alias_to z c k ↔ Spec.new_alias_target z c = Some k.
Proof.
  split.
  - intros (Hnew & target & Ht & <-).
    destruct (Spec.new_alias_target z c) as [k'|] eqn:E.
    + apply is_new_alias_Some in E as (_ & target' & Ht' & <-). congruence.
    + apply is_new_alias_None in E. congruence.
  - intros H. by apply is_new_alias_Some.
Qed.

Lemma not_new_alias_spec z c :
  is_new_alias z c = false → Spec.new_alias_target z c = None.
Proof.
  intros Hc. destruct (Spec.new_alias_target z c) eqn:E; [|done].
  apply is_new_alias_Some in E as [? _]. congruence.
Qed.

Lemma foldl_add_weight_nonneg z (f : (string → Z) → Change → Z) l (w : string → Z) :
  (∀ w c, (∀ k, 0 ≤ w k) → 0 ≤ f w c) →
  (∀ k, 0 ≤ w k) →
  ∀ k, 0 ≤ foldl (λ w change,
                    match Spec.new_alias_target z change with
                    | Some t => Spec.add_weight w t (f w change)
                    | None => w
                    end) w l k.
Proof.
  intros Hf. revert w. induction l as [|c l IH]; intros w Hw; simpl; [done|].
  apply IH. intros k. destruct (Spec.new_alias_target z c) as [t|]; [|done].
  unfold Spec.add_weight. specialize (Hf w c Hw). specialize (Hw k).
  destruct (decide (k = t)); lia.
Qed.

Lemma pass1_nonneg z l k : 0 ≤ Spec.pass1 z l k.
Proof. by apply (foldl_add_weight_nonneg z (λ _ _, 1)). Qed.

Lemma targetWeight_nonneg z l k : 0 ≤ Spec.targetWeight z l k.
Proof.
  apply (foldl_add_weight_nonneg z (λ w c, w (Name (record c)))); [by auto|].
  apply pass1_nonneg.
Qed.

(** X6. Every priority that [assign_change_priority] assigns is a
    non-negative integer. *)
Theorem assign_change_priority_nonneg z change_operations :
  Forall (λ c, ∃ p, prio c = Some p ∧ 0 ≤ p)
         (assign_change_priority z change_operations).
Proof.
  rewrite assign_change_priority_spec. unfold Spec.assignPriority.
  apply Forall_fmap, Forall_forall. intros c _. simpl.
  eexists. split; [done|]. apply targetWeight_nonneg.
Qed.

(** The priorities depend on the zone, the operation and the record of
    each change, not on a priority it may already carry. *)
Lemma targetWeight_ext z l l' :
  Forall2 (λ c c', zone c = zone c' ∧ operation c = operation c'
                   ∧ record c = record c') l l' →
  Spec.targetWeight z l = Spec.targetWeight z l'.
Proof.
  intros Hl.
  assert (∀ (f : (string → Z) → Change → Z) w,
    (∀ w c c', record c = record c' → f w c = f w c') →
    foldl (λ w change,
             match Spec.new_alias_target z change with
             | Some t => Spec.add_weight w t (f w change)
             | None => w
             end) w l
    = foldl (λ w change,
               match Spec.new_alias_target z change with
               | Some t => Spec.add_weight w t (f w change)
               | None => w
               end) w l') as Hfold.
  { intros f w Hf. revert w.
    induction Hl as [|c c' l l' (Hz & Ho & Hr) _ IH]; intros w; simpl; [done|].
    rewrite IH. unfold Spec.new_alias_target.
    by rewrite Hz, Ho, Hr, (Hf w c c' Hr). }
  unfold Spec.targetWeight, Spec.pass2, Spec.pass1.
  rewrite (Hfold (λ _ _, 1)) by done.
  apply (Hfold (λ w c, w (Name (record c)))). by intros w c c' ->.
Qed.

Lemma assign_change_priority_ext z l l' :
  Forall2 (λ c c', zone c = zone c' ∧ operation c = operation c'
                   ∧ record c = record c') l l' →
  assign_change_priority z l = assign_change_priority z l'.
Proof.
  intros Hl. rewrite !assign_change_priority_spec. unfold Spec.assignPriority.
  rewrite (targetWeight_ext _ _ _ Hl).
  generalize (Spec.targetWeight z l'). intros w.
  induction Hl as [|c c' l l' (Hz & Ho & Hr) _ IH]; csimpl; [done|].
  f_equal; [|done]. unfold set_prio. by rewrite Hz, Ho, Hr.
Qed.

(** X7. Priorities that the changes already carry are ignored: two lists
    of changes that agree on zones, operations and records get the same
    priorities and the same batches. In particular assigning the priorities
    twice, or planning a list that was planned before, changes nothing. *)
Theorem assign_change_priority_ignores_prio z l l' :
  Forall2 (λ c c', zone c = zone c' ∧ operation c = operation c'
                   ∧ record c = record c') l l' →
  assign_change_priority z l = assign_change_priority z l'
  ∧ changes_to_r53_updates z l = changes_to_r53_updates z l'
  ∧ assign_change_priority z (assign_change_priority z l)
    = assign_change_priority z l.
Proof.
  intros Hl. split; [by apply assign_change_priority_ext|]. split.
  - unfold changes_to_r53_updates. by rewrite (assign_change_priority_ext _ _ _ Hl).
  - apply assign_change_priority_ext.
    rewrite assign_change_priority_spec. unfold Spec.assignPriority.
    apply Forall2_fmap_l, Forall_Forall2_diag, Forall_forall. by intros.
Qed.

Lemma assign_change_priority_ignores_prio_witness :
  assign_change_priority example_zone
    [mk_change example_zone CREATE (alias_record "a.example.com." "A" "t.example.com.");
     mk_change example_zone CREATE (plain_record "t.example.com." "A" 300 "127.0.0.1")]
  = assign_change_priority example_zone
      [set_prio (mk_change example_zone CREATE
                   (alias_record "a.example.com." "A" "t.example.com.")) 7;
       set_prio (mk_change example_zone CREATE
                   (plain_record "t.example.com." "A" 300 "127.0.0.1")) (-3)]
  ∧ changes_to_r53_updates example_zone
      [mk_change example_zone CREATE (alias_record "a.example.com." "A" "t.example.com.");
       mk_change example_zone CREATE (plain_record "t.example.com." "A" 300 "127.0.0.1")]
    = changes_to_r53_updates example_zone
        [set_prio (mk_change example_zone CREATE
                     (alias_record "a.example.com." "A" "t.example.com.")) 7;
         set_prio (mk_change example_zone CREATE
                     (plain_record "t.example.com." "A" 300 "127.0.0.1")) (-3)]
  ∧ assign_change_priority example_zone
      (assign_change_priority example_zone
         [mk_change example_zone CREATE (alias_record "a.example.com." "A" "t.example.com.");
          mk_change example_zone CREATE (plain_record "t.example.com." "A" 300 "127.0.0.1")])
    = assign_change_priority example_zone
        [mk_change example_zone CREATE (alias_record "a.example.com." "A" "t.example.com.");
         mk_change example_zone CREATE (plain_record "t.example.com." "A" 300 "127.0.0.1")].
Proof.
  apply assign_change_priority_ignores_prio. by repeat constructor.
Defined.

(** ** More on [changes_to_r53_updates] *)

Lemma sorted_no_before {A : Type} (before : A → A → bool) (l : list A) :
  (∀ x y, x ∈ l → y ∈ l → before y x = false) → sorted before l = l.
Proof.
  induction l as [|x l IH]; intros Hb; simpl; [done|].
  rewrite IH by (intros; apply Hb; by right).
  destruct l as [|y l]; simpl; [done|].
  rewrite Hb; [done|left|right; left].
Qed.

Lemma batch_loop_one_prio l bs cur p :
  Forall (λ c, prio c = Some p) l →
  batch_loop (bs, cur, Some p) l
  = Some (bs, {| changes := changes cur ++ l |}, Some p).
Proof.
  revert cur. induction l as [|c l IH]; intros cur Hl.
  { simpl. rewrite app_nil_r. by destruct cur. }
  apply Forall_cons in Hl as [Hc Hl].
  rewrite batch_loop_cons, (batch_step_same _ _ _ _ Hc). simpl.
  rewrite IH by done. simpl. by rewrite <-app_assoc.
Qed.

(** X8. The no-dependency case: when no change is a same-zone CREATE or
    UPSERT of an alias, every change gets priority 0 and the planner returns
    all of them in one batch, in the order of the input (no batch at all for
    an empty list). *)
Theorem changes_to_r53_updates_no_alias z change_operations :
  Forall (λ c, is_new_alias z c = false) change_operations →
  assign_change_priority z change_operations
  = (λ c, set_prio c 0) <$> change_operations
  ∧ changes_to_r53_updates z change_operations
    = Some (match change_operations with
            | [] => []
            | _ :: _ => [ {| changes := (λ c, set_prio c 0) <$> change_operations |} ]
            end).
Proof.
  intros Hno.
  assert (assign_change_priority z change_operations
          = (λ c, set_prio c 0) <$> change_operations) as Hassign.
  { rewrite assign_change_priority_spec. unfold Spec.assignPriority.
    apply list_fmap_ext. intros _ c _. f_equal.
    apply targetWeight_not_target. intros c' Hc'.
    eapply Forall_forall in Hno; [|done].
    by rewrite (not_new_alias_spec _ _ Hno). }
  split; [done|].
  unfold changes_to_r53_updates. rewrite Hassign.
  assert (Forall (λ c, prio c = Some 0) ((λ c, set_prio c 0) <$> change_operations))
    as Hzero.
  { apply Forall_fmap, Forall_forall. by intros. }
  rewrite sorted_by_prio_reverse_Some
    by (eapply Forall_impl; [done|]; by intros c ->).
  rewrite sorted_no_before.
  2:{ intros x y Hx Hy. unfold prio_before, prio_key.
      eapply Forall_forall in Hx, Hy; [|done..]. by rewrite Hx, Hy. }
  cbn [mbind option_bind].
  destruct change_operations as [|c l]; [done|].
  rewrite fmap_cons in *. apply Forall_cons in Hzero as [Hc Hl].
  rewrite batch_loop_cons, (batch_step_first _ 0) by done.
  cbn [mbind option_bind]. by rewrite (batch_loop_one_prio _ _ _ 0).
Qed.

Lemma changes_to_r53_updates_no_alias_witness :
  assign_change_priority example_zone
    (compute_changes id example_zone example_existing example_desired false)
  = (λ c, set_prio c 0)
      <$> compute_changes id example_zone example_existing example_desired false
  ∧ changes_to_r53_updates example_zone
      (compute_changes id example_zone example_existing example_desired false)
    = Some (match compute_changes id example_zone example_existing example_desired false
            with
            | [] => []
            | _ :: _ =>
                [ {| changes :=
                       (λ c, set_prio c 0)
                         <$> compute_changes id example_zone example_existing
                               example_desired false |} ]
            end).
Proof.
  apply changes_to_r53_updates_no_alias.
  apply (bool_decide_unpack _). by vm_compute.
Defined.

(** X9. The planner returns no batch exactly for the empty list of
    changes. *)
Theorem changes_to_r53_updates_nil_iff z change_operations :
  changes_to_r53_updates z change_operations = Some [] ↔ change_operations = [].
Proof.
  split; [|by intros ->].
  intros Hnil.
  destruct (changes_to_r53_updates_spec z change_operations)
    as (bs & ps & Heq & _ & _ & Hcat).
  rewrite Hnil in Heq. injection Heq as <-. simpl in Hcat.
  assert (length (assign_change_priority z change_operations) = 0%nat) as Hlen.
  { by rewrite <-(sorted_perm prio_before), <-Hcat. }
  rewrite assign_change_priority_spec in Hlen. unfold Spec.assignPriority in Hlen.
  rewrite length_fmap in Hlen. by destruct change_operations.
Qed.

(** The batches are the classes of the priorities, in the order of the
    list the planner was given. *)
Lemma changes_to_r53_updates_classes z change_operations :
  ∃ bs ps,
    changes_to_r53_updates z change_operations = Some bs
    ∧ length bs = length ps
    ∧ StronglySorted Z.gt ps
    ∧ ∀ i b p, bs !! i = Some b → ps !! i = Some p →
        changes b ≠ []
        ∧ changes b = filter (λ c, prio c = Some p)
                             (assign_change_priority z change_operations).
Proof.
  destruct (changes_to_r53_updates_spec z change_operations)
    as (bs & ps & Heq & Hbs & Hps & Hcat).
  exists bs, ps. split; [done|]. split; [by eapply Forall2_length|]. split; [done|].
  pose proof (filter_concat_batches _ _ Hbs Hps) as Hfil.
  apply Forall2_same_length_lookup in Hfil as [_ Hfil].
  apply Forall2_same_length_lookup in Hbs as [_ Hbs].
  intros i b p Hb Hp. destruct (Hbs i b p Hb Hp) as [Hne _]. split; [done|].
  rewrite (Hfil i b p Hb Hp), Hcat.
  apply filter_sorted. intros x y Hx Hy.
  unfold prio_before, prio_key. rewrite Hx, Hy. simpl. apply Z.ltb_irrefl.
Qed.

(** X10. In every batch planned for the changes of [compute_changes], the
    DELETE changes come before the CREATE and UPSERT changes. *)
Theorem batches_deletes_first set_iter z existing desired use_upsert :
  iterates_sets set_iter →
  ∃ bs,
    changes_to_r53_updates z
      (compute_changes set_iter z existing desired use_upsert) = Some bs
    ∧ Forall (λ b, ∃ deletes adds,
                changes b = deletes ++ adds
                ∧ Forall (λ c, operation c = DELETE) deletes
                ∧ Forall (λ c, operation c = CREATE ∨ operation c = UPSERT) adds)
             bs.
Proof.
  intros Hit.
  destruct (changes_to_r53_updates_classes z
              (compute_changes set_iter z existing desired use_upsert))
    as (bs & ps & Heq & Hlen & _ & Hcls).
  exists bs. split; [done|]. apply Forall_lookup. intros i b Hb.
  destruct (lookup_lt_is_Some_2 ps i) as [p Hp].
  { rewrite <-Hlen. by eapply lookup_lt_Some. }
  destruct (Hcls i b p Hb Hp) as [_ ->].
  rewrite assign_change_priority_spec. unfold Spec.assignPriority.
  rewrite (compute_changes_unfold _ Hit).
  match goal with
  | |- context [ Spec.targetWeight ?zz ?l ] => generalize (Spec.targetWeight zz l)
  end.
  intros w. rewrite fmap_app, filter_app. eexists _, _. split; [done|].
  split; apply Forall_forall; intros c [_ Hc]%list_elem_of_filter;
    apply list_elem_of_fmap in Hc as (c' & -> & Hc');
    apply list_elem_of_fmap in Hc' as (r & -> & _); simpl; [done|].
  destruct (use_upsert && _); auto.
Qed.

Lemma batches_deletes_first_witness :
  ∃ bs,
    changes_to_r53_updates example_zone
      (compute_changes id example_zone example_existing example_desired true) = Some bs
    ∧ Forall (λ b, ∃ deletes adds,
                changes b = deletes ++ adds
                ∧ Forall (λ c, operation c = DELETE) deletes
                ∧ Forall (λ c, operation c = CREATE ∨ operation c = UPSERT) adds)
             bs.
Proof. apply (batches_deletes_first id), id_iterates_sets. Defined.

(** ** Alias chains of one and two links *)

Lemma foldl_add_weight_mono z (f : (string → Z) → Change → Z) l (w : string → Z) :
  (∀ w c, (∀ k, 0 ≤ w k) → 0 ≤ f w c) →
  (∀ k, 0 ≤ w k) →
  ∀ k, w k ≤ foldl (λ w change,
                      match Spec.new_alias_target z change with
                      | Some t => Spec.add_weight w t (f w change)
                      | None => w
                      end) w l k.
Proof.
  intros Hf. revert w. induction l as [|c l IH]; intros w Hw k; simpl; [done|].
  etrans; [|apply IH].
  - destruct (Spec.new_alias_target z c) as [t|]; [|done].
    unfold Spec.add_weight. specialize (Hf w c Hw).
    destruct (decide (k = t)); lia.
  - intros k'. destruct (Spec.new_alias_target z c) as [t|]; [|done].
    unfold Spec.add_weight. specialize (Hf w c Hw). specialize (Hw k').
    destruct (decide (k' = t)); lia.
Qed.

(** After the first pass the target of a new alias has weight 1 at least. *)
Lemma pass1_target z l c t :
  c ∈ l → Spec.new_alias_target z c = Some t → 1 ≤ Spec.pass1 z l t.
Proof.
  intros Hc Ht. unfold Spec.pass1.
  assert (∀ w : string → Z, (∀ k, 0 ≤ w k) →
            w t + 1 ≤ foldl (λ w change,
                               match Spec.new_alias_target z change with
                               | Some t => Spec.add_weight w t 1
                               | None => w
                               end) w l t) as H.
  { induction l as [|c' l IH]; [by apply elem_of_nil in Hc|].
    intros w Hw; simpl.
    apply elem_of_cons in Hc as [<-|Hc].
    - rewrite Ht.
      etrans; [|apply (foldl_add_weight_mono z (λ _ _, 1)); [done|]].
      + unfold Spec.add_weight. by rewrite decide_True.
      + intros k. unfold Spec.add_weight. specialize (Hw k).
        destruct (decide (k = t)); lia.
    - etrans; [|apply IH; [done|]].
      + destruct (Spec.new_alias_target z c') as [t'|]; [|done].
        unfold Spec.add_weight. destruct (decide (t = t')); lia.
      + intros k. destruct (Spec.new_alias_target z c') as [t'|]; [|done].
        unfold Spec.add_weight. specialize (Hw k).
        destruct (decide (k = t')); lia. }
  specialize (H (λ _, 0)). simpl in H. apply H. done.
Qed.

Section alias_chain.
Context (z : Zone) (cs : list Change) (a : Change) (T : string).
Hypothesis a_in : a ∈ cs.
Hypothesis a_target : Spec.new_alias_target z a = Some T.
(** The new aliases that point to [a] are pointed to by none. *)
Hypothesis leaves : ∀ c, c ∈ cs →
  Spec.new_alias_target z c = Some (Name (record a)) →
  ∀ c', c' ∈ cs → Spec.new_alias_target z c' ≠ Some (Name (record c)).

Lemma target_not_self : T ≠ Name (record a).
Proof.
  intros ->. by apply (leaves a a_in a_target a a_in).
Qed.

(** What the second pass keeps, from one change to the next: the weights
    are not negative, and the aliases pointing to [a] have weight 0. *)
Definition chain_inv (w : string → Z) : Prop :=
  (∀ k, 0 ≤ w k)
  ∧ ∀ c, c ∈ cs → Spec.new_alias_target z c = Some (Name (record a)) →
         w (Name (record c)) = 0.

Lemma pass2_chain l : ∀ w,
  (∀ c, c ∈ l → c ∈ cs) →
  chain_inv w →
  Spec.pass2 z w l (Name (record a)) = w (Name (record a))
  ∧ w T ≤ Spec.pass2 z w l T
  ∧ (a ∈ l → w T + w (Name (record a)) ≤ Spec.pass2 z w l T).
Proof.
  unfold Spec.pass2.
  induction l as [|c l IH]; intros w Hl [Hpos Hzero]; simpl.
  { split; [done|]. split; [done|]. by intros ?%elem_of_nil. }
  assert (c ∈ cs) as Hc by (apply Hl; left).
  set (w1 := match Spec.new_alias_target z c with
             | Some t => Spec.add_weight w t (w (Name (record c)))
             | None => w
             end).
  assert (chain_inv w1) as Hinv1.
  { split.
    - intros k. unfold w1. destruct (Spec.new_alias_target z c) as [t|]; [|done].
      unfold Spec.add_weight. pose proof (Hpos k). pose proof (Hpos (Name (record c))).
      destruct (decide (k = t)); lia.
    - intros c' Hc' Ht'. unfold w1.
      destruct (Spec.new_alias_target z c) as [t|] eqn:E; [|by apply Hzero].
      rewrite add_weight_other; [by apply Hzero|].
      intros <-. by apply (leaves c' Hc' Ht' c Hc). }
  assert (w1 (Name (record a)) = w (Name (record a))) as HA.
  { unfold w1. destruct (Spec.new_alias_target z c) as [t|] eqn:E; [|done].
    unfold Spec.add_weight. destruct (decide (Name (record a) = t)) as [<-|]; [|done].
    rewrite (Hzero c Hc E). lia. }
  assert (w T ≤ w1 T) as HT.
  { unfold w1. destruct (Spec.new_alias_target z c) as [t|]; [|done].
    unfold Spec.add_weight. pose proof (Hpos (Name (record c))).
    destruct (decide (T = t)); lia. }
  destruct (IH w1) as (IHA & IHT & IHa); [by intros; apply Hl; right|done|].
  split; [by rewrite IHA|]. split; [lia|].
  intros [Heq|Hal]%elem_of_cons.
  - assert (w1 T = w T + w (Name (record a))) as Hw1; [|lia].
    unfold w1. rewrite <-Heq, a_target. unfold Spec.add_weight.
    by rewrite decide_True.
  - specialize (IHa Hal). lia.
Qed.

(** The weight of the target exceeds the weight of the alias. *)
Lemma chain_weights :
  Spec.targetWeight z cs (Name (record a)) < Spec.targetWeight z cs T.
Proof.
  unfold Spec.targetWeight.
  destruct (pass2_chain cs (Spec.pass1 z cs)) as (HA & _ & HT); [done|..].
  - split; [apply pass1_nonneg|].
    intros c Hc Ht. apply (foldl_add_weight_zero z _ (λ _ _, 1)); [done|].
    intros c' Hc'. by apply (leaves c Hc Ht).
  - specialize (HT a_in). rewrite HA.
    pose proof (pass1_target z cs a T a_in a_target). lia.
Qed.
End alias_chain.

Lemma StronglySorted_lookup_lt {A : Type} (R : relation A) (l : list A) i j x y :
  StronglySorted R l → (i < j)%nat → l !! i = Some x → l !! j = Some y → R x y.
Proof.
  intros Hl. revert i j. induction Hl as [|a l Hl IH Ha]; intros i j Hij Hi Hj.
  { by rewrite lookup_nil in Hi. }
  destruct j as [|j]; [lia|]. destruct i as [|i]; simpl in *.
  - injection Hi as ->. eapply Forall_forall in Ha; [done|].
    by eapply list_elem_of_lookup_2.
  - apply (IH i j); [lia|done..].
Qed.

Lemma elem_of_batches (bs : list ChangeBatch) c :
  c ∈ concat (changes <$> bs) → ∃ m b, bs !! m = Some b ∧ c ∈ changes b.
Proof.
  induction bs as [|b bs IH]; csimpl; [by intros ?%elem_of_nil|].
  intros [Hc|Hc]%elem_of_app.
  - by exists 0%nat, b.
  - destruct (IH Hc) as (m & b' & ? & ?). by exists (S m), b'.
Qed.

(** X11. The target before the alias, for chains of one and two links:
    let [a] be a same-zone CREATE or UPSERT of an alias whose target is the
    name of the record of the change [t], and let the new aliases that
    point to the name of [a], if any, be pointed to by no new alias. Then
    [t] gets a strictly larger priority than [a], and the planner puts [t]
    in a strictly earlier batch than [a]. *)
Theorem target_batch_before_alias z change_operations i j a t :
  change_operations !! i = Some a →
  change_operations !! j = Some t →
  new_alias_to z a (Name (record t)) →
  (∀ c, c ∈ change_operations → new_alias_to z c (Name (record a)) →
        ∀ c', c' ∈ change_operations → ¬ new_alias_to z c' (Name (record c))) →
  ∃ pa pt bs,
    assign_change_priority z change_operations !! i = Some (set_prio a pa)
    ∧ assign_change_priority z change_operations !! j = Some (set_prio t pt)
    ∧ pa < pt
    ∧ changes_to_r53_updates z change_operations = Some bs
    ∧ ∃ m n bm bn,
        bs !! m = Some bm ∧ bs !! n = Some bn
        ∧ set_prio t pt ∈ changes bm ∧ set_prio a pa ∈ changes bn
        ∧ (m < n)%nat.
Proof.
  intros Hi Hj Hat Hleaves.
  exists (Spec.targetWeight z change_operations (Name (record a))),
         (Spec.targetWeight z change_operations (Name (record t))).
  destruct (changes_to_r53_updates_spec z change_operations)
    as (bs & ps & Heq & Hbs & Hps & Hcat).
  exists bs.
  assert (assign_change_priority z change_operations !! i
          = Some (set_prio a (Spec.targetWeight z change_operations (Name (record a)))))
    as Hai.
  { rewrite assign_change_priority_spec. unfold Spec.assignPriority.
    by rewrite list_lookup_fmap, Hi. }
  assert (assign_change_priority z change_operations !! j
          = Some (set_prio t (Spec.targetWeight z change_operations (Name (record t)))))
    as Htj.
  { rewrite assign_change_priority_spec. unfold Spec.assignPriority.
    by rewrite list_lookup_fmap, Hj. }
  assert (Spec.targetWeight z change_operations (Name (record a))
          < Spec.targetWeight z change_operations (Name (record t))) as Hlt.
  { apply chain_weights.
    - by eapply list_elem_of_lookup_2.
    - by apply new_alias_to_spec.
    - intros c Hc Hca c' Hc' Hc'c.
      apply new_alias_to_spec in Hca, Hc'c. by apply (Hleaves c Hc Hca c' Hc'). }
  do 4 (split; [done|]).
  assert (∀ c, c ∈ assign_change_priority z change_operations →
               ∃ m b p, bs !! m = Some b ∧ ps !! m = Some p ∧ c ∈ changes b
                        ∧ prio c = Some p) as Hfind.
  { intros c Hc. rewrite <-(sorted_perm prio_before), <-Hcat in Hc.
    apply elem_of_batches in Hc as (m & b & Hb & Hcb).
    destruct (Forall2_lookup_l _ _ _ _ _ Hbs Hb) as (p & Hp & _ & Hall).
    exists m, b, p. do 3 (split; [done|]). by eapply Forall_forall in Hall. }
  destruct (Hfind _ (list_elem_of_lookup_2 _ _ _ Htj)) as (m & bm & pm & ? & Hpm & ? & [= <-]).
  destruct (Hfind _ (list_elem_of_lookup_2 _ _ _ Hai)) as (n & bn & pn & ? & Hpn & ? & [= <-]).
  exists m, n, bm, bn. do 4 (split; [done|]).
  destruct (decide (m < n)%nat) as [|Hge]; [done|].
  destruct (decide (m = n)) as [->|Hne].
  - rewrite Hpm in Hpn. injection Hpn as Hpn. lia.
  - pose proof (StronglySorted_lookup_lt Z.gt ps n m _ _ Hps ltac:(lia) Hpn Hpm). lia.
Qed.

Lemma target_batch_before_alias_witness :
  ∃ pa pt bs,
    assign_change_priority example_zone
      [mk_change example_zone CREATE (alias_record "www.example.com." "A" "lb.example.com.");
       mk_change example_zone UPSERT (alias_record "lb.example.com." "A" "host.example.com.");
       mk_change example_zone CREATE (plain_record "host.example.com." "A" 300 "127.0.0.1")]
      !! 1%nat
    = Some (set_prio (mk_change example_zone UPSERT
                        (alias_record "lb.example.com." "A" "host.example.com.")) pa)
    ∧ assign_change_priority example_zone
        [mk_change example_zone CREATE (alias_record "www.example.com." "A" "lb.example.com.");
         mk_change example_zone UPSERT (alias_record "lb.example.com." "A" "host.example.com.");
         mk_change example_zone CREATE (plain_record "host.example.com." "A" 300 "127.0.0.1")]
        !! 2%nat
      = Some (set_prio (mk_change example_zone CREATE
                          (plain_record "host.example.com." "A" 300 "127.0.0.1")) pt)
    ∧ pa < pt
    ∧ changes_to_r53_updates example_zone
        [mk_change example_zone CREATE (alias_record "www.example.com." "A" "lb.example.com.");
         mk_change example_zone UPSERT (alias_record "lb.example.com." "A" "host.example.com.");
         mk_change example_zone CREATE (plain_record "host.example.com." "A" 300 "127.0.0.1")]
      = Some bs
    ∧ ∃ m n bm bn,
        bs !! m = Some bm ∧ bs !! n = Some bn
        ∧ set_prio (mk_change example_zone CREATE
                      (plain_record "host.example.com." "A" 300 "127.0.0.1")) pt
          ∈ changes bm
        ∧ set_prio (mk_change example_zone UPSERT
                      (alias_record "lb.example.com." "A" "host.example.com.")) pa
          ∈ changes bn
        ∧ (m < n)%nat.
Proof.
  apply target_batch_before_alias; [reflexivity|reflexivity|..].
  - split; [reflexivity|]. eexists. split; reflexivity.
  - intros c Hc [Hnew (tg & Htg & Hname)] c' Hc' [Hnew' (tg' & Htg' & Hname')].
    simpl in Hname.
    repeat (apply elem_of_cons in Hc as [->|Hc]); try (by apply elem_of_nil in Hc);
      simpl in *; simplify_eq.
    repeat (apply elem_of_cons in Hc' as [->|Hc']); try (by apply elem_of_nil in Hc');
      simpl in *; simplify_eq.
Defined.

(** * The glue around the core: zones, files and the client

    The functions below talk to Route 53 through the [boto3] client, read
    and write files and print. The client, the parser and the serialiser
    are not part of the sources: they are parameters, and each of their
    calls may fail. *)

(** The values that the command line and the [vpc] dict hold. *)
Inductive PyVal : Type :=
  | PNone
  | PBool (b : bool)
  | PStr (s : string).

#[global] Instance PyVal_eq_dec : EqDecision PyVal.
Proof. solve_decision. Defined.

(** The truth value of a Python value. *)
Definition py_truthy (v : PyVal) : bool :=
  match v with
  | PNone => false
  | PBool b => b
  | PStr s => negb (bool_decide (s = ""))
  end.

(** [d.get(k)]: [None] when the key is absent. *)
Definition dict_get (d : gmap string PyVal) (k : string) : PyVal :=
  default PNone (d !! k).

(** [a or b] *)
Definition py_or (a b : PyVal) : PyVal := if py_truthy a then a else b.

(** The exceptions that leave a function. *)
Inductive Exn : Type :=
  | ClientError          (* raised by a call of the client *)
  | IOError              (* raised by the parser or the serialiser *)
  | ModelError           (* raised by [R53Record.from_dict] *)
  | KeyError (k : string)
  | TypeError
  | AttributeError
  | SystemExit (code : Z).

Inductive outcome (A : Type) : Type :=
  | Returned (a : A)
  | Raised (e : Exn).
Arguments Returned {A} a.
Arguments Raised {A} e.

(** ** [str.replace] *)

(** [s.replace(old, new)] for a non-empty [old]: the occurrences of [old]
    are found from the left and do not overlap; [skip] counts the
    characters of an occurrence that are still to be dropped. *)
Fixpoint str_replace_go (old new : string) (skip : nat) (s : string) : string :=
  match s with
  | EmptyString => EmptyString
  | String c s' =>
      match skip with
      | S n => str_replace_go old new n s'
      | O =>
          if String.prefix old s
          then new +:+ str_replace_go old new (String.length old - 1) s'
          else String c (str_replace_go old new 0 s')
      end
  end.

(** With an empty [old], [new] is put before every character and at the
    end. *)
Fixpoint str_interleave (new : string) (s : string) : string :=
  match s with
  | EmptyString => new
  | String c s' => new +:+ String c (str_interleave new s')
  end.

Definition str_replace (old new s : string) : string :=
  match old with
  | EmptyString => str_interleave new s
  | String _ _ => str_replace_go old new 0 s
  end.

(** ** Hosted zones as the client returns them *)

(** An item of [HostedZones] in a page of [list_hosted_zones]: [Id] may be
    absent (it is read with [zone.get('Id', '')]), [Name] and
    [Config.PrivateZone] are read with [zone[...]], [Config.Comment] with
    [get]. *)
Record HostedZoneItem : Type := {
  hz_Id : option string;
  hz_Name : string;
  hz_PrivateZone : bool;
  hz_Comment : option string
}.

(** The part of the answer of [get_hosted_zone] that [get_zone] reads,
    [z.get('HostedZone', {}).get('VPCs', {}).get('VPC', {}).get('VPCId', '')]:
    each level may be absent. *)
Record VPCModel : Type := { VPCId : option string }.
Record VPCsModel : Type := { VPC : option VPCModel }.
Record HostedZoneModel : Type := { VPCs : option VPCsModel }.
Record GetHostedZoneResponse : Type := { HostedZone : option HostedZoneModel }.

Definition response_vpc_id (z : GetHostedZoneResponse) : string :=
  default "" (((HostedZone z ≫= VPCs) ≫= VPC) ≫= VPCId).

(** The dict [{'id': ..., 'name': ...}] that [get_zone] builds. *)
Definition zone_data (zone : HostedZoneItem) : Zone :=
  {| zone_id := str_replace "/hostedzone/" "" (default "" (hz_Id zone));
     zone_name := hz_Name zone |}.

(** ** [get_zone] *)

Section get_zone.
(** What the client sees of the account. *)
Context {Client : Type}.
(** The pages of [get_paginator('list_hosted_zones').paginate()]. *)
Variable list_hosted_zones : Client → option (list (list HostedZoneItem)).
(** [get_hosted_zone(Id=...)] *)
Variable get_hosted_zone : Client → string → option GetHostedZoneResponse.

(** [vpc is not None and vpc.get('is_private')], as a truth value. *)
Definition list_private_zones (vpc : option (gmap string PyVal)) : bool :=
  match vpc with
  | None => false
  | Some vpc => py_truthy (dict_get vpc "is_private")
  end.

(** [vpc.get('id') if vpc else None]: an empty dict is false. *)
Definition requested_vpc_id (vpc : option (gmap string PyVal)) : PyVal :=
  match vpc with
  | None => PNone
  | Some vpc => if bool_decide (vpc = ∅) then PNone else dict_get vpc "id"
  end.

(** The first loop: the zones of the requested name and kind, in the order
    of the listing. *)
Definition matching_zones (hosted_zones : list HostedZoneItem) (zone_name : string)
    (vpc : option (gmap string PyVal)) : list HostedZoneItem :=
  foldl (λ matching_zones zone,
           let is_private := hz_PrivateZone zone in
           if negb (bool_decide (hz_Name zone = zone_name +:+ "."))
           then matching_zones
           else if (is_private && list_private_zones vpc)
                   || (negb is_private && negb (list_private_zones vpc))
                then matching_zones ++ [zone]
                else matching_zones)
        [] hosted_zones.

(** The second loop, which returns from inside; after the last zone the
    [else] of the [for] returns [None]. *)
Fixpoint get_zone_loop (r53_client : Client) (vpc : option (gmap string PyVal))
    (matching_zones : list HostedZoneItem) : outcome (option Zone) :=
  match matching_zones with
  | [] => Returned None
  | zone :: matching_zones' =>
      let data := zone_data zone in
      if negb (list_private_zones vpc) then Returned (Some data)
      else
        match get_hosted_zone r53_client (zone_id data) with
        | None => Raised ClientError
        | Some z =>
            let z_vpc_id := response_vpc_id z in
            if py_truthy (requested_vpc_id vpc)
               && bool_decide (PStr z_vpc_id = requested_vpc_id vpc)
            then Returned (Some data)
            else get_zone_loop r53_client vpc matching_zones'
        end
  end.

Definition get_zone (r53_client : Client) (zone_name : string)
    (vpc : option (gmap string PyVal)) : outcome (option Zone) :=
  match list_hosted_zones r53_client with
  | None => Raised ClientError
  | Some pages =>
      let hosted_zones := concat pages in
      get_zone_loop r53_client vpc (matching_zones hosted_zones zone_name vpc)
  end.
End get_zone.

(** ** Properties of [get_zone] *)

(** The character [c] occurs in [s]. *)
Fixpoint has_char (c : Ascii.ascii) (s : string) : bool :=
  match s with
  | EmptyString => false
  | String c' s' => bool_decide (c' = c) || has_char c s'
  end.

Lemma prefix_first_char c old c' s :
  String.prefix (String c old) (String c' s) = true → c' = c.
Proof.
  simpl. destruct (decide (c = c')) as [->|]; [done|].
  destruct (Ascii.ascii_dec c c'); [done|discriminate].
Qed.

(** A string in which the first character of [old] does not occur is left
    as it is. *)
Lemma str_replace_go_absent c old new s :
  has_char c s = false → str_replace_go (String c old) new 0 s = s.
Proof.
  induction s as [|c' s IH]; [done|].
  cbn [has_char]. intros [Hc Hs]%orb_false_iff.
  apply bool_decide_eq_false in Hc.
  cbn [str_replace_go].
  destruct (String.prefix (String c old) (String c' s)) eqn:E.
  - by apply prefix_first_char in E.
  - by rewrite IH.
Qed.

Lemma str_replace_hostedzone x :
  has_char "/"%char x = false →
  str_replace "/hostedzone/" "" ("/hostedzone/" +:+ x) = x.
Proof.
  intros Hx. unfold str_replace. simpl.
  destruct x as [|c x]; [done|]. apply (str_replace_go_absent _ _ _ _ Hx).
Qed.

(** The zone [zone] has the requested name and kind. *)
Definition zone_matches (zone_name : string) (vpc : option (gmap string PyVal))
    (zone : HostedZoneItem) : Prop :=
  hz_Name zone = zone_name +:+ "." ∧ hz_PrivateZone zone = list_private_zones vpc.

#[global] Instance zone_matches_dec zone_name vpc zone :
  Decision (zone_matches zone_name vpc zone).
Proof. unfold zone_matches. apply _. Defined.

Section get_zone_facts.
Context {Client : Type}.
Context (get_hosted_zone : Client → string → option GetHostedZoneResponse).

Lemma matching_zones_filter hosted_zones zone_name vpc :
  matching_zones hosted_zones zone_name vpc
  = filter (zone_matches zone_name vpc) hosted_zones.
Proof.
  unfold matching_zones.
  enough (∀ acc,
    foldl (λ matching_zones zone,
             let is_private := hz_PrivateZone zone in
             if negb (bool_decide (hz_Name zone = zone_name +:+ "."))
             then matching_zones
             else if (is_private && list_private_zones vpc)
                     || (negb is_private && negb (list_private_zones vpc))
                  then matching_zones ++ [zone]
                  else matching_zones)
          acc hosted_zones
    = acc ++ filter (zone_matches zone_name vpc) hosted_zones) as H by apply (H []).
  induction hosted_zones as [|zone l IH]; intros acc; simpl.
  { by rewrite app_nil_r. }
  rewrite IH, filter_cons.
  destruct (decide (zone_matches zone_name vpc zone)) as [[Hn Hp]|Hnm].
  - rewrite bool_decide_eq_true_2 by done. rewrite Hp. simpl.
    destruct (list_private_zones vpc); simpl; by rewrite <-app_assoc.
  - destruct (decide (hz_Name zone = zone_name +:+ ".")) as [Hn|Hn].
    + rewrite bool_decide_eq_true_2 by done. simpl.
      destruct (hz_PrivateZone zone) eqn:E1, (list_private_zones vpc) eqn:E2;
        simpl; try done; destruct Hnm; split; congruence.
    + by rewrite bool_decide_eq_false_2 by done.
Qed.

(** The zone [zone] is in the VPC that was asked for: the identifier asked
    for is a non-empty string, and the answer of [get_hosted_zone] for the
    zone carries it. *)
Definition in_requested_vpc (r53_client : Client) (vpc : option (gmap string PyVal))
    (zone : HostedZoneItem) : Prop :=
  ∃ z, get_hosted_zone r53_client (zone_id (zone_data zone)) = Some z
       ∧ py_truthy (requested_vpc_id vpc) = true
       ∧ PStr (response_vpc_id z) = requested_vpc_id vpc.

#[global] Instance in_requested_vpc_dec r53_client vpc zone :
  Decision (in_requested_vpc r53_client vpc zone).
Proof.
  unfold in_requested_vpc.
  destruct (get_hosted_zone r53_client (zone_id (zone_data zone))) as [z|].
  - destruct (decide (py_truthy (requested_vpc_id vpc) = true
                      ∧ PStr (response_vpc_id z) = requested_vpc_id vpc)) as [H|H].
    + left. by exists z.
    + right. intros (z' & [= <-] & ?). tauto.
  - right. by intros (z & ? & _).
Defined.

Lemma get_zone_loop_Some r53_client vpc l data :
  get_zone_loop get_hosted_zone r53_client vpc l = Returned (Some data) →
  ∃ zone, zone ∈ l ∧ data = zone_data zone
          ∧ (list_private_zones vpc = true → in_requested_vpc r53_client vpc zone).
Proof.
  induction l as [|zone l IH]; cbn [get_zone_loop]; [done|].
  destruct (list_private_zones vpc) eqn:Hp; cbn [negb].
  - destruct (get_hosted_zone r53_client (zone_id (zone_data zone))) as [z|] eqn:Hz;
      [|done].
    destruct (py_truthy (requested_vpc_id vpc)
              && bool_decide (PStr (response_vpc_id z) = requested_vpc_id vpc)) eqn:E.
    + intros [= <-]. exists zone. split; [left|]. split; [done|]. intros _.
      apply andb_true_iff in E as [? ?%bool_decide_eq_true]. by exists z.
    + intros H. destruct (IH H) as (zone' & ? & ? & ?).
      exists zone'. split; [by right|done].
  - intros [= <-]. exists zone. split; [left|]. split; [done|]. done.
Qed.

Lemma get_zone_loop_public r53_client vpc l :
  list_private_zones vpc = false →
  get_zone_loop get_hosted_zone r53_client vpc l = Returned (zone_data <$> head l).
Proof. intros Hp. destruct l; cbn [get_zone_loop]; [done|]. by rewrite Hp. Qed.

Lemma get_zone_loop_private r53_client vpc l :
  list_private_zones vpc = true →
  (∀ zone, zone ∈ l →
     is_Some (get_hosted_zone r53_client (zone_id (zone_data zone)))) →
  get_zone_loop get_hosted_zone r53_client vpc l
  = Returned (zone_data <$> head (filter (in_requested_vpc r53_client vpc) l)).
Proof.
  intros Hp. induction l as [|zone l IH]; intros Hl; cbn [get_zone_loop]; [done|].
  rewrite Hp. cbn [negb].
  destruct (Hl zone) as [z Hz]; [by left|]. rewrite Hz, filter_cons.
  destruct (decide (in_requested_vpc r53_client vpc zone)) as [(z' & Hz' & Ht & He)|Hn].
  - assert (z' = z) as -> by congruence.
    by rewrite Ht, bool_decide_eq_true_2.
  - destruct (py_truthy (requested_vpc_id vpc)
              && bool_decide (PStr (response_vpc_id z) = requested_vpc_id vpc)) eqn:E.
    + destruct Hn. apply andb_true_iff in E as [? ?%bool_decide_eq_true]. by exists z.
    + apply IH. intros zone' ?. apply Hl. by right.
Qed.

Lemma get_zone_loop_no_id r53_client vpc l :
  list_private_zones vpc = true →
  py_truthy (requested_vpc_id vpc) = false →
  get_zone_loop get_hosted_zone r53_client vpc l = Returned None
  ∨ get_zone_loop get_hosted_zone r53_client vpc l = Raised ClientError.
Proof.
  intros Hp Hid. induction l as [|zone l IH]; cbn [get_zone_loop]; [by left|].
  rewrite Hp, Hid. cbn [negb andb].
  destruct (get_hosted_zone r53_client (zone_id (zone_data zone))); [done|by right].
Qed.
End get_zone_facts.


(** An account with four zones on two pages: one public and two private
    zones of the name [example.com.], each private zone in a VPC of its
    own. *)
Definition example_hosted_zone (id name : string) (private : bool) : HostedZoneItem :=
  {| hz_Id := Some ("/hostedzone/" +:+ id); hz_Name := name;
     hz_PrivateZone := private; hz_Comment := None |}.

Definition example_list_hosted_zones (_ : unit) : option (list (list HostedZoneItem)) :=
  Some [[example_hosted_zone "ZORG" "example.org." false;
         example_hosted_zone "ZPRIV1" "example.com." true];
        [example_hosted_zone "ZPUB" "example.com." false;
         example_hosted_zone "ZPRIV2" "example.com." true]].

Definition example_vpc_response (vpc_id : string) : GetHostedZoneResponse :=
  {| HostedZone := Some {| VPCs := Some {| VPC := Some {| VPCId := Some vpc_id |} |} |} |}.

Definition example_get_hosted_zone (_ : unit) (id : string) : option GetHostedZoneResponse :=
  if bool_decide (id = "ZPRIV1") then Some (example_vpc_response "vpc-1")
  else if bool_decide (id = "ZPRIV2") then Some (example_vpc_response "vpc-2")
  else None.

Definition example_public_vpc : option (gmap string PyVal) :=
  Some {[ "is_private" := PBool false ]}.

Definition example_private_vpc (id : PyVal) : option (gmap string PyVal) :=
  Some (<["is_private" := PBool true]>
          (<["region" := PStr "eu-west-1"]> {[ "id" := id ]})).

(** X12. A lookup that does not ask for a private zone returns the first
    public zone of the listing whose name is [zone_name] followed by a dot,
    with its identifier and name, and [None] when there is none; it raises
    only when the listing does, and whatever [get_hosted_zone] would
    answer does not matter. *)
Theorem get_zone_public {Client : Type}
    (list_hosted_zones : Client → option (list (list HostedZoneItem)))
    (get_hosted_zone : Client → string → option GetHostedZoneResponse)
    (r53_client : Client) (zone_name : string) (vpc : option (gmap string PyVal)) :
  list_private_zones vpc = false →
  get_zone list_hosted_zones get_hosted_zone r53_client zone_name vpc
  = match list_hosted_zones r53_client with
    | None => Raised ClientError
    | Some pages =>
        Returned (zone_data <$>
          head (filter (λ zone, hz_Name zone = zone_name +:+ "."
                                ∧ hz_PrivateZone zone = false) (concat pages)))
    end.
Proof.
  intros Hp. unfold get_zone.
  destruct (list_hosted_zones r53_client) as [pages|]; [|done].
  cbn zeta. rewrite matching_zones_filter, get_zone_loop_public by done.
  do 3 f_equal. apply list_filter_iff. intros zone.
  unfold zone_matches. by rewrite Hp.
Qed.

Lemma get_zone_public_witness :
  get_zone example_list_hosted_zones example_get_hosted_zone () "example.com"
    example_public_vpc
  = match example_list_hosted_zones () with
    | None => Raised ClientError
    | Some pages =>
        Returned (zone_data <$>
          head (filter (λ zone, hz_Name zone = "example.com" +:+ "."
                                ∧ hz_PrivateZone zone = false) (concat pages)))
    end.
Proof. apply get_zone_public. reflexivity. Defined.

(** X13. A zone that [get_zone] returns is a zone of the listing: its name
    is [zone_name] followed by a dot, it is private exactly when a private
    zone was asked for, the result carries its name and its identifier
    without [/hostedzone/], and a private zone is returned only if a
    non-empty VPC identifier was asked for and [get_hosted_zone] reports
    that identifier for the zone. *)
Theorem get_zone_sound {Client : Type}
    (list_hosted_zones : Client → option (list (list HostedZoneItem)))
    (get_hosted_zone : Client → string → option GetHostedZoneResponse)
    (r53_client : Client) (zone_name : string) (vpc : option (gmap string PyVal))
    (data : Zone) :
  get_zone list_hosted_zones get_hosted_zone r53_client zone_name vpc
  = Returned (Some data) →
  ∃ pages zone,
    list_hosted_zones r53_client = Some pages
    ∧ zone ∈ concat pages
    ∧ hz_Name zone = zone_name +:+ "."
    ∧ hz_PrivateZone zone = list_private_zones vpc
    ∧ data = zone_data zone
    ∧ (list_private_zones vpc = true →
       in_requested_vpc get_hosted_zone r53_client vpc zone).
Proof.
  unfold get_zone.
  destruct (list_hosted_zones r53_client) as [pages|]; [|done].
  cbn zeta. rewrite matching_zones_filter. intros H.
  apply get_zone_loop_Some in H as (zone & Hin & Hdata & Hvpc).
  apply list_elem_of_filter in Hin as [[Hn Hp] Hin].
  exists pages, zone. split; [done|]. split; [done|]. split; [done|].
  split; [done|]. split; done.
Qed.

Lemma get_zone_sound_witness :
  ∃ pages zone,
    example_list_hosted_zones () = Some pages
    ∧ zone ∈ concat pages
    ∧ hz_Name zone = "example.com" +:+ "."
    ∧ hz_PrivateZone zone = list_private_zones (example_private_vpc (PStr "vpc-2"))
    ∧ {| zone_id := "ZPRIV2"; zone_name := "example.com." |} = zone_data zone
    ∧ (list_private_zones (example_private_vpc (PStr "vpc-2")) = true →
       in_requested_vpc example_get_hosted_zone ()
         (example_private_vpc (PStr "vpc-2")) zone).
Proof. apply get_zone_sound. reflexivity. Defined.

(** X14. When a private zone is asked for without a VPC identifier (no
    [id] key, [None] or an empty string), no zone is ever returned: the
    result is [None], or the error of a failed call of the client. *)
Theorem get_zone_private_without_id {Client : Type}
    (list_hosted_zones : Client → option (list (list HostedZoneItem)))
    (get_hosted_zone : Client → string → option GetHostedZoneResponse)
    (r53_client : Client) (zone_name : string) (vpc : option (gmap string PyVal)) :
  list_private_zones vpc = true →
  py_truthy (requested_vpc_id vpc) = false →
  get_zone list_hosted_zones get_hosted_zone r53_client zone_name vpc = Returned None
  ∨ get_zone list_hosted_zones get_hosted_zone r53_client zone_name vpc
    = Raised ClientError.
Proof.
  intros Hp Hid. unfold get_zone.
  destruct (list_hosted_zones r53_client) as [pages|]; [|by right].
  cbn zeta. by apply get_zone_loop_no_id.
Qed.

Lemma get_zone_private_without_id_witness :
  get_zone example_list_hosted_zones example_get_hosted_zone () "example.com"
    (example_private_vpc PNone) = Returned None
  ∨ get_zone example_list_hosted_zones example_get_hosted_zone () "example.com"
      (example_private_vpc PNone) = Raised ClientError.
Proof. apply get_zone_private_without_id; reflexivity. Defined.

(** X15. A lookup of a private zone, when the listing succeeds and
    [get_hosted_zone] answers for every private zone of the requested
    name, returns the first such zone of the listing for which the answer
    carries the VPC identifier asked for, and [None] when there is none. *)
Theorem get_zone_private {Client : Type}
    (list_hosted_zones : Client → option (list (list HostedZoneItem)))
    (get_hosted_zone : Client → string → option GetHostedZoneResponse)
    (r53_client : Client) (zone_name : string) (vpc : option (gmap string PyVal))
    (pages : list (list HostedZoneItem)) :
  list_private_zones vpc = true →
  list_hosted_zones r53_client = Some pages →
  (∀ zone, zone ∈ concat pages →
     hz_Name zone = zone_name +:+ "." → hz_PrivateZone zone = true →
     is_Some (get_hosted_zone r53_client (zone_id (zone_data zone)))) →
  get_zone list_hosted_zones get_hosted_zone r53_client zone_name vpc
  = Returned (zone_data <$>
      head (filter (in_requested_vpc get_hosted_zone r53_client vpc)
              (filter (λ zone, hz_Name zone = zone_name +:+ "."
                               ∧ hz_PrivateZone zone = true) (concat pages)))).
Proof.
  intros Hp Hpages Hok. unfold get_zone. rewrite Hpages. cbn zeta.
  rewrite matching_zones_filter.
  rewrite (list_filter_iff (zone_matches zone_name vpc)
             (λ zone, hz_Name zone = zone_name +:+ "." ∧ hz_PrivateZone zone = true))
    by (intros zone; unfold zone_matches; by rewrite Hp).
  apply get_zone_loop_private; [done|].
  intros zone [[Hn Hz] Hin]%list_elem_of_filter. by apply Hok.
Qed.

Lemma get_zone_private_witness :
  get_zone example_list_hosted_zones example_get_hosted_zone () "example.com"
    (example_private_vpc (PStr "vpc-2"))
  = Returned (zone_data <$>
      head (filter (in_requested_vpc example_get_hosted_zone ()
                      (example_private_vpc (PStr "vpc-2")))
              (filter (λ zone, hz_Name zone = "example.com" +:+ "."
                               ∧ hz_PrivateZone zone = true)
                 (concat [[example_hosted_zone "ZORG" "example.org." false;
                           example_hosted_zone "ZPRIV1" "example.com." true];
                          [example_hosted_zone "ZPUB" "example.com." false;
                           example_hosted_zone "ZPRIV2" "example.com." true]])))).
Proof.
  apply get_zone_private; [reflexivity|reflexivity|].
  intros zone Hz Hn Hp. simpl in Hz.
  repeat (apply elem_of_cons in Hz as [->|Hz]); try (by apply elem_of_nil in Hz);
    try discriminate; by eexists.
Defined.

(** X16. The result carries the [Name] of the listing and its [Id]
    without the [/hostedzone/] prefix; an [Id] that has no slash is kept as
    it is. *)
Theorem zone_data_id (x name : string) (private : bool) (comment : option string) :
  has_char "/"%char x = false →
  zone_data {| hz_Id := Some ("/hostedzone/" +:+ x); hz_Name := name;
               hz_PrivateZone := private; hz_Comment := comment |}
  = {| zone_id := x; zone_name := name |}
  ∧ zone_data {| hz_Id := Some x; hz_Name := name;
                 hz_PrivateZone := private; hz_Comment := comment |}
    = {| zone_id := x; zone_name := name |}.
Proof.
  intros Hx. unfold zone_data. cbn [hz_Id hz_Name default from_option].
  split; f_equal.
  - by apply str_replace_hostedzone.
  - by apply (str_replace_go_absent "/"%char).
Qed.

Lemma zone_data_id_witness :
  zone_data {| hz_Id := Some ("/hostedzone/" +:+ "Z0123456789ABC");
               hz_Name := "example.com."; hz_PrivateZone := false;
               hz_Comment := Some "main" |}
  = {| zone_id := "Z0123456789ABC"; zone_name := "example.com." |}
  ∧ zone_data {| hz_Id := Some "Z0123456789ABC"; hz_Name := "example.com.";
                 hz_PrivateZone := false; hz_Comment := Some "main" |}
    = {| zone_id := "Z0123456789ABC"; zone_name := "example.com." |}.
Proof. apply zone_data_id. reflexivity. Defined.

(** * Loading, dumping and listing

    ** The state of a run

    What a run can change: the account behind the client, the lines
    printed, what was written to [sys.stderr] and what was written to the
    output file. *)
Record World (Client : Type) : Type := {
  r53 : Client;
  stdout : list string;
  stderr : list string;
  output : list string
}.
Arguments r53 {Client} _.
Arguments stdout {Client} _.
Arguments stderr {Client} _.
Arguments output {Client} _.

(** A statement runs in a world and leaves a world, with a value or an
    exception. *)
Definition M (Client A : Type) : Type := World Client → World Client * outcome A.

#[global] Instance M_ret {Client : Type} : MRet (M Client) :=
  λ A a w, (w, Returned a).

#[global] Instance M_bind {Client : Type} : MBind (M Client) :=
  λ A B f m w,
    match m w with
    | (w', Returned a) => f a w'
    | (w', Raised e) => (w', Raised e)
    end.

Definition raise {Client A : Type} (e : Exn) : M Client A :=
  λ w, (w, Raised e).

(** A call that reads the account. *)
Definition query {Client A : Type} (f : Client → outcome A) : M Client A :=
  λ w, (w, f (r53 w)).

(** A call of the client that changes the account, or raises. *)
Definition update {Client : Type} (f : Client → option Client) : M Client unit :=
  λ w,
    match f (r53 w) with
    | Some c => ({| r53 := c; stdout := stdout w; stderr := stderr w;
                    output := output w |}, Returned ())
    | None => (w, Raised ClientError)
    end.

(** [print(line)] *)
Definition print {Client : Type} (line : string) : M Client unit :=
  λ w, ({| r53 := r53 w; stdout := stdout w ++ [line]; stderr := stderr w;
           output := output w |}, Returned ()).

(** [exit_with_error(error)] *)
Definition exit_with_error {Client A : Type} (error : string) : M Client A :=
  λ w, ({| r53 := r53 w; stdout := stdout w; stderr := stderr w ++ [error];
           output := output w |}, Raised (SystemExit 1)).

(** [output_file.write(s)] *)
Definition write_output {Client : Type} (s : string) : M Client unit :=
  λ w, ({| r53 := r53 w; stdout := stdout w; stderr := stderr w;
           output := output w ++ [s] |}, Returned ()).

(** A value of a library call that may raise [e]. *)
Definition or_raise {Client A : Type} (e : Exn) (o : option A) : M Client A :=
  match o with
  | Some a => mret a
  | None => raise e
  end.

(** [str(operation)] *)
Definition Operation_str (op : Operation) : string :=
  match op with
  | CREATE => "CREATE"
  | DELETE => "DELETE"
  | UPSERT => "UPSERT"
  end.

(** ** [create_zone], [get_hosted_zone_record_sets], [load], [dump], [zones] *)

(** The arguments of [create_hosted_zone]. *)
Record CreateHostedZoneRequest : Type := {
  req_Name : string;
  req_VPCRegion : PyVal;
  req_VPCId : PyVal;
  req_Comment : string;
  req_PrivateZone : PyVal
}.

Section app.
Context {Client File RecordDict : Type}.
(** The client. [list_hosted_zones], [get_hosted_zone] and
    [list_resource_record_sets] read the account; [create_hosted_zone] and
    the [commit] of a batch change it. *)
Variable list_hosted_zones : Client → option (list (list HostedZoneItem)).
Variable get_hosted_zone : Client → string → option GetHostedZoneResponse.
Variable list_resource_record_sets : Client → string → option (list (list RecordDict)).
Variable create_hosted_zone : Client → CreateHostedZoneRequest → option Client.
Variable commit : ChangeBatch → Client → Zone → option Client.
(** The record model, the parser and the serialiser. *)
Variable from_dict : RecordDict → option R53Record.
Variable read_records : File → PyVal → option (list R53Record).
Variable write_records : list R53Record → PyVal → option string.
Variable R53Record_str : R53Record → string.
(** The time [strftime] returns, and the order in which a [frozenset] is
    iterated. *)
Variable strftime : string.
Variable set_iter : list R53Record → list R53Record.

Definition create_zone (zone_name : string) (vpc : gmap string PyVal)
    : M Client (option Zone) :=
  let ts := strftime in
  update (λ r53_client,
    create_hosted_zone r53_client
      {| req_Name := zone_name;
         req_VPCRegion := dict_get vpc "region";
         req_VPCId := dict_get vpc "id";
         req_Comment := "autogenerated by route53-transfer @ " +:+ ts;
         req_PrivateZone := dict_get vpc "is_private" |});;
  query (λ r53_client,
    get_zone list_hosted_zones get_hosted_zone r53_client zone_name (Some vpc)).

Definition get_hosted_zone_record_sets (r53_client : Client) (zone_id : string)
    : outcome (list R53Record) :=
  match list_resource_record_sets r53_client zone_id with
  | None => Raised ClientError
  | Some pages =>
      let resource_record_sets := concat pages in
      match mapM from_dict resource_record_sets with
      | None => Raised ModelError
      | Some records => Returned records
      end
  end.

(** The lines of a batch in a dry run. *)
Fixpoint print_changes (l : list Change) : M Client unit :=
  match l with
  | [] => mret ()
  | change :: l' =>
      print ("    - " +:+ Operation_str (operation change) +:+ " "
             +:+ R53Record_str (record change));;
      print_changes l'
  end.

(** The loop over the batches, [n] being the number of the next one. *)
Fixpoint load_loop (dry_run : bool) (z : Zone) (n : nat)
    (batches : list ChangeBatch) : M Client unit :=
  match batches with
  | [] => mret ()
  | update_batch :: batches' =>
      print ("* Update batch " +:+ pretty n +:+ " ("
             +:+ pretty (length (changes update_batch)) +:+ " changes)");;
      (if dry_run then print_changes (changes update_batch)
       else update (λ r53_client, commit update_batch r53_client z));;
      load_loop dry_run z (S n) batches'
  end.

Definition load (zone_name : string) (file_in : File)
    (dry_run use_upsert : bool) (vpc : gmap string PyVal) (format : PyVal)
    : M Client unit :=
  zone ← query (λ r53,
    get_zone list_hosted_zones get_hosted_zone r53 zone_name (Some vpc));
  zone ← match zone with
         | Some zone => mret (Some zone)
         | None =>
             if dry_run then
               print ("CREATE ZONE: " +:+ zone_name);;
               mret (Some {| zone_id := "fake-zone-id"; zone_name := zone_name |})
             else create_zone zone_name vpc
         end;
  (* [zone['id']] of [None] is a [TypeError] *)
  zone ← or_raise TypeError zone;
  existing_records ← query (λ r53, get_hosted_zone_record_sets r53 (zone_id zone));
  desired_records ← or_raise IOError (read_records file_in format);
  let changes := compute_changes set_iter zone existing_records desired_records
                   use_upsert in
  (if dry_run
   then print "Dry-run requested. No changes are going to be applied"
   else print "Applying changes...");;
  batches ← or_raise (KeyError "prio") (changes_to_r53_updates zone changes);
  load_loop dry_run zone 1 batches;;
  (* the [else] of a [for] without [break] *)
  print "No changes.";;
  print "Done.".

Definition dump (zone_name : string) (vpc : gmap string PyVal) (format : PyVal)
    : M Client unit :=
  zone ← query (λ r53_client,
    get_zone list_hosted_zones get_hosted_zone r53_client zone_name (Some vpc));
  zone ← match zone with
         | Some zone => mret zone
         | None =>
             exit_with_error
               ("ERROR: "
                +:+ (if py_truthy (dict_get vpc "is_private")
                     then "Private" else "Public")
                +:+ " zone " +:+ zone_name +:+ " not found!")
         end;
  records ← query (λ r53_client,
    get_hosted_zone_record_sets r53_client (zone_id zone));
  s ← or_raise IOError (write_records records format);
  write_output s.
End app.

(** ** Running statements *)

Definition with_r53 {Client : Type} (w : World Client) (c : Client) : World Client :=
  {| r53 := c; stdout := stdout w; stderr := stderr w; output := output w |}.

Definition with_stdout {Client : Type} (w : World Client) (lines : list string)
    : World Client :=
  {| r53 := r53 w; stdout := lines; stderr := stderr w; output := output w |}.

(** The statement [m] leaves the account as it is, however it ends. *)
Definition keeps_r53 {Client A : Type} (m : M Client A) : Prop :=
  ∀ w, r53 (m w).1 = r53 w.

Section running.
Context {Client : Type}.
Implicit Types w : World Client.

Lemma bind_run {A B : Type} (m : M Client A) (f : A → M Client B) w :
  (m ≫= f) w
  = match m w with
    | (w', Returned a) => f a w'
    | (w', Raised e) => (w', Raised e)
    end.
Proof. done. Qed.

Lemma bind_Returned {A B : Type} (m : M Client A) (f : A → M Client B) w w' a :
  m w = (w', Returned a) → (m ≫= f) w = f a w'.
Proof. intros H. by rewrite bind_run, H. Qed.

Lemma bind_Raised {A B : Type} (m : M Client A) (f : A → M Client B) w w' e :
  m w = (w', Raised e) → (m ≫= f) w = (w', Raised e).
Proof. intros H. by rewrite bind_run, H. Qed.

Lemma print_run line w :
  print line w = (with_stdout w (stdout w ++ [line]), Returned ()).
Proof. done. Qed.

Lemma with_stdout_id w : with_stdout w (stdout w) = w.
Proof. by destruct w. Qed.

Lemma with_stdout_twice w l l' :
  with_stdout (with_stdout w l) l' = with_stdout w l'.
Proof. done. Qed.

Lemma keeps_r53_ret {A : Type} (a : A) : keeps_r53 (mret a : M Client A).
Proof. by intros w. Qed.

Lemma keeps_r53_raise {A : Type} e : keeps_r53 (raise e : M Client A).
Proof. by intros w. Qed.

Lemma keeps_r53_query {A : Type} (f : Client → outcome A) : keeps_r53 (query f).
Proof. by intros w. Qed.

Lemma keeps_r53_print line : keeps_r53 (print line : M Client unit).
Proof. by intros w. Qed.

Lemma keeps_r53_exit {A : Type} error :
  keeps_r53 (exit_with_error error : M Client A).
Proof. by intros w. Qed.

Lemma keeps_r53_write s : keeps_r53 (write_output s : M Client unit).
Proof. by intros w. Qed.

Lemma keeps_r53_or_raise {A : Type} e (o : option A) :
  keeps_r53 (or_raise e o : M Client A).
Proof. by destruct o; intros w. Qed.

Lemma keeps_r53_bind {A B : Type} (m : M Client A) (f : A → M Client B) :
  keeps_r53 m → (∀ a, keeps_r53 (f a)) → keeps_r53 (m ≫= f).
Proof.
  intros Hm Hf w. rewrite bind_run. specialize (Hm w).
  destruct (m w) as [w' [a|e]]; simpl in *; [|done].
  by rewrite Hf.
Qed.
End running.

Create HintDb keeps.
#[global] Hint Resolve keeps_r53_ret keeps_r53_raise keeps_r53_query keeps_r53_print
  keeps_r53_exit keeps_r53_write keeps_r53_or_raise : keeps.

(** ** What [load] prints and commits *)

(** The line that announces batch number [n]. *)
Definition batch_header (n : nat) (b : ChangeBatch) : string :=
  "* Update batch " +:+ pretty n +:+ " (" +:+ pretty (length (changes b))
  +:+ " changes)".

Section load_facts.
Context {Client File RecordDict : Type}.
Context (list_hosted_zones : Client → option (list (list HostedZoneItem))).
Context (get_hosted_zone : Client → string → option GetHostedZoneResponse).
Context (list_resource_record_sets : Client → string → option (list (list RecordDict))).
Context (create_hosted_zone : Client → CreateHostedZoneRequest → option Client).
Context (commit : ChangeBatch → Client → Zone → option Client).
Context (from_dict : RecordDict → option R53Record).
Context (read_records : File → PyVal → option (list R53Record)).
Context (write_records : list R53Record → PyVal → option string).
Context (R53Record_str : R53Record → string).
Context (strftime : string).
Context (set_iter : list R53Record → list R53Record).
Implicit Types w : World Client.

(** The line of a change in a dry run. *)
Definition change_line (change : Change) : string :=
  "    - " +:+ Operation_str (operation change) +:+ " "
  +:+ R53Record_str (record change).

(** The batches committed one after the other, each on the account the
    one before left; [None] as soon as a commit raises. *)
Fixpoint commit_in_order (z : Zone) (batches : list ChangeBatch) (c : Client)
    : option Client :=
  match batches with
  | [] => Some c
  | b :: batches' => c' ← commit b c z; commit_in_order z batches' c'
  end.

Lemma print_changes_run l w :
  print_changes R53Record_str l w
  = (with_stdout w (stdout w ++ (change_line <$> l)), Returned ()).
Proof.
  revert w. induction l as [|c l IH]; intros w; cbn [print_changes].
  - by rewrite fmap_nil, app_nil_r, with_stdout_id.
  - rewrite bind_run, print_run, IH, with_stdout_twice. cbn [stdout with_stdout].
    by rewrite fmap_cons, <-app_assoc.
Qed.

Lemma load_loop_dry_run z n batches w :
  load_loop commit R53Record_str true z n batches w
  = (with_stdout w
       (stdout w
        ++ concat (imap (λ i b, batch_header (n + i) b :: (change_line <$> changes b))
                        batches)),
     Returned ()).
Proof.
  revert n w. induction batches as [|b l IH]; intros n w; cbn [load_loop].
  - by rewrite app_nil_r, with_stdout_id.
  - rewrite bind_run, print_run, bind_run, print_changes_run, IH, !with_stdout_twice.
    cbn [stdout with_stdout]. rewrite imap_cons, concat_cons, Nat.add_0_r.
    do 2 f_equal. rewrite <-!app_assoc. cbn [app]. do 4 f_equal.
    apply imap_ext. intros i x _. cbn. by rewrite Nat.add_succ_r.
Qed.

Lemma load_loop_commit z n batches w c' :
  commit_in_order z batches (r53 w) = Some c' →
  load_loop commit R53Record_str false z n batches w
  = (with_r53 (with_stdout w (stdout w ++ imap (λ i b, batch_header (n + i) b) batches))
       c',
     Returned ()).
Proof.
  revert n w. induction batches as [|b l IH]; intros n w; cbn [load_loop commit_in_order].
  - intros [= <-]. rewrite app_nil_r. by destruct w.
  - destruct (commit b (r53 w) z) as [c1|] eqn:Hc; [|done]. cbn [mbind option_bind].
    intros Hl. rewrite bind_run, print_run, bind_run. unfold update at 1.
    cbn [r53 with_stdout stdout stderr output]. rewrite Hc.
    rewrite (IH (S n) _); [|done]. unfold with_r53, with_stdout. cbn.
    rewrite <-!app_assoc. cbn [app]. rewrite Nat.add_0_r. do 4 f_equal.
    apply imap_ext. intros i x _. cbn. by rewrite Nat.add_succ_r.
Qed.

Lemma load_loop_abort z n pre b post w c' :
  commit_in_order z pre (r53 w) = Some c' →
  commit b c' z = None →
  load_loop commit R53Record_str false z n (pre ++ b :: post) w
  = (with_r53
       (with_stdout w
          (stdout w ++ imap (λ i b, batch_header (n + i) b) (pre ++ [b])))
       c',
     Raised ClientError).
Proof.
  revert n w. induction pre as [|b0 l IH]; intros n w;
    cbn [load_loop commit_in_order app].
  - intros [= <-] Hb. rewrite bind_run, print_run, bind_run. unfold update at 1.
    cbn [r53 with_stdout stdout stderr output]. rewrite Hb.
    unfold with_r53, with_stdout. cbn. by rewrite Nat.add_0_r.
  - destruct (commit b0 (r53 w) z) as [c1|] eqn:Hc; [|done]. cbn [mbind option_bind].
    intros Hl Hb. rewrite bind_run, print_run, bind_run. unfold update at 1.
    cbn [r53 with_stdout stdout stderr output]. rewrite Hc.
    rewrite (IH (S n) _); [|done..]. unfold with_r53, with_stdout. cbn.
    rewrite <-!app_assoc. cbn [app]. rewrite Nat.add_0_r. do 4 f_equal.
    apply imap_ext. intros i x _. cbn. by rewrite Nat.add_succ_r.
Qed.

Lemma keeps_r53_print_changes l :
  keeps_r53 (print_changes R53Record_str l : M Client unit).
Proof. intros w. by rewrite print_changes_run. Qed.

Lemma keeps_r53_load_loop_dry_run z n batches :
  keeps_r53 (load_loop commit R53Record_str true z n batches).
Proof. intros w. by rewrite load_loop_dry_run. Qed.
End load_facts.

Lemma compute_changes_same set_iter z existing desired use_upsert :
  (∀ r, is_apex_soa_ns z r = false → (r ∈ existing ↔ r ∈ desired)) →
  compute_changes set_iter z existing desired use_upsert = [].
Proof.
  intros Hsame. unfold compute_changes.
  rewrite !difference_subseteq; [done|..]; intros x; unfold frozenset;
    rewrite !elem_of_remove_dups, !elem_of_skip_apex_soa_ns;
    intros [Hx Ha]; (split; [|done]); by apply (Hsame x Ha).
Qed.

Lemma changes_to_r53_updates_nil z : changes_to_r53_updates z [] = Some [].
Proof. done. Qed.

Section load_properties.
Context {Client File RecordDict : Type}.
Context (list_hosted_zones : Client → option (list (list HostedZoneItem))).
Context (get_hosted_zone : Client → string → option GetHostedZoneResponse).
Context (list_resource_record_sets : Client → string → option (list (list RecordDict))).
Context (create_hosted_zone : Client → CreateHostedZoneRequest → option Client).
Context (commit : ChangeBatch → Client → Zone → option Client).
Context (from_dict : RecordDict → option R53Record).
Context (read_records : File → PyVal → option (list R53Record)).
Context (write_records : list R53Record → PyVal → option string).
Context (R53Record_str : R53Record → string).
Context (strftime : string).
Context (set_iter : list R53Record → list R53Record).
Implicit Types w : World Client.

Abbreviation get_zone' := (get_zone list_hosted_zones get_hosted_zone).
Abbreviation record_sets' :=
  (get_hosted_zone_record_sets list_resource_record_sets from_dict).
Abbreviation load' :=
  (load list_hosted_zones get_hosted_zone list_resource_record_sets
     create_hosted_zone commit from_dict read_records R53Record_str strftime
     set_iter).
Abbreviation dump' :=
  (dump list_hosted_zones get_hosted_zone list_resource_record_sets from_dict
     write_records).

(** What [load] does once the zone is known and both record lists are
    read. *)
Lemma load_found zone_name file_in dry_run use_upsert vpc format w zone
    existing desired batches :
  get_zone' (r53 w) zone_name (Some vpc) = Returned (Some zone) →
  record_sets' (r53 w) (zone_id zone) = Returned existing →
  read_records file_in format = Some desired →
  changes_to_r53_updates zone
    (compute_changes set_iter zone existing desired use_upsert) = Some batches →
  load' zone_name file_in dry_run use_upsert vpc format w
  = ((load_loop commit R53Record_str dry_run zone 1 batches;;
      print "No changes.";; print "Done.")
       (with_stdout w
          (stdout w
           ++ [if dry_run
               then "Dry-run requested. No changes are going to be applied"
               else "Applying changes..."]))).
Proof.
  intros Hz He Hd Hb. unfold load.
  rewrite (bind_Returned _ _ w w (Some zone)) by (unfold query; by rewrite Hz).
  rewrite (bind_Returned _ _ w w (Some zone)) by done.
  rewrite (bind_Returned _ _ w w zone) by done.
  rewrite (bind_Returned _ _ w w existing) by (unfold query; by rewrite He).
  rewrite Hd. rewrite (bind_Returned _ _ w w desired) by done.
  cbn zeta. rewrite Hb.
  destruct dry_run; (erewrite bind_Returned; [|apply print_run]);
    by erewrite bind_Returned.
Qed.

(** X17. A dry run never changes the account: whatever the listing, the
    file and the options are, and whether [load] returns or raises, the
    account is the one it started with (no zone is created and no batch
    is committed). *)
Theorem load_dry_run_keeps_account zone_name file_in use_upsert vpc format w :
  r53 (load list_hosted_zones get_hosted_zone list_resource_record_sets
         create_hosted_zone commit from_dict read_records R53Record_str strftime
         set_iter zone_name file_in true use_upsert vpc format w).1
  = r53 w.
Proof.
  revert w. change (keeps_r53 (load' zone_name file_in true use_upsert vpc format)).
  unfold load.
  apply keeps_r53_bind; [auto with keeps|intros zone].
  apply keeps_r53_bind.
  { destruct zone; [auto with keeps|]. apply keeps_r53_bind; auto with keeps. }
  intros zone'. apply keeps_r53_bind; [auto with keeps|intros z].
  apply keeps_r53_bind; [auto with keeps|intros existing].
  apply keeps_r53_bind; [auto with keeps|intros desired]. cbn zeta.
  apply keeps_r53_bind; [auto with keeps|intros _].
  apply keeps_r53_bind; [auto with keeps|intros batches].
  apply keeps_r53_bind; [apply keeps_r53_load_loop_dry_run|intros _].
  apply keeps_r53_bind; auto with keeps.
Qed.

(** X18. A dry run on a zone that exists prints the whole plan and
    returns: the announcement, then for each batch of
    [changes_to_r53_updates], in order and numbered from 1, its header and
    one line per change, then [No changes.] and [Done.]. *)
Theorem load_dry_run_prints_plan zone_name file_in use_upsert vpc format w zone
    existing desired :
  get_zone' (r53 w) zone_name (Some vpc) = Returned (Some zone) →
  record_sets' (r53 w) (zone_id zone) = Returned existing →
  read_records file_in format = Some desired →
  ∃ batches,
    changes_to_r53_updates zone
      (compute_changes set_iter zone existing desired use_upsert) = Some batches
    ∧ load' zone_name file_in true use_upsert vpc format w
      = (with_stdout w
           (stdout w
            ++ ["Dry-run requested. No changes are going to be applied"]
            ++ concat (imap (λ i b, batch_header (S i) b
                                    :: (change_line R53Record_str <$> changes b))
                            batches)
            ++ ["No changes."; "Done."]),
         Returned ()).
Proof.
  intros Hz He Hd.
  destruct (changes_to_r53_updates_spec zone
              (compute_changes set_iter zone existing desired use_upsert))
    as (batches & ps & Hb & _).
  exists batches. split; [done|].
  rewrite (load_found _ _ _ _ _ _ _ _ _ _ _ Hz He Hd Hb).
  rewrite bind_run, load_loop_dry_run, bind_run, !print_run, !with_stdout_twice.
  cbn [stdout with_stdout]. rewrite <-!app_assoc. done.
Qed.

(** X19. Loading a file that holds the records the zone already has, apex
    SOA and NS records aside, commits nothing: the account is unchanged
    and the output is the announcement followed by [No changes.] and
    [Done.]. *)
Theorem load_up_to_date zone_name file_in dry_run use_upsert vpc format w zone
    existing desired :
  get_zone' (r53 w) zone_name (Some vpc) = Returned (Some zone) →
  record_sets' (r53 w) (zone_id zone) = Returned existing →
  read_records file_in format = Some desired →
  (∀ r, is_apex_soa_ns zone r = false → (r ∈ existing ↔ r ∈ desired)) →
  load' zone_name file_in dry_run use_upsert vpc format w
  = (with_stdout w
       (stdout w
        ++ [if dry_run
            then "Dry-run requested. No changes are going to be applied"
            else "Applying changes...";
            "No changes."; "Done."]),
     Returned ()).
Proof.
  intros Hz He Hd Hsame.
  rewrite (load_found _ _ _ _ _ _ _ _ _ _ [] Hz He Hd)
    by (by rewrite compute_changes_same).
  cbn [load_loop]. rewrite bind_run. cbn [mret M_ret].
  rewrite bind_run, !print_run, !with_stdout_twice. cbn [stdout with_stdout].
  by rewrite <-!app_assoc.
Qed.

(** X20. Without [dry_run], when every commit succeeds, [load] commits
    the batches of [changes_to_r53_updates] one after the other in the
    order of the list, prints one header per batch and returns; [No
    changes.] is printed at the end whether or not batches were
    committed. *)
Theorem load_commits_in_order zone_name file_in use_upsert vpc format w zone
    existing desired batches c' :
  get_zone' (r53 w) zone_name (Some vpc) = Returned (Some zone) →
  record_sets' (r53 w) (zone_id zone) = Returned existing →
  read_records file_in format = Some desired →
  changes_to_r53_updates zone
    (compute_changes set_iter zone existing desired use_upsert) = Some batches →
  commit_in_order commit zone batches (r53 w) = Some c' →
  load' zone_name file_in false use_upsert vpc format w
  = (with_r53
       (with_stdout w
          (stdout w ++ ["Applying changes..."]
           ++ imap (λ i b, batch_header (S i) b) batches
           ++ ["No changes."; "Done."]))
       c',
     Returned ()).
Proof.
  intros Hz He Hd Hb Hc.
  rewrite (load_found _ _ _ _ _ _ _ _ _ _ _ Hz He Hd Hb).
  rewrite bind_run, (load_loop_commit _ _ _ _ _ _ c') by done.
  rewrite bind_run, !print_run. unfold with_r53, with_stdout. cbn.
  by rewrite <-!app_assoc.
Qed.

(** X21. Without [dry_run], when the commit of a batch raises, [load]
    raises too: the batches before it are committed, the batches after it
    are not, and neither [No changes.] nor [Done.] is printed. *)
Theorem load_aborts_at_failed_commit zone_name file_in use_upsert vpc format w
    zone existing desired pre b post c' :
  get_zone' (r53 w) zone_name (Some vpc) = Returned (Some zone) →
  record_sets' (r53 w) (zone_id zone) = Returned existing →
  read_records file_in format = Some desired →
  changes_to_r53_updates zone
    (compute_changes set_iter zone existing desired use_upsert)
  = Some (pre ++ b :: post) →
  commit_in_order commit zone pre (r53 w) = Some c' →
  commit b c' zone = None →
  load' zone_name file_in false use_upsert vpc format w
  = (with_r53
       (with_stdout w
          (stdout w ++ ["Applying changes..."]
           ++ imap (λ i b, batch_header (S i) b) (pre ++ [b])))
       c',
     Raised ClientError).
Proof.
  intros Hz He Hd Hb Hpre Hfail.
  rewrite (load_found _ _ _ _ _ _ _ _ _ _ _ Hz He Hd Hb).
  rewrite bind_run, (load_loop_abort _ _ _ _ _ _ _ _ c') by done.
  unfold with_r53, with_stdout. cbn. by rewrite <-!app_assoc.
Qed.
End load_properties.

(** An account for the examples: it has the public zone [example.com.],
    lists the records it is given, and keeps the batches committed so far. *)
Definition example_account_zones (_ : list ChangeBatch)
    : option (list (list HostedZoneItem)) :=
  Some [[example_hosted_zone "Z0123456789" "example.com." false]].

Definition example_no_vpc_lookup (_ : list ChangeBatch) (_ : string)
    : option GetHostedZoneResponse := None.

Definition example_record_sets (records : list R53Record)
    (_ : list ChangeBatch) (_ : string) : option (list (list R53Record)) :=
  Some [records].

Definition example_create_hosted_zone (_ : list ChangeBatch)
    (_ : CreateHostedZoneRequest) : option (list ChangeBatch) := None.

(** A commit that always succeeds, and one that raises once a batch has
    been committed. *)
Definition example_commit (b : ChangeBatch) (c : list ChangeBatch) (_ : Zone)
    : option (list ChangeBatch) := Some (c ++ [b]).

Definition example_commit_once (b : ChangeBatch) (c : list ChangeBatch) (_ : Zone)
    : option (list ChangeBatch) :=
  match c with
  | [] => Some [b]
  | _ :: _ => None
  end.

Definition example_read_records (records : list R53Record) (_ : unit) (_ : PyVal)
    : option (list R53Record) := Some records.

Definition example_R53Record_str (r : R53Record) : string :=
  Name r +:+ " " +:+ Type_ r.

Definition example_world : World (list ChangeBatch) :=
  {| r53 := []; stdout := []; stderr := []; output := [] |}.

(** A file with a record and an alias that points at it. *)
Definition example_alias_file : list R53Record :=
  [alias_record "www.example.com." "A" "host.example.com.";
   plain_record "host.example.com." "A" 300 "127.0.0.1"].

Definition example_load (commit : ChangeBatch → list ChangeBatch → Zone
                                  → option (list ChangeBatch))
    (existing desired : list R53Record) (dry_run : bool)
    : M (list ChangeBatch) unit :=
  load example_account_zones example_no_vpc_lookup (example_record_sets existing)
    example_create_hosted_zone commit Some (example_read_records desired)
    example_R53Record_str "2022-03-22T13:18:00Z" id
    "example.com" () dry_run false {[ "is_private" := PBool false ]} (PStr "yaml").

Lemma load_dry_run_prints_plan_witness :
  ∃ batches,
    changes_to_r53_updates example_zone
      (compute_changes id example_zone [] example_alias_file false) = Some batches
    ∧ example_load example_commit [] example_alias_file true example_world
      = (with_stdout example_world
           (stdout example_world
            ++ ["Dry-run requested. No changes are going to be applied"]
            ++ concat (imap (λ i b, batch_header (S i) b
                                    :: (change_line example_R53Record_str
                                          <$> changes b))
                            batches)
            ++ ["No changes."; "Done."]),
         Returned ()).
Proof. apply load_dry_run_prints_plan; reflexivity. Defined.

Lemma load_up_to_date_witness :
  example_load example_commit example_existing
    [plain_record "www.example.com." "A" 300 "127.0.0.2";
     plain_record "old.example.com." "A" 300 "127.0.0.1"] false example_world
  = (with_stdout example_world
       (stdout example_world ++ ["Applying changes..."; "No changes."; "Done."]),
     Returned ()).
Proof.
  unfold example_load.
  apply load_up_to_date with (zone := example_zone) (existing := example_existing)
    (desired := [plain_record "www.example.com." "A" 300 "127.0.0.2";
                 plain_record "old.example.com." "A" 300 "127.0.0.1"]);
    [reflexivity..|].
  intros r Hr. split; intros Hin;
    repeat (apply elem_of_cons in Hin as [->|Hin]);
    try (by apply elem_of_nil in Hin); try discriminate;
    apply (bool_decide_unpack _); by vm_compute.
Defined.

Lemma load_commits_in_order_witness :
  ∃ batches c',
    changes_to_r53_updates example_zone
      (compute_changes id example_zone [] example_alias_file false) = Some batches
    ∧ commit_in_order example_commit example_zone batches (r53 example_world)
      = Some c'
    ∧ length batches = 2%nat
    ∧ example_load example_commit [] example_alias_file false example_world
      = (with_r53
           (with_stdout example_world
              (stdout example_world ++ ["Applying changes..."]
               ++ imap (λ i b, batch_header (S i) b) batches
               ++ ["No changes."; "Done."]))
           c',
         Returned ()).
Proof.
  eexists _, _. split; [by vm_compute|]. split; [by vm_compute|].
  split; [reflexivity|].
  unfold example_load.
  apply load_commits_in_order with (zone := example_zone) (existing := [])
    (desired := example_alias_file); by vm_compute.
Defined.

Lemma load_aborts_at_failed_commit_witness :
  ∃ b1 b2,
    changes_to_r53_updates example_zone
      (compute_changes id example_zone [] example_alias_file false)
    = Some ([b1] ++ b2 :: [])
    ∧ example_load example_commit_once [] example_alias_file false example_world
      = (with_r53
           (with_stdout example_world
              (stdout example_world ++ ["Applying changes..."]
               ++ imap (λ i b, batch_header (S i) b) ([b1] ++ [b2])))
           [b1],
         Raised ClientError).
Proof.
  eexists _, _. split; [by vm_compute|].
  unfold example_load.
  apply load_aborts_at_failed_commit with (zone := example_zone) (existing := [])
    (desired := example_alias_file) (post := []); by vm_compute.
Defined.

(** ** What [dump] writes *)

Section dump_properties.
Context {Client RecordDict : Type}.
Context (list_hosted_zones : Client → option (list (list HostedZoneItem))).
Context (get_hosted_zone : Client → string → option GetHostedZoneResponse).
Context (list_resource_record_sets : Client → string → option (list (list RecordDict))).
Context (from_dict : RecordDict → option R53Record).
Context (write_records : list R53Record → PyVal → option string).
Implicit Types w : World Client.

End dump_properties.

Definition example_write_records (records : list R53Record) (_ : PyVal)
    : option string :=
  Some (String.concat "; " (example_R53Record_str <$> records)).


(** ** [load] on a zone that does not exist *)

Section load_missing_zone.
Context {Client File RecordDict : Type}.
Context (list_hosted_zones : Client → option (list (list HostedZoneItem))).
Context (get_hosted_zone : Client → string → option GetHostedZoneResponse).
Context (list_resource_record_sets : Client → string → option (list (list RecordDict))).
Context (create_hosted_zone : Client → CreateHostedZoneRequest → option Client).
Context (commit : ChangeBatch → Client → Zone → option Client).
Context (from_dict : RecordDict → option R53Record).
Context (read_records : File → PyVal → option (list R53Record)).
Context (R53Record_str : R53Record → string).
Context (strftime : string).
Context (set_iter : list R53Record → list R53Record).
Implicit Types w : World Client.

(** X23. Without [dry_run], when the zone is not found, [load] asks the
    client to create it, with the name as given and the region, id and
    privacy of [vpc]. If that raises, nothing else happens. Otherwise the
    zone is looked up again on the new account: if it is found, [load]
    goes on exactly as a [load] started on that account; if it is still
    not found, [load] stops with a [TypeError] (on [zone['id']] of
    [None]), the zone being created and no record loaded. *)
Theorem load_creates_missing_zone zone_name file_in use_upsert vpc format w :
  get_zone list_hosted_zones get_hosted_zone (r53 w) zone_name (Some vpc)
  = Returned None →
  load list_hosted_zones get_hosted_zone list_resource_record_sets
    create_hosted_zone commit from_dict read_records R53Record_str strftime
    set_iter zone_name file_in false use_upsert vpc format w
  = match create_hosted_zone (r53 w)
            {| req_Name := zone_name;
               req_VPCRegion := dict_get vpc "region";
               req_VPCId := dict_get vpc "id";
               req_Comment := "autogenerated by route53-transfer @ " +:+ strftime;
               req_PrivateZone := dict_get vpc "is_private" |}
    with
    | None => (w, Raised ClientError)
    | Some c =>
        match get_zone list_hosted_zones get_hosted_zone c zone_name (Some vpc) with
        | Returned (Some _) =>
            load list_hosted_zones get_hosted_zone list_resource_record_sets
              create_hosted_zone commit from_dict read_records R53Record_str
              strftime set_iter zone_name file_in false use_upsert vpc format
              (with_r53 w c)
        | Returned None => (with_r53 w c, Raised TypeError)
        | Raised e => (with_r53 w c, Raised e)
        end
    end.
Proof.
  intros Hz. unfold load at 1. rewrite bind_run. unfold query at 1. rewrite Hz.
  rewrite bind_run. unfold create_zone. rewrite bind_run. unfold update at 1.
  destruct (create_hosted_zone (r53 w) _) as [c|]; [|done].
  fold (with_r53 w c). unfold query at 1. cbn [r53 with_r53].
  destruct (get_zone list_hosted_zones get_hosted_zone c zone_name (Some vpc))
    as [[zone|]|e] eqn:Hz'; [|done..].
  symmetry. unfold load.
  rewrite (bind_Returned _ _ (with_r53 w c) (with_r53 w c) (Some zone))
    by (unfold query; cbn [r53 with_r53]; by rewrite Hz').
  by rewrite (bind_Returned _ _ (with_r53 w c) (with_r53 w c) (Some zone)).
Qed.
End load_missing_zone.

(** An account that is the list of its zones, and in which a zone can be
    created. *)
Definition example_created_zone (req : CreateHostedZoneRequest) : HostedZoneItem :=
  {| hz_Id := Some "/hostedzone/ZNEW"; hz_Name := req_Name req +:+ ".";
     hz_PrivateZone := py_truthy (req_PrivateZone req);
     hz_Comment := Some (req_Comment req) |}.

Definition example_load_new_zone : M (list HostedZoneItem) unit :=
  load (λ c, Some [c]) (λ _ _, None) (λ _ _, Some [[]])
    (λ c req, Some (c ++ [example_created_zone req])) (λ _ c _, Some c)
    Some (example_read_records example_alias_file)
    example_R53Record_str "2022-03-22T13:18:00Z" id
    "example.com" () false false {[ "is_private" := PBool false ]} (PStr "yaml").

Lemma load_creates_missing_zone_witness :
  example_load_new_zone
    {| r53 := []; stdout := []; stderr := []; output := [] |}
  = example_load_new_zone
      {| r53 := [ {| hz_Id := Some "/hostedzone/ZNEW"; hz_Name := "example.com.";
                     hz_PrivateZone := false;
                     hz_Comment :=
                       Some "autogenerated by route53-transfer @ 2022-03-22T13:18:00Z" |} ];
         stdout := []; stderr := []; output := [] |}.
Proof.
  unfold example_load_new_zone.
  rewrite load_creates_missing_zone by reflexivity. reflexivity.
Defined.

Lemma append_ne_self (s : string) (c : Ascii.ascii) (t : string) : s +:+ String c t ≠ s.
Proof. induction s as [|a s IH]; simpl; [done|]. intros [= H]. by apply IH. Qed.

(** A record of the file that the zone does not have, apex SOA and NS
    records aside, is created or upserted in one of the batches. *)
Lemma planned_additions set_iter z existing desired use_upsert batches r :
  iterates_sets set_iter →
  changes_to_r53_updates z (compute_changes set_iter z existing desired use_upsert)
  = Some batches →
  r ∈ desired → r ∉ existing → is_apex_soa_ns z r = false →
  ∃ b c, b ∈ batches ∧ c ∈ changes b ∧ record c = r ∧ operation c ≠ DELETE.
Proof.
  intros Hit Hb Hd He Ha.
  assert (r ∈ to_add z existing desired) as Hadd
    by (apply elem_of_to_add; tauto).
  set (op := if use_upsert && is_in_set set_iter r (to_delete z existing desired)
             then UPSERT else CREATE).
  assert (op ≠ DELETE) as Hop by (unfold op; by destruct (_ && _)).
  assert (mk_change z op r ∈ compute_changes set_iter z existing desired use_upsert)
    as Hc.
  { apply (compute_changes_elem_of _ Hit). do 2 (split; [done|]). right.
    unfold op.
    destruct (use_upsert && is_in_set set_iter r (to_delete z existing desired))
      eqn:Eu.
    - right. apply andb_true_iff in Eu as [-> Eu]. do 3 (split; [done|]).
      apply (is_in_set_true _ Hit) in Eu; [done|apply NoDup_to_delete].
    - left. do 2 (split; [done|]). intros [-> Hs]. simpl in *.
      apply (is_in_set_true _ Hit) in Hs; [congruence|apply NoDup_to_delete]. }
  destruct (changes_to_r53_updates_spec z
              (compute_changes set_iter z existing desired use_upsert))
    as (bs & ps & Hbs & _ & _ & Hcat).
  assert (bs = batches) as -> by congruence.
  rewrite assign_change_priority_spec in Hcat. unfold Spec.assignPriority in Hcat.
  set (p := Spec.targetWeight z
              (compute_changes set_iter z existing desired use_upsert) (Name r)).
  assert (set_prio (mk_change z op r) p ∈ concat (changes <$> batches)) as Hin.
  { rewrite Hcat, sorted_perm. apply list_elem_of_fmap.
    by exists (mk_change z op r). }
  apply elem_of_batches in Hin as (m & b & Hm & Hin).
  exists b, (set_prio (mk_change z op r) p).
  split; [by eapply list_elem_of_lookup_2|]. split; [done|]. split; done.
Qed.

(** ** A dry run on a zone that does not exist *)

Section load_dry_run_missing_zone.
Context {Client File RecordDict : Type}.
Context (list_hosted_zones : Client → option (list (list HostedZoneItem))).
Context (get_hosted_zone : Client → string → option GetHostedZoneResponse).
Context (list_resource_record_sets : Client → string → option (list (list RecordDict))).
Context (create_hosted_zone : Client → CreateHostedZoneRequest → option Client).
Context (commit : ChangeBatch → Client → Zone → option Client).
Context (from_dict : RecordDict → option R53Record).
Context (read_records : File → PyVal → option (list R53Record)).
Context (R53Record_str : R53Record → string).
Context (strftime : string).
Context (set_iter : list R53Record → list R53Record).
Implicit Types w : World Client.

(** X24. In a dry run, when the zone is not found, [load] prints
    [CREATE ZONE:] and plans for the zone [{'name': zone_name, 'id':
    'fake-zone-id'}]: the existing records are those listed for the id
    [fake-zone-id], and the whole plan is printed. The name of this zone
    has no final dot, so the records of the file named [zone_name]
    followed by a dot are not taken for apex records: each of them that
    the listing does not have is created or upserted in some batch,
    whatever its type, SOA and NS included. *)
Theorem load_dry_run_missing_zone zone_name file_in use_upsert vpc format w
    existing desired :
  iterates_sets set_iter →
  get_zone list_hosted_zones get_hosted_zone (r53 w) zone_name (Some vpc)
  = Returned None →
  get_hosted_zone_record_sets list_resource_record_sets from_dict (r53 w)
    "fake-zone-id" = Returned existing →
  read_records file_in format = Some desired →
  ∃ batches,
    changes_to_r53_updates {| zone_id := "fake-zone-id"; zone_name := zone_name |}
      (compute_changes set_iter
         {| zone_id := "fake-zone-id"; zone_name := zone_name |}
         existing desired use_upsert) = Some batches
    ∧ load list_hosted_zones get_hosted_zone list_resource_record_sets
        create_hosted_zone commit from_dict read_records R53Record_str strftime
        set_iter zone_name file_in true use_upsert vpc format w
      = (with_stdout w
           (stdout w
            ++ ["CREATE ZONE: " +:+ zone_name;
                "Dry-run requested. No changes are going to be applied"]
            ++ concat (imap (λ i b, batch_header (S i) b
                                    :: (change_line R53Record_str <$> changes b))
                            batches)
            ++ ["No changes."; "Done."]),
         Returned ())
    ∧ ∀ r, r ∈ desired → r ∉ existing → Name r = zone_name +:+ "." →
           ∃ b c, b ∈ batches ∧ c ∈ changes b ∧ record c = r
                  ∧ operation c ≠ DELETE.
Proof.
  intros Hit Hz He Hd.
  set (fake := {| zone_id := "fake-zone-id"; zone_name := zone_name |}).
  destruct (changes_to_r53_updates_spec fake
              (compute_changes set_iter fake existing desired use_upsert))
    as (batches & ps & Hb & _).
  exists batches. split; [done|]. split.
  - unfold load.
    rewrite (bind_Returned _ _ w w None) by (unfold query; by rewrite Hz).
    rewrite (bind_Returned _ _ w
               (with_stdout w (stdout w ++ ["CREATE ZONE: " +:+ zone_name]))
               (Some fake)) by done.
    rewrite (bind_Returned _ _ _ _ fake) by done.
    rewrite (bind_Returned _ _ _ _ existing)
      by (unfold query, fake; cbn [r53 with_stdout zone_id]; by rewrite He).
    rewrite Hd. erewrite (bind_Returned _ _ _ _ desired) by done.
    cbn zeta. erewrite bind_Returned by apply print_run.
    rewrite Hb. erewrite bind_Returned by done.
    rewrite bind_run, load_loop_dry_run, bind_run, !print_run, !with_stdout_twice.
    cbn [stdout with_stdout]. rewrite <-!app_assoc. done.
  - intros r Hr Hne Hname.
    apply (planned_additions set_iter fake existing desired use_upsert); try done.
    unfold is_apex_soa_ns. rewrite bool_decide_eq_false_2; [done|].
    rewrite Hname. apply append_ne_self.
Qed.
End load_dry_run_missing_zone.

Lemma load_dry_run_missing_zone_witness :
  ∃ batches,
    changes_to_r53_updates {| zone_id := "fake-zone-id"; zone_name := "example.net" |}
      (compute_changes id
         {| zone_id := "fake-zone-id"; zone_name := "example.net" |}
         [] [plain_record "example.net." "NS" 172800 "ns-550.awsdns-04.net."] false)
    = Some batches
    ∧ load example_account_zones example_no_vpc_lookup (example_record_sets [])
        example_create_hosted_zone example_commit Some
        (example_read_records
           [plain_record "example.net." "NS" 172800 "ns-550.awsdns-04.net."])
        example_R53Record_str "2022-03-22T13:18:00Z" id
        "example.net" () true false {[ "is_private" := PBool false ]} (PStr "yaml")
        example_world
      = (with_stdout example_world
           (stdout example_world
            ++ ["CREATE ZONE: " +:+ "example.net";
                "Dry-run requested. No changes are going to be applied"]
            ++ concat (imap (λ i b, batch_header (S i) b
                                    :: (change_line example_R53Record_str
                                          <$> changes b))
                            batches)
            ++ ["No changes."; "Done."]),
         Returned ())
    ∧ ∀ r, r ∈ [plain_record "example.net." "NS" 172800 "ns-550.awsdns-04.net."] →
           r ∉ [] → Name r = "example.net" +:+ "." →
           ∃ b c, b ∈ batches ∧ c ∈ changes b ∧ record c = r
                  ∧ operation c ≠ DELETE.
Proof.
  apply load_dry_run_missing_zone; [apply id_iterates_sets|reflexivity..].
Defined.

(** * The command line: [run]

    [run] reads the parsed command line, builds the [vpc] dict and calls
    one of [dump], [load] and [zones]. The call is kept as a value: which
    function is called, and with which arguments. *)

(** [s.endswith(c)] for a string [c] of one character. *)
Fixpoint endswith_char (c : Ascii.ascii) (s : string) : bool :=
  match s with
  | EmptyString => false
  | String a EmptyString => bool_decide (a = c)
  | String _ s' => endswith_char c s'
  end.

(** [s[:-1]] *)
Fixpoint drop_last (s : string) : string :=
  match s with
  | EmptyString => EmptyString
  | String _ EmptyString => EmptyString
  | String a s' => String a (drop_last s')
  end.

(** [d.get(k, v)] *)
Definition dict_get_default (d : gmap string PyVal) (k : string) (v : PyVal) : PyVal :=
  default v (d !! k).

Inductive Call : Type :=
  (* [dump(r53_client, zone_name, get_file(filename, 'w'), format=format, vpc=vpc)] *)
  | call_dump (zone_name : string) (filename : PyVal) (format : PyVal)
      (vpc : gmap string PyVal)
  (* [load(r53_client, zone_name, get_file(filename, 'r'), vpc=vpc, format=format,
           dry_run=dry_run, use_upsert=use_upsert)] *)
  | call_load (zone_name : PyVal) (filename : PyVal) (vpc : gmap string PyVal)
      (format dry_run use_upsert : PyVal)
  (* [zones(r53_client)] *)
  | call_zones.

Inductive Dispatch : Type :=
  | Calls (c : Call)          (* the call is made; [run] returns [None] after it *)
  | Returns (v : Z)           (* [return v] without a call *)
  | Exits (error : string)    (* [exit_with_error(error)] *)
  | Raises (e : Exn).         (* an exception of [run] itself *)

Definition run (params : gmap string PyVal) (environ : gmap string string)
    : Dispatch :=
  match params !! "<zone>" with
  | None => Raises (KeyError "<zone>")
  | Some zone_name =>
  match params !! "<file>" with
  | None => Raises (KeyError "<file>")
  | Some filename =>
      let format := dict_get_default params "--format" (PStr "yaml") in
      let vpc : gmap string PyVal := ∅ in
      let vpc_or_exit : gmap string PyVal + string :=
        if py_truthy (dict_get params "--private") then
          let vpc := <["is_private" := PBool true]> vpc in
          let vpc :=
            <["region" := py_or (dict_get params "--vpc-region")
                            (from_option PStr PNone (environ !! "AWS_DEFAULT_REGION"))]>
              vpc in
          let vpc := <["id" := dict_get params "--vpc-id"]> vpc in
          if negb (py_truthy (dict_get vpc "region"))
             || negb (py_truthy (dict_get vpc "id"))
          then inr ("ERROR: Private zones require associated VPC Region and ID "
                    +:+ "(--vpc-region, --vpc-id)")
          else inl vpc
        else inl (<["is_private" := PBool false]> vpc) in
      match vpc_or_exit with
      | inr error => Exits error
      | inl vpc =>
          if py_truthy (dict_get params "dump") then
            match zone_name with
            | PStr zone_name =>
                let zone_name :=
                  if endswith_char "."%char zone_name then drop_last zone_name
                  else zone_name in
                Calls (call_dump zone_name filename format vpc)
            | _ => Raises AttributeError
            end
          else if py_truthy (dict_get params "load") then
            let dry_run := dict_get_default params "--dry-run" (PBool false) in
            let use_upsert := dict_get_default params "--use-upsert" (PBool false) in
            Calls (call_load zone_name filename vpc format dry_run use_upsert)
          else if py_truthy (dict_get params "zones") then Calls call_zones
          else Returns 1
      end
  end
  end.

(** ** Properties of [run] *)

(** The region that [run] puts in the [vpc] dict. *)
Definition vpc_region (params : gmap string PyVal) (environ : gmap string string)
    : PyVal :=
  py_or (dict_get params "--vpc-region")
        (from_option PStr PNone (environ !! "AWS_DEFAULT_REGION")).

(** The [vpc] dict of a call. *)
Definition Call_vpc (c : Call) : option (gmap string PyVal) :=
  match c with
  | call_dump _ _ _ vpc => Some vpc
  | call_load _ _ vpc _ _ _ => Some vpc
  | call_zones => None
  end.

Lemma private_vpc_lookups (region id : PyVal) :
  let vpc := <["id" := id]> (<["region" := region]>
               (<["is_private" := PBool true]> (∅ : gmap string PyVal))) in
  dict_get vpc "is_private" = PBool true
  ∧ dict_get vpc "region" = region
  ∧ dict_get vpc "id" = id
  ∧ vpc ≠ ∅.
Proof.
  cbn zeta. unfold dict_get. split; [by simplify_map_eq|].
  split; [by simplify_map_eq|]. split; [by simplify_map_eq|].
  apply insert_non_empty.
Qed.


(** X26. Every call of [dump] or [load] that [run] makes carries a [vpc]
    dict that [get_zone] can use: without [--private] it is
    [{'is_private': False}], a request for a public zone; with [--private]
    it asks for a private zone and holds a non-empty region and the
    non-empty [--vpc-id], so a private zone is never looked up without a
    VPC identifier. *)
Theorem run_calls_with_vpc params environ c vpc :
  run params environ = Calls c →
  Call_vpc c = Some vpc →
  list_private_zones (Some vpc) = py_truthy (dict_get params "--private")
  ∧ (if py_truthy (dict_get params "--private")
     then requested_vpc_id (Some vpc) = dict_get params "--vpc-id"
          ∧ py_truthy (requested_vpc_id (Some vpc)) = true
          ∧ dict_get vpc "region" = vpc_region params environ
          ∧ py_truthy (dict_get vpc "region") = true
     else vpc = {[ "is_private" := PBool false ]}).
Proof.
  unfold run.
  destruct (params !! "<zone>") as [zone_name|]; [|done].
  destruct (params !! "<file>") as [filename|]; [|done].
  cbn zeta.
  assert (∀ (v : gmap string PyVal) d,
    (if py_truthy (dict_get params "dump") then
       match zone_name with
       | PStr zone_name =>
           Calls (call_dump (if endswith_char "."%char zone_name
                             then drop_last zone_name else zone_name)
                    filename (dict_get_default params "--format" (PStr "yaml")) v)
       | _ => Raises AttributeError
       end
     else if py_truthy (dict_get params "load") then
       Calls (call_load zone_name filename v
                (dict_get_default params "--format" (PStr "yaml"))
                (dict_get_default params "--dry-run" (PBool false))
                (dict_get_default params "--use-upsert" (PBool false)))
     else if py_truthy (dict_get params "zones") then Calls call_zones
     else Returns 1) = d →
    d = Calls c → Call_vpc c = Some vpc → v = vpc) as Hdispatch.
  { intros v d <-.
    destruct (py_truthy (dict_get params "dump")).
    - destruct zone_name; try done. by intros [= <-] [= <-].
    - destruct (py_truthy (dict_get params "load")); [by intros [= <-] [= <-]|].
      destruct (py_truthy (dict_get params "zones")); [by intros [= <-]|done]. }
  destruct (py_truthy (dict_get params "--private")) eqn:Hp.
  - destruct (private_vpc_lookups (vpc_region params environ)
                (dict_get params "--vpc-id")) as (Hpriv & Hr & Hi & Hne).
    cbn zeta in Hpriv, Hr, Hi, Hne. fold (vpc_region params environ).
    rewrite Hr, Hi.
    destruct (py_truthy (vpc_region params environ)) eqn:Er; [|done].
    destruct (py_truthy (dict_get params "--vpc-id")) eqn:Ei; [|done].
    cbn [negb orb]. intros Hc Hv.
    specialize (Hdispatch _ _ eq_refl Hc Hv). subst vpc.
    unfold list_private_zones, requested_vpc_id.
    rewrite Hpriv, bool_decide_eq_false_2, Hi, Hr by done. done.
  - intros Hc Hv. specialize (Hdispatch _ _ eq_refl Hc Hv). subst vpc.
    split; [|done]. unfold list_private_zones, dict_get. by simplify_map_eq.
Qed.

Lemma drop_last_endswith (c : Ascii.ascii) (s : string) :
  endswith_char c s = true → drop_last s +:+ String c EmptyString = s.
Proof.
  induction s as [|a s IH]; [done|].
  destruct s as [|b s].
  - cbn. by intros ->%bool_decide_eq_true.
  - intros H.
    change (String a (drop_last (String b s) +:+ String c EmptyString)
            = String a (String b s)).
    f_equal. by apply IH.
Qed.

(** X27. For [dump], [run] takes one final dot off the zone name, so that
    the name [get_zone] compares with the listing, [zone_name + '.'], is
    the name as it was given when it ends with a dot (the form the
    listing has), and the name followed by a dot otherwise. *)
Theorem run_dump_zone_name params environ s c :
  params !! "<zone>" = Some (PStr s) →
  py_truthy (dict_get params "dump") = true →
  run params environ = Calls c →
  ∃ zone_name filename format vpc,
    c = call_dump zone_name filename format vpc
    ∧ params !! "<file>" = Some filename
    ∧ zone_name +:+ "." = (if endswith_char "."%char s then s else s +:+ ".").
Proof.
  unfold run. intros -> Hd.
  destruct (params !! "<file>") as [filename|]; [|done].
  cbn zeta. rewrite Hd.
  assert ((if endswith_char "."%char s then drop_last s else s) +:+ "."
          = (if endswith_char "."%char s then s else s +:+ ".")) as Hname.
  { destruct (endswith_char "."%char s) eqn:E; [|done].
    by apply drop_last_endswith. }
  destruct (py_truthy (dict_get params "--private")).
  - destruct (negb _ || negb _); [done|]. intros [= <-]. by eexists _, _, _, _.
  - intros [= <-]. by eexists _, _, _, _.
Qed.

Definition example_params (zone : string) (private : bool) : gmap string PyVal :=
  <["<zone>" := PStr zone]>
    (<["<file>" := PStr "-"]>
       (<["dump" := PBool true]>
          (<["--private" := PBool private]>
             (<["--vpc-id" := PStr "vpc-1"]> ∅)))).

Definition example_environ : gmap string string :=
  {[ "AWS_DEFAULT_REGION" := "eu-west-1" ]}.

Definition example_run_vpc : gmap string PyVal :=
  <["id" := PStr "vpc-1"]>
    (<["region" := PStr "eu-west-1"]> {[ "is_private" := PBool true ]}).

Lemma run_calls_with_vpc_witness :
  list_private_zones (Some example_run_vpc)
  = py_truthy (dict_get (example_params "example.com." true) "--private")
  ∧ (if py_truthy (dict_get (example_params "example.com." true) "--private")
     then requested_vpc_id (Some example_run_vpc)
          = dict_get (example_params "example.com." true) "--vpc-id"
          ∧ py_truthy (requested_vpc_id (Some example_run_vpc)) = true
          ∧ dict_get example_run_vpc "region"
            = vpc_region (example_params "example.com." true) example_environ
          ∧ py_truthy (dict_get example_run_vpc "region") = true
     else example_run_vpc = {[ "is_private" := PBool false ]}).
Proof.
  apply (run_calls_with_vpc (example_params "example.com." true) example_environ
           (call_dump "example.com" (PStr "-") (PStr "yaml") example_run_vpc));
    by vm_compute.
Defined.

Lemma run_dump_zone_name_witness :
  ∃ zone_name filename format vpc,
    call_dump "example.com" (PStr "-") (PStr "yaml") {[ "is_private" := PBool false ]}
    = call_dump zone_name filename format vpc
    ∧ example_params "example.com." false !! "<file>" = Some filename
    ∧ zone_name +:+ "."
      = (if endswith_char "."%char "example.com." then "example.com."
         else "example.com." +:+ ".").
Proof.
  apply (run_dump_zone_name (example_params "example.com." false) example_environ);
    by vm_compute.
Defined.
